(** * The spreadsheet-backed ledger of [bot.py]

    A shallow embedding of the ledger operations of the bot
    ([add_to_google_sheets], [remove_recent_from_sheets],
    [get_month_summary], [get_logs], [get_log_filters], [end_month]) and of
    the command handlers that decide what the user is told ([add_slash],
    [removerecent_slash], [logs_slash], [getlink_slash], [getimage_slash],
    [summary_slash], [endmonth_slash]), of the three autocompletions, and
    of the image upload ([upload_image_to_imgbb], [on_message]).

    The remote spreadsheet is an explicit value of the state; every function
    of the source that calls the Sheets service is a computation in a state
    and exception monad, in which a raised exception keeps the writes done
    before it.  The journal of service calls is part of the state, so that
    "no call was made" is a statement about the state. *)

From Stdlib Require Import List String Ascii ZArith Lia Bool Arith.
From Stdlib Require Import DecimalString.
Import ListNotations.

Local Open Scope string_scope.
Local Open Scope Z_scope.

(** ** Python values *)

(** The exceptions the modelled code can meet.  All of them derive from
    [Exception], which is what every [except] clause of the ledger
    operations catches; [add_slash] catches [ValueError] only. *)
Inductive exn : Type :=
| ValueError
| IndexError
| OverflowError
| HttpError.

Inductive result (A : Type) : Type :=
| Ok (a : A)
| Raise (e : exn).

Arguments Ok {A} a.
Arguments Raise {A} e.

Module Py.

Definition bind {A B} (r : result A) (k : A -> result B) : result B :=
  match r with
  | Ok a => k a
  | Raise e => Raise e
  end.

(** [len(l)] *)
Definition len {A} (l : list A) : Z := Z.of_nat (List.length l).

(** [l[i]]: a negative index counts from the end, an index out of range
    raises [IndexError]. *)
Definition index {A} (l : list A) (i : Z) : result A :=
  let j := if i <? 0 then i + len l else i in
  if j <? 0 then Raise IndexError
  else match nth_error l (Z.to_nat j) with
       | Some a => Ok a
       | None => Raise IndexError
       end.

(** [range(n)] *)
Definition range (n : Z) : list Z := map Z.of_nat (seq 0 (Z.to_nat n)).

(** [max(...)] of a sequence: [ValueError] when it is empty. *)
Definition max_of (l : list Z) : result Z :=
  match l with
  | [] => Raise ValueError
  | x :: t => Ok (fold_left Z.max t x)
  end.

(** [for x in l] building a list, stopping at the first exception. *)
Fixpoint for_list {A B} (f : A -> result B) (l : list A) : result (list B) :=
  match l with
  | [] => Ok []
  | x :: t =>
      bind (f x) (fun y => bind (for_list f t) (fun ys => Ok (y :: ys)))
  end.

(** Characters.  Strings are sequences of 8-bit characters; the letters
    and digits of the model are the ASCII ones, and a character above 127
    is neither a letter, a digit nor white space.  On strings of ASCII
    characters [upper], [lower] and [Float.parses] are what [str.upper],
    [str.lower] and [float] are; Python also changes the case of letters
    outside ASCII and takes the decimal digits and the white space of
    Unicode for a number, so a statement that rests on the outcome of one
    of them on a string that a user types is made for strings of ASCII
    characters. *)
Definition is_ascii_char (c : ascii) : bool := (nat_of_ascii c <? 128)%nat.

Definition is_ascii (s : string) : bool :=
  forallb is_ascii_char (list_ascii_of_string s).

Definition is_lower (c : ascii) : bool :=
  let n := nat_of_ascii c in (97 <=? n)%nat && (n <=? 122)%nat.

Definition is_upper (c : ascii) : bool :=
  let n := nat_of_ascii c in (65 <=? n)%nat && (n <=? 90)%nat.

Definition is_digit (c : ascii) : bool :=
  let n := nat_of_ascii c in (48 <=? n)%nat && (n <=? 57)%nat.

(** What [str.strip] and [float] take for white space: space, and the
    controls tab, line feed, vertical tab, form feed, carriage return. *)
Definition is_space (c : ascii) : bool :=
  let n := nat_of_ascii c in
  (n =? 32)%nat || ((9 <=? n)%nat && (n <=? 13)%nat).

Definition upper_char (c : ascii) : ascii :=
  if is_lower c then ascii_of_nat (nat_of_ascii c - 32) else c.

Definition lower_char (c : ascii) : ascii :=
  if is_upper c then ascii_of_nat (nat_of_ascii c + 32) else c.

(** [s.upper()] and [s.lower()] *)
Fixpoint upper (s : string) : string :=
  match s with
  | EmptyString => EmptyString
  | String c t => String (upper_char c) (upper t)
  end.

Fixpoint lower (s : string) : string :=
  match s with
  | EmptyString => EmptyString
  | String c t => String (lower_char c) (lower t)
  end.

(** [s.replace(c, '')] for a one-character [c]. *)
Fixpoint remove_char (c : ascii) (s : string) : string :=
  match s with
  | EmptyString => EmptyString
  | String a t =>
      if Ascii.eqb a c then remove_char c t else String a (remove_char c t)
  end.

(** [s.split(c)[-1]]: what follows the last [c], the whole string when
    there is none. *)
Fixpoint last_segment (c : ascii) (s : string) : string :=
  match s with
  | EmptyString => EmptyString
  | String a t =>
      if Ascii.eqb a c then last_segment c t
      else if existsb (Ascii.eqb c) (list_ascii_of_string t)
           then last_segment c t
           else s
  end.

End Py.

Notation "x <-? e ;; k" := (Py.bind e (fun x => k))
  (at level 61, e at next level, right associativity).

(** ** The spreadsheet *)

(** A sheet's cells: rows of cells, the empty string for an empty cell;
    what lies beyond the end of a row or of the grid is empty.  Row [r] of
    the A1 notation is at position [r - 1], column A at position 0. *)
Definition Grid : Type := list (list string).

Record Sheet : Type := mkSheet {
  sheetId : nat;
  title : string;
  hidden : bool;
  cells : Grid
}.

Definition Spreadsheet : Type := list Sheet.

(** An A1 range in parsed form: [Logs!C:C] is columns C to C of sheet Logs
    from row 1 on, with no last row; [JAN!Q15] is one cell. *)
Record Range : Type := mkRange {
  r_sheet : string;
  r_col0 : nat;
  r_col1 : nat;
  r_row0 : nat;
  r_row1 : option nat
}.

Definition colA : nat := 0.
Definition colC : nat := 2.
Definition colE : nat := 4.
Definition colG : nat := 6.
Definition colJ : nat := 9.
Definition colP : nat := 15.
Definition colQ : nat := 16.
Definition colZ : nat := 25.

(** [f"{sheet}!{col}:{col}"] *)
Definition whole_column (sheet : string) (col : nat) : Range :=
  mkRange sheet col col 1 None.

(** [f"{sheet}!{col}{row}:{col}"] *)
Definition column_from (sheet : string) (col row : nat) : Range :=
  mkRange sheet col col row None.

(** [f"{sheet}!{col}{row}"] *)
Definition one_cell (sheet : string) (col row : nat) : Range :=
  mkRange sheet col col row (Some row).

Module Grids.

Definition cell (g : Grid) (row col : nat) : string :=
  nth col (nth (row - 1) g []) "".

(** The service leaves out what is empty at the end: the empty cells that
    end a row, the empty rows that end a range.  A row that is empty and
    has a value after it in the range stays, as the empty list. *)
Fixpoint strip_end {A} (blank : A -> bool) (l : list A) : list A :=
  match l with
  | [] => []
  | x :: t =>
      match strip_end blank t with
      | [] => if blank x then [] else [x]
      | t' => x :: t'
      end
  end.

Definition blank_cell (s : string) : bool := String.eqb s "".

Definition blank_row (r : list string) : bool :=
  match r with [] => true | _ => false end.

Definition row_slice (c0 c1 : nat) (row : list string) : list string :=
  strip_end blank_cell (firstn (c1 - c0 + 1) (skipn c0 row)).

Definition rows_slice (r0 : nat) (r1 : option nat) (g : Grid) : Grid :=
  let below := skipn (r0 - 1) g in
  match r1 with
  | None => below
  | Some r => firstn (r - r0 + 1) below
  end.

(** The ['values'] of a range, [[]] when the response has no such key. *)
Definition read (g : Grid) (rg : Range) : list (list string) :=
  strip_end blank_row
    (map (row_slice (r_col0 rg) (r_col1 rg))
         (rows_slice (r_row0 rg) (r_row1 rg) g)).

Fixpoint set_nth {A} (d : A) (n : nat) (x : A) (l : list A) : list A :=
  match n, l with
  | O, [] => [x]
  | O, _ :: t => x :: t
  | S n', [] => d :: set_nth d n' x []
  | S n', h :: t => h :: set_nth d n' x t
  end.

Fixpoint write_cells (c : nat) (vals row : list string) : list string :=
  match vals with
  | [] => row
  | v :: vs => write_cells (S c) vs (set_nth "" c v row)
  end.

(** Writing rows of values from the cell at position ([r], [c0]) on. *)
Fixpoint write_rows (r c0 : nat) (vals : list (list string)) (g : Grid)
  : Grid :=
  match vals with
  | [] => g
  | vr :: rest =>
      write_rows (S r) c0 rest
        (set_nth [] r (write_cells c0 vr (nth r g [])) g)
  end.

Definition write (g : Grid) (rg : Range) (vals : list (list string))
  : Grid :=
  write_rows (r_row0 rg - 1) (r_col0 rg) vals g.

Fixpoint mapi_from {A B} (i : nat) (f : nat -> A -> B) (l : list A)
  : list B :=
  match l with
  | [] => []
  | x :: t => f i x :: mapi_from (S i) f t
  end.

Definition in_rows (rg : Range) (row : nat) : bool :=
  (r_row0 rg <=? row)%nat &&
  match r_row1 rg with
  | None => true
  | Some r => (row <=? r)%nat
  end.

Definition in_cols (rg : Range) (col : nat) : bool :=
  (r_col0 rg <=? col)%nat && (col <=? r_col1 rg)%nat.

(** Clearing empties the cells of the range and moves nothing. *)
Definition clear (g : Grid) (rg : Range) : Grid :=
  mapi_from 1
    (fun row cs =>
       if in_rows rg row
       then mapi_from 0 (fun col v => if in_cols rg col then "" else v) cs
       else cs)
    g.

End Grids.

(** ** The service and the process state *)

Inductive InputOption : Type :=
| RAW
| USER_ENTERED.

Inductive Request : Type :=
| DuplicateSheet (sourceSheetId insertSheetIndex : nat) (newSheetName : string)
| SetHidden (id : nat) (h : bool)
| SetTitle (id : nat) (t : string).

(** The calls of the Sheets service that the bot makes. *)
Inductive ApiCall : Type :=
| ValuesBatchGet (ranges : list Range)
| ValuesGet (rg : Range)
| ValuesUpdate (rg : Range) (opt : InputOption) (vals : list (list string))
| ValuesClear (rg : Range)
| SpreadsheetsGet
| BatchUpdate (rq : Request).

(** A record of the log as [get_logs] returns it: creator, link, price, paid. *)
Definition LogRow : Type := (string * string * string * string)%type.

(** The spreadsheet [GOOGLE_SHEETS_ID], the two module-level caches
    [log_filters_cache] ([None] until filled) and [recent_logs], and the
    journal of the service calls made so far, oldest first. *)
Record World : Type := mkWorld {
  book : Spreadsheet;
  log_filters_cache : option (list string);
  recent_logs : list LogRow;
  calls : list ApiCall
}.

Definition set_book (b : Spreadsheet) (w : World) : World :=
  mkWorld b (log_filters_cache w) (recent_logs w) (calls w).

Definition set_log_filters_cache (c : option (list string)) (w : World)
  : World :=
  mkWorld (book w) c (recent_logs w) (calls w).

Definition set_recent_logs (l : list LogRow) (w : World) : World :=
  mkWorld (book w) (log_filters_cache w) l (calls w).

Definition journal (c : ApiCall) (w : World) : World :=
  mkWorld (book w) (log_filters_cache w) (recent_logs w)
          (calls w ++ [c])%list.

(** Computations over the process state that may raise.  The state that
    comes with [Raise] is the state at the moment of the exception. *)
Definition M (A : Type) : Type := World -> result A * World.

Definition ret {A} (a : A) : M A := fun w => (Ok a, w).

Definition raise {A} (e : exn) : M A := fun w => (Raise e, w).

Definition bindM {A B} (m : M A) (k : A -> M B) : M B :=
  fun w =>
    match m w with
    | (Ok a, w') => k a w'
    | (Raise e, w') => (Raise e, w')
    end.

Definition lift {A} (r : result A) : M A := fun w => (r, w).

(** [try: body except Exception: handler] *)
Definition try_except {A} (body : M A) (handler : exn -> M A) : M A :=
  fun w =>
    match body w with
    | (Ok a, w') => (Ok a, w')
    | (Raise e, w') => handler e w'
    end.

Notation "x <- e ;; k" := (bindM e (fun x => k))
  (at level 61, e at next level, right associativity).
Notation "e ;;; k" := (bindM e (fun _ => k))
  (at level 61, right associativity).

(** [for x in l: body] *)
Fixpoint for_each {A} (l : list A) (body : A -> M unit) : M unit :=
  match l with
  | [] => ret tt
  | x :: t => body x ;;; for_each t body
  end.

(** The model of the service.  A range names its sheet by its exact title
    and a request names it by its identifier; a call fails, with
    [HttpError], when the sheet it names is not there, when a duplicate or a
    renaming asks for a title that another sheet has, and in no other case
    (the network is not modelled): that a call succeeds reads "when the
    service answers".  A sheet has no last row or column.  The values
    written are kept as they are given, for both input options; the
    service parses what is written with [USER_ENTERED] (a number, a date,
    a formula), and no statement below is about what a cell written with
    that option holds afterwards.  The reading of the clock is one value
    [now]. *)
Module Sheets.

Definition by_title (t : string) (sh : Sheet) : bool :=
  String.eqb (title sh) t.

Definition by_id (i : nat) (sh : Sheet) : bool := Nat.eqb (sheetId sh) i.

Definition set_cells (g : Grid) (sh : Sheet) : Sheet :=
  mkSheet (sheetId sh) (title sh) (hidden sh) g.

Definition set_hidden (h : bool) (sh : Sheet) : Sheet :=
  mkSheet (sheetId sh) (title sh) h (cells sh).

Definition set_title (t : string) (sh : Sheet) : Sheet :=
  mkSheet (sheetId sh) t (hidden sh) (cells sh).

Definition update_where (p : Sheet -> bool) (f : Sheet -> Sheet)
           (b : Spreadsheet) : Spreadsheet :=
  map (fun sh => if p sh then f sh else sh) b.

(** The identifier the service gives a new sheet: one the spreadsheet
    does not use. *)
Definition fresh_id (b : Spreadsheet) : nat :=
  S (fold_right Nat.max 0%nat (map sheetId b)).

(** A range names its sheet by title; the call fails when the
    spreadsheet has no such sheet. *)
Definition read_range (b : Spreadsheet) (rg : Range)
  : result (list (list string)) :=
  match find (by_title (r_sheet rg)) b with
  | Some sh => Ok (Grids.read (cells sh) rg)
  | None => Raise HttpError
  end.

(** [spreadsheets().values().get(range=rg).execute()], as the
    ['values'] of the response. *)
Definition values_get (rg : Range) : M (list (list string)) :=
  fun w =>
    let w := journal (ValuesGet rg) w in
    (read_range (book w) rg, w).

(** [spreadsheets().values().batchGet(ranges=rgs).execute()], as the
    ['values'] of each of the ['valueRanges'], in the order asked. *)
Definition values_batch_get (rgs : list Range)
  : M (list (list (list string))) :=
  fun w =>
    let w := journal (ValuesBatchGet rgs) w in
    (Py.for_list (read_range (book w)) rgs, w).

(** [spreadsheets().values().update(range=rg, valueInputOption=opt,
    body={"values": vals}).execute()] *)
Definition values_update (rg : Range) (opt : InputOption)
           (vals : list (list string)) : M unit :=
  fun w =>
    let w := journal (ValuesUpdate rg opt vals) w in
    match find (by_title (r_sheet rg)) (book w) with
    | Some _ =>
        (Ok tt,
         set_book
           (update_where (by_title (r_sheet rg))
              (fun sh => set_cells (Grids.write (cells sh) rg vals) sh)
              (book w)) w)
    | None => (Raise HttpError, w)
    end.

(** [spreadsheets().values().clear(range=rg).execute()] *)
Definition values_clear (rg : Range) : M unit :=
  fun w =>
    let w := journal (ValuesClear rg) w in
    match find (by_title (r_sheet rg)) (book w) with
    | Some _ =>
        (Ok tt,
         set_book
           (update_where (by_title (r_sheet rg))
              (fun sh => set_cells (Grids.clear (cells sh) rg) sh)
              (book w)) w)
    | None => (Raise HttpError, w)
    end.

(** [spreadsheets().get().execute()['sheets']] *)
Definition spreadsheets_get : M (list Sheet) :=
  fun w =>
    let w := journal SpreadsheetsGet w in
    (Ok (book w), w).

Definition apply_request (rq : Request) (b : Spreadsheet)
  : result Spreadsheet :=
  match rq with
  | DuplicateSheet src idx name =>
      match find (by_id src) b, find (by_title name) b with
      | Some sh, None =>
          Ok (firstn idx b
                ++ mkSheet (fresh_id b) name (hidden sh) (cells sh)
                :: skipn idx b)%list
      | _, _ => Raise HttpError
      end
  | SetHidden id h =>
      match find (by_id id) b with
      | Some _ => Ok (update_where (by_id id) (set_hidden h) b)
      | None => Raise HttpError
      end
  | SetTitle id t =>
      match find (by_id id) b with
      | Some _ =>
          if existsb (fun sh => by_title t sh && negb (by_id id sh)) b
          then Raise HttpError
          else Ok (update_where (by_id id) (set_title t) b)
      | None => Raise HttpError
      end
  end.

(** [spreadsheets().batchUpdate(body={"requests": [rq]}).execute()] *)
Definition batch_update (rq : Request) : M unit :=
  fun w =>
    let w := journal (BatchUpdate rq) w in
    match apply_request rq (book w) with
    | Ok b => (Ok tt, set_book b w)
    | Raise e => (Raise e, w)
    end.

(** [d.get('values', dflt)] on a response or value range. *)
Definition values_or (dflt vals : list (list string))
  : list (list string) :=
  match vals with
  | [] => dflt
  | _ => vals
  end.

End Sheets.

(** ** Months and dates *)

Module Calendar.

Record date : Type := mkDate { year : Z; month : Z; day : Z }.

Definition MAXYEAR : Z := 9999.

Definition is_leap (y : Z) : bool :=
  (y mod 4 =? 0) && (negb (y mod 100 =? 0) || (y mod 400 =? 0)).

Definition days_in_month (y m : Z) : Z :=
  if m =? 2 then (if is_leap y then 29 else 28)
  else if (m =? 4) || (m =? 6) || (m =? 9) || (m =? 11) then 30
  else 31.

Definition valid (d : date) : Prop :=
  1 <= year d <= MAXYEAR /\ 1 <= month d <= 12 /\
  1 <= day d <= days_in_month (year d) (month d).

(** [d.replace(day=n)] for an [n] every month has. *)
Definition replace_day (d : date) (n : Z) : date :=
  mkDate (year d) (month d) n.

(** The day after [d]; there is none after 31 December [MAXYEAR]. *)
Definition tomorrow (d : date) : result date :=
  if day d <? days_in_month (year d) (month d)
  then Ok (mkDate (year d) (month d) (day d + 1))
  else if month d <? 12 then Ok (mkDate (year d) (month d + 1) 1)
  else if year d <? MAXYEAR then Ok (mkDate (year d + 1) 1 1)
  else Raise OverflowError.

(** [d + timedelta(days=n)] for [n] days ahead. *)
Fixpoint add_days (n : nat) (d : date) : result date :=
  match n with
  | O => Ok d
  | S n' => d' <-? tomorrow d ;; add_days n' d'
  end.

(** The month names of the (default) C locale. *)
Definition month_names : list string :=
  ["January"; "February"; "March"; "April"; "May"; "June"; "July";
   "August"; "September"; "October"; "November"; "December"].

Definition abbreviation (name : string) : string := substring 0 3 name.

(** [d.strftime("%B")] and [d.strftime("%b")] *)
Definition strftime_B (d : date) : string :=
  nth (Z.to_nat (month d - 1)) month_names "".

Definition strftime_b (d : date) : string := abbreviation (strftime_B d).

Fixpoint lookup_month (s : string) (names : list string) (m : Z)
  : result Z :=
  match names with
  | [] => Raise ValueError
  | n :: rest =>
      if String.eqb (Py.lower s) (Py.lower (abbreviation n)) then Ok m
      else lookup_month s rest (m + 1)
  end.

(** [datetime.strptime(s, "%b")]: the whole of [s] is a month
    abbreviation, in any case of letters; the date is the first day of
    that month of 1900. *)
Definition strptime_b (s : string) : result date :=
  m <-? lookup_month s month_names 1 ;; Ok (mkDate 1900 m 1).

End Calendar.

(** ** [float(s)] *)

(** [add_slash] calls [float] for its exception only, so the model keeps
    of [float] which strings it takes: white space off both ends, an
    underscore only between two digits, then a sign, then [inf],
    [infinity] or [nan] in any case of letters, or digits with at most one
    point and at least one digit, and an exponent if it has a digit.
    This is [float] on the strings of ASCII characters. *)
Module Float.

Fixpoint drop_while {A} (p : A -> bool) (l : list A) : list A :=
  match l with
  | [] => []
  | x :: t => if p x then drop_while p t else l
  end.

Definition strip (l : list ascii) : list ascii :=
  rev (drop_while Py.is_space (rev (drop_while Py.is_space l))).

Definition underscore (c : ascii) : bool := Ascii.eqb c "_".

Definition after_underscore (prev : option ascii) : bool :=
  match prev with
  | Some p => underscore p
  | None => false
  end.

Definition after_digit (prev : option ascii) : bool :=
  match prev with
  | Some p => Py.is_digit p
  | None => false
  end.

(** The characters without the underscores, [None] when an underscore
    does not stand between two digits; [prev] is the character before. *)
Fixpoint without_underscores (prev : option ascii) (l : list ascii)
  : option (list ascii) :=
  match l with
  | [] => if after_underscore prev then None else Some []
  | c :: t =>
      if underscore c
      then if after_digit prev then without_underscores (Some c) t
           else None
      else if after_underscore prev && negb (Py.is_digit c) then None
           else option_map (cons c) (without_underscores (Some c) t)
  end.

Fixpoint digits (l : list ascii) : list ascii * list ascii :=
  match l with
  | [] => ([], [])
  | c :: t =>
      if Py.is_digit c then let (d, r) := digits t in (c :: d, r)
      else ([], l)
  end.

Definition is_sign (c : ascii) : bool :=
  Ascii.eqb c "+" || Ascii.eqb c "-".

Definition unsigned (l : list ascii) : list ascii :=
  match l with
  | c :: t => if is_sign c then t else l
  | [] => l
  end.

Definition is_e (c : ascii) : bool := Ascii.eqb c "e" || Ascii.eqb c "E".

Definition is_point (c : ascii) : bool := Ascii.eqb c ".".

Definition no_digit (l : list ascii) : bool :=
  match l with [] => true | _ => false end.

Definition exponent (l : list ascii) : bool :=
  match l with
  | [] => true
  | c :: t =>
      is_e c &&
      let (d, r) := digits (unsigned t) in
      negb (no_digit d) && no_digit r
  end.

Definition number (l : list ascii) : bool :=
  let (whole, r) := digits l in
  match r with
  | c :: r' =>
      if is_point c
      then let (frac, r'') := digits r' in
           negb (no_digit whole && no_digit frac) && exponent r''
      else negb (no_digit whole) && exponent r
  | [] => negb (no_digit whole)
  end.

Definition inf_or_nan (l : list ascii) : bool :=
  let s := Py.lower (string_of_list_ascii l) in
  String.eqb s "inf" || String.eqb s "infinity" || String.eqb s "nan".

Definition literal (l : list ascii) : bool :=
  let u := unsigned l in inf_or_nan u || number u.

Definition parses (s : string) : bool :=
  match without_underscores None (strip (list_ascii_of_string s)) with
  | Some l => literal l
  | None => false
  end.

(** [float(s)], its value left out. *)
Definition float (s : string) : result unit :=
  if parses s then Ok tt else Raise ValueError.

End Float.

(** ** Ledger operations *)

Definition Summary : Type := (bool * string * string * string * string)%type.

Definition Removed : Type := (string * string * string)%type.

(** [value_ranges[k].get('values', dflt)[0][0]] *)
Definition first_value (value_ranges : list (list (list string))) (k : Z)
           (dflt : list (list string)) : result string :=
  v <-? Py.index value_ranges k ;;
  row <-? Py.index (Sheets.values_or dflt v) 0 ;;
  Py.index row 0.

(** [value_ranges[k].get('values', [])[i][0]
     if i < len(value_ranges[k].get('values', [])) else dflt] *)
Definition field_at (value_ranges : list (list (list string))) (k i : Z)
           (dflt : string) : result string :=
  v <-? Py.index value_ranges k ;;
  if i <? Py.len (Sheets.values_or [] v)
  then v' <-? Py.index value_ranges k ;;
       row <-? Py.index (Sheets.values_or [] v') i ;;
       Py.index row 0
  else Ok dflt.

(** The length of the longest of the columns fetched. *)
Definition longest (value_ranges : list (list (list string))) : result Z :=
  Py.max_of (map (fun v => Py.len (Sheets.values_or [] v)) value_ranges).

Definition add_to_google_sheets (creator_name link price : string) : M bool :=
  try_except
    (value_ranges <- Sheets.values_batch_get [whole_column "Logs" colC] ;;
     v <- lift (Py.index value_ranges 0) ;;
     let max_rows := Py.len (Sheets.values_or [] v) in
     let next_row := Z.to_nat (max_rows + 1) in
     Sheets.values_update
       (mkRange "Logs" colA colG next_row (Some next_row)) USER_ENTERED
       [[""; ""; creator_name; ""; link; ""; price]] ;;;
     ret true)
    (fun _ => ret false).

(** The snapshot of the row [i] places above the last one. *)
Definition removed_record (value_ranges : list (list (list string)))
           (max_rows i : Z) : result Removed :=
  c <-? field_at value_ranges 0 (max_rows - 1 - i) "" ;;
  e <-? field_at value_ranges 1 (max_rows - 1 - i) "" ;;
  g <-? field_at value_ranges 2 (max_rows - 1 - i) "" ;;
  Ok (c, e, g).

Definition remove_recent_from_sheets (count : Z) : M (bool * list Removed) :=
  try_except
    (value_ranges <-
       Sheets.values_batch_get
         [whole_column "Logs" colC; whole_column "Logs" colE;
          whole_column "Logs" colG] ;;
     max_rows <- lift (longest value_ranges) ;;
     if max_rows <=? 1 then ret (false, [])
     else
       let rows_to_remove := Z.min count (max_rows - 1) in
       removed_records <-
         lift (Py.for_list (removed_record value_ranges max_rows)
                 (Py.range rows_to_remove)) ;;
       for_each (Py.range rows_to_remove)
         (fun i =>
            let row := Z.to_nat (max_rows - i) in
            for_each [colC; colE; colG]
              (fun col => Sheets.values_clear (one_cell "Logs" col row))) ;;;
       ret (true, rev removed_records))
    (fun _ => ret (false, [])).

Definition get_month_summary (month_abbr : string) : M Summary :=
  try_except
    (let month_short := Py.upper month_abbr in
     d <- lift (Calendar.strptime_b month_short) ;;
     let month_full := Calendar.strftime_B d in
     value_ranges <-
       Sheets.values_batch_get
         [one_cell month_short colQ 15; one_cell month_short colQ 18;
          one_cell month_short colQ 21] ;;
     earned <- lift (first_value value_ranges 0 [["$0.00"]]) ;;
     pending <- lift (first_value value_ranges 1 [["$0.00"]]) ;;
     work_done <- lift (first_value value_ranges 2 [["0"]]) ;;
     ret (true, month_full, earned, pending, work_done))
    (fun _ => ret (false, "", "$0.00", "$0.00", "0")).

(** [x in ["N/A", "No", "", "FALSE"]] *)
Definition sentinel (x : string) : bool :=
  existsb (String.eqb x) ["N/A"; "No"; ""; "FALSE"].

(** The four fields of row [i] of the fetched ranges. *)
Definition log_fields (value_ranges : list (list (list string))) (i : Z)
  : result (list string) :=
  c <-? field_at value_ranges 0 i "N/A" ;;
  e <-? field_at value_ranges 1 i "N/A" ;;
  g <-? field_at value_ranges 2 i "N/A" ;;
  j <-? field_at value_ranges 3 i "No" ;;
  Ok [c; e; g; j].

Definition log_row (value_ranges : list (list (list string))) (i : Z)
  : result LogRow :=
  c <-? field_at value_ranges 0 i "N/A" ;;
  e <-? field_at value_ranges 1 i "N/A" ;;
  g <-? field_at value_ranges 2 i "N/A" ;;
  j <-? field_at value_ranges 3 i "No" ;;
  Ok (c, e, g, j).

(** The comprehension of [get_logs]: for each [i] the condition, and the
    row when the condition holds. *)
Fixpoint present_rows (value_ranges : list (list (list string)))
         (indices : list Z) : result (list LogRow) :=
  match indices with
  | [] => Ok []
  | i :: rest =>
      fields <-? log_fields value_ranges i ;;
      if negb (forallb sentinel fields)
      then row <-? log_row value_ranges i ;;
           rows <-? present_rows value_ranges rest ;;
           Ok (row :: rows)
      else present_rows value_ranges rest
  end.

Definition get_logs : M (bool * list LogRow) :=
  try_except
    (value_ranges <-
       Sheets.values_batch_get
         [column_from "Logs" colC 7; column_from "Logs" colE 7;
          column_from "Logs" colG 7; column_from "Logs" colJ 7] ;;
     max_rows <- lift (longest value_ranges) ;;
     logs <- lift (present_rows value_ranges (Py.range max_rows)) ;;
     ret (true, logs))
    (fun _ => ret (false, [])).

(** [[row[0] for row in values if row and row[0]]] *)
Definition creator_names (values : list (list string)) : list string :=
  flat_map
    (fun row =>
       match row with
       | x :: _ => if String.eqb x "" then [] else [x]
       | [] => []
       end)
    values.

Definition get_log_filters : M (list string) :=
  fun w =>
    match log_filters_cache w with
    | None =>
        try_except
          (values <-
             Sheets.values_get (mkRange "Logs" colP colP 7 (Some 18%nat)) ;;
           let names := creator_names (Sheets.values_or [] values) in
           fun w' => (Ok names, set_log_filters_cache (Some names) w'))
          (fun _ => ret [])
          w
    | Some names => (Ok names, w)
    end.

(** [next((sheet['properties']['sheetId'] for sheet in sheets
          if sheet['properties']['title'] == t), None)] *)
Definition sheet_id_titled (t : string) (sheets : list Sheet) : option nat :=
  option_map sheetId (find (Sheets.by_title t) sheets).

(** [end_month], on the reading [now] of the clock. *)
Definition end_month (now : Calendar.date) : M Summary :=
  try_except
    (let current_month_short := Py.upper (Calendar.strftime_b now) in
     let current_month_full := Calendar.strftime_B now in
     next <- lift (Calendar.add_days 32 (Calendar.replace_day now 1)) ;;
     let next_month_short := Py.upper (Calendar.strftime_b next) in
     next' <- lift (Calendar.add_days 32 (Calendar.replace_day now 1)) ;;
     let next_month_full := Calendar.strftime_B next' in
     spreadsheet <- Sheets.spreadsheets_get ;;
     match sheet_id_titled current_month_short spreadsheet with
     | None | Some O => raise ValueError
     | Some current_sheet_id =>
         summary <- get_month_summary current_month_short ;;
         let '(success, _, earned, pending, work_done) := summary in
         if negb success then raise ValueError
         else
           q15 <- Sheets.values_get (one_cell current_month_short colQ 15) ;;
           q15_value <-
             lift (row <-? Py.index (Sheets.values_or [[""]] q15) 0 ;;
                   Py.index row 0) ;;
           let archived_sheet_name :=
             current_month_full ++ " (" ++ q15_value ++ ")" in
           Sheets.batch_update
             (DuplicateSheet current_sheet_id 1 archived_sheet_name) ;;;
           spreadsheet <- Sheets.spreadsheets_get ;;
           let archived_sheet_id :=
             sheet_id_titled archived_sheet_name spreadsheet in
           got <- Sheets.values_get
                    (mkRange current_month_short colA colZ 1 (Some 1000%nat)) ;;
           let values := Sheets.values_or [[]] got in
           Sheets.values_update
             (mkRange archived_sheet_name colA colZ 1 (Some 1000%nat))
             RAW values ;;;
           match archived_sheet_id with
           | Some id => Sheets.batch_update (SetHidden id true)
           | None => raise HttpError
           end ;;;
           Sheets.batch_update (SetTitle current_sheet_id next_month_short) ;;;
           Sheets.values_clear (mkRange "Logs" colA colG 7 None) ;;;
           ret (true, current_month_full, earned, pending, work_done)
     end)
    (fun _ => ret (false, "", "$0.00", "$0.00", "0")).

(** ** Command handlers *)

(** What a handler sends back; the layout of an embed is left to the
    presentation, its content is kept.  A handler's model returns the
    reply that the handler hands to [followup.send]; the sending itself,
    which Discord can refuse, is not part of the model, so that [Ok r]
    reads "the handler gets to send [r]". *)
Inductive Reply : Type :=
| RecordAdded (creator_name link price : string)
| FailedToAddRecord
| InvalidPriceFormat
| SpecifyPositiveNumber
| RemovedRecords (removed : list Removed)
| NoRecordsToRemove
| FailedToRemoveRecords
| FailedToFetchLogs
| NoRecords (filter : option string)
| LogsOverview (logs : list LogRow)
| NoRecentLogs
| FullURL (full_link : string)
| LinkNotFound (link : string).

Definition add_slash (creator_name link price : string) : M Reply :=
  try_except
    (lift (Float.float (Py.remove_char "$" price)) ;;;
     added <- add_to_google_sheets creator_name link price ;;
     if added then ret (RecordAdded creator_name link price)
     else ret FailedToAddRecord)
    (fun e =>
       match e with
       | ValueError => ret InvalidPriceFormat
       | _ => raise e
       end).

Definition removerecent_slash (count : Z) : M Reply :=
  if count <? 1 then ret SpecifyPositiveNumber
  else
    r <- remove_recent_from_sheets count ;;
    let '(success, removed) := r in
    match success, removed with
    | true, _ :: _ => ret (RemovedRecords removed)
    | true, [] => ret NoRecordsToRemove
    | false, _ => ret FailedToRemoveRecords
    end.

(** The truth value of an optional string: [None] and [""] are false. *)
Definition truthy (s : option string) : bool :=
  match s with
  | Some x => negb (String.eqb x "")
  | None => false
  end.

Definition creator_of (log : LogRow) : string := fst (fst (fst log)).

Definition link_of (log : LogRow) : string := snd (fst (fst log)).

Definition logs_slash (filter : option string) : M Reply :=
  r <- get_logs ;;
  let '(success, logs) := r in
  if negb success then ret FailedToFetchLogs
  else
    let logs :=
      if truthy filter
      then List.filter
             (fun log => String.eqb (creator_of log)
                           (match filter with Some f => f | None => "" end))
             logs
      else logs in
    match logs with
    | [] => ret (NoRecords filter)
    | _ => fun w => (Ok (LogsOverview logs), set_recent_logs logs w)
    end.

(** [log[1].split('/')[-1]] *)
Definition short_link (log : LogRow) : string :=
  Py.last_segment "/" (link_of log).

(** [next((log[1] for log in recent_logs
          if log[1].split('/')[-1] == link), None)] *)
Definition full_link_of (link : string) (logs : list LogRow)
  : option string :=
  option_map link_of
    (find (fun log => String.eqb (short_link log) link) logs).

Definition getlink_slash (link : string) : M Reply :=
  fun w =>
    match recent_logs w with
    | [] => (Ok NoRecentLogs, w)
    | _ =>
        let full_link := full_link_of link (recent_logs w) in
        if truthy full_link
        then (Ok (FullURL (match full_link with Some l => l | None => "" end)),
              w)
        else (Ok (LinkNotFound link), w)
    end.

(** ** Autocompletion, image display, summary and roll-over commands *)

Module Str.

(** [needle in hay] *)
Fixpoint contains (needle hay : string) : bool :=
  String.prefix needle hay
  || match hay with
     | EmptyString => false
     | String _ t => contains needle t
     end.

(** [s.endswith(suffix)] *)
Fixpoint endswith (suffix s : string) : bool :=
  String.eqb s suffix
  || match s with
     | EmptyString => false
     | String _ t => endswith suffix t
     end.

(** [str(i)] *)
Definition of_int (i : Z) : string := NilZero.string_of_int (Z.to_int i).

End Str.

(** [range(a, b)] *)
Definition range_from (a b : Z) : list Z :=
  map (fun i => a + i) (Py.range (b - a)).

(** [l[:25]] *)
Definition first_25 {A} (l : list A) : list A := firstn 25 l.

(** The choices offered have the same name and value, kept once. *)
Definition creator_autocomplete (current : string) : M (list string) :=
  creators <- get_log_filters ;;
  ret (first_25
         (List.filter
            (fun c => Str.contains (Py.lower current) (Py.lower c))
            creators)).

Definition count_autocomplete (current : string) : M (list string) :=
  r <- get_logs ;;
  let '(success, logs) := r in
  match negb success, logs with
  | true, _ | _, [] => ret ["1"]
  | _, _ =>
      ret (map Str.of_int
             (List.filter
                (fun i => String.eqb current ""
                          || Str.contains current (Str.of_int i))
                (range_from 1 (Z.min (Py.len logs + 1) 26))))
  end.

Definition link_autocomplete (current : string) : M (list string) :=
  fun w =>
    match recent_logs w with
    | [] => (Ok [], w)
    | _ =>
        let short_links := map short_link (recent_logs w) in
        (Ok (first_25
               (List.filter
                  (fun link =>
                     Str.contains (Py.lower current) (Py.lower link))
                  short_links)),
         w)
    end.

Inductive ImageReply : Type :=
| NoRecentLogsForImage
| ImageDisplay (full_link : string)
| ImageNotFound (link : string).

Definition getimage_slash (link : string) : M ImageReply :=
  fun w =>
    match recent_logs w with
    | [] => (Ok NoRecentLogsForImage, w)
    | _ =>
        let full_link := full_link_of link (recent_logs w) in
        if truthy full_link
        then (Ok (ImageDisplay
                    (match full_link with Some l => l | None => "" end)),
              w)
        else (Ok (ImageNotFound link), w)
    end.

Inductive PeriodReply : Type :=
| MonthOverview (month earned pending work_done : string)
| FailedToFetchSummary (month : string)
| MonthWrappedUp (month next_month earned pending work_done : string)
| FailedToEndMonth.

(** [summary_slash], on the reading [now] of the clock. *)
Definition summary_slash (now : Calendar.date) : M PeriodReply :=
  summary <- get_month_summary (Py.upper (Calendar.strftime_b now)) ;;
  let '(success, month, earned, pending, work_done) := summary in
  if success then ret (MonthOverview month earned pending work_done)
  else ret (FailedToFetchSummary month).

(** [endmonth_slash], on the reading [now] of the clock. *)
Definition endmonth_slash (now : Calendar.date) : M PeriodReply :=
  summary <- end_month now ;;
  let '(success, month, earned, pending, work_done) := summary in
  if success
  then next <- lift (Calendar.add_days 32 (Calendar.replace_day now 1)) ;;
       let next_month := Calendar.strftime_B next in
       ret (MonthWrappedUp month next_month earned pending work_done)
  else ret FailedToEndMonth.

(** ** Image upload *)

(** What one [requests.post] to the image host comes to: a hosted link, a
    [requests.RequestException] (time-out, connection or HTTP error), or
    another exception, which [upload_image_to_imgbb] does not catch. *)
Inductive PostOutcome : Type :=
| Hosted (link : string)
| RequestException
| OtherException.

(** The image host: the outcome of each post, by the number of posts made
    before it. *)
Definition Host : Type := nat -> PostOutcome.

(** The image urls posted so far, oldest first, and the number of
    [asyncio.sleep(2)] done. *)
Record Net : Type := mkNet {
  posts : list string;
  sleeps : nat
}.

(** What a call returns: a link, [None], or an exception that goes on to
    the caller. *)
Inductive Uploaded : Type :=
| Link (link : string)
| NoLink
| Propagated.

(** [for attempt in attempts: ...], the body of [upload_image_to_imgbb]. *)
Fixpoint upload_attempts (host : Host) (image_url : string)
         (attempts : list Z) (n : Net) : Uploaded * Net :=
  match attempts with
  | [] => (NoLink, n)
  | attempt :: rest =>
      let n1 := mkNet (posts n ++ [image_url])%list (sleeps n) in
      match host (List.length (posts n)) with
      | Hosted link => (Link link, n1)
      | RequestException =>
          if attempt <? 2
          then upload_attempts host image_url rest
                 (mkNet (posts n1) (S (sleeps n1)))
          else (NoLink, n1)
      | OtherException => (Propagated, n1)
      end
  end.

Definition upload_image_to_imgbb (host : Host) (image_url : string)
           (n : Net) : Uploaded * Net :=
  upload_attempts host image_url (Py.range 3) n.

Record Attachment : Type := mkAttachment {
  filename : string;
  url : string
}.

Inductive MessageReply : Type :=
| ImgBBLink (img_link : string)
| FailedToUpload
| SendPng.

(** [for attachment in message.attachments: ...]; the flag tells whether
    the loop ended, [false] when an exception left it. *)
Fixpoint on_attachments (host : Host) (attachments : list Attachment)
         (n : Net) : list MessageReply * bool * Net :=
  match attachments with
  | [] => ([], true, n)
  | attachment :: rest =>
      if Str.endswith ".png" (Py.lower (filename attachment))
      then match upload_image_to_imgbb host (url attachment) n with
           | (Link img_link, n1) =>
               let reply := if String.eqb img_link "" then FailedToUpload
                            else ImgBBLink img_link in
               let '(replies, ended, n2) := on_attachments host rest n1 in
               (reply :: replies, ended, n2)
           | (NoLink, n1) =>
               let '(replies, ended, n2) := on_attachments host rest n1 in
               (FailedToUpload :: replies, ended, n2)
           | (Propagated, n1) => ([], false, n1)
           end
      else
        let '(replies, ended, n2) := on_attachments host rest n in
        (SendPng :: replies, ended, n2)
  end.

(** [on_message], for a message written by the bot itself or not. *)
Definition on_message (host : Host) (author_is_bot : bool)
           (attachments : list Attachment) (n : Net)
  : list MessageReply * bool * Net :=
  if author_is_bot then ([], true, n)
  else on_attachments host attachments n.

(** ** Sample states *)

Module Samples.

(** A row of the log: creator in C, link in E, price in G. *)
Definition entry (creator link price : string) : list string :=
  [""; ""; creator; ""; link; ""; price].

(** A row of the log with its paid mark in J. *)
Definition entry_paid (creator link price paid : string) : list string :=
  [""; ""; creator; ""; link; ""; price; ""; ""; paid].

Definition headings : list string := entry "Creator" "Link" "Price".

Definition logs_sheet (g : Grid) : Sheet := mkSheet 11 "Logs" false g.

Definition start (b : Spreadsheet) : World := mkWorld b None [] [].

(** A log with its heading row and nothing else. *)
Definition header_only : World := start [logs_sheet [headings]].

(** A log of two records, the cells of both filled. *)
Definition two_records : World :=
  start [logs_sheet [headings; entry "ann" "https://i.ibb.co/a1/one.png" "5";
                     entry "bob" "https://i.ibb.co/b2/two.png" "7.50"]].

(** The same log with the price of the first record empty: the column G
    of the service's answer has an empty row between two values. *)
Definition price_gap : World :=
  start [logs_sheet [headings; entry "ann" "https://i.ibb.co/a1/one.png" "";
                     entry "bob" "https://i.ibb.co/b2/two.png" "7.50"]].

(** A log whose records start at row 7, the first not marked paid, the
    second marked. *)
Definition paid_gap : World :=
  start [logs_sheet (repeat [] 6 ++
                     [entry_paid "ann" "https://i.ibb.co/a1/one.png" "5" "";
                      entry_paid "bob" "https://i.ibb.co/b2/two.png" "7.50"
                                 "Yes"])%list].

(** The same with every paid mark set, and a last row with nothing but
    its unset mark. *)
Definition paid_marked : World :=
  start [logs_sheet (repeat [] 6 ++
                     [entry_paid "ann" "https://i.ibb.co/a1/one.png" "5"
                                 "FALSE";
                      entry_paid "bob" "https://i.ibb.co/b2/two.png" "7.50"
                                 "TRUE";
                      entry_paid "" "" "" "FALSE"])%list].

(** A period sheet: its cells Q15, Q18, Q21, and a ledger row at row 7. *)
Definition period_cells (earned pending work_done : string) : Grid :=
  (repeat [] 6 ++ [entry "ann" "https://i.ibb.co/a1/one.png" "5"]
     ++ repeat [] 7 ++ [repeat "" 16 ++ [earned]]
     ++ repeat [] 2 ++ [repeat "" 16 ++ [pending]]
     ++ repeat [] 2 ++ [repeat "" 16 ++ [work_done]])%list.

Definition january : Sheet :=
  mkSheet 7 "JAN" false (period_cells "$120.00" "$40.00" "9").

(** January without a value in Q15. *)
Definition january_no_earned : Sheet :=
  mkSheet 7 "JAN" false (period_cells "" "$40.00" "9").

Definition ledger : Grid :=
  (repeat headings 6 ++
     [entry "ann" "https://i.ibb.co/a1/one.png" "5";
      entry "bob" "https://i.ibb.co/b2/two.png" "7.50"])%list.

Definition in_january : World := start [logs_sheet ledger; january].

(** A log whose cells P7 and P9 name two creators, P8 being empty. *)
Definition with_creators : World :=
  start [logs_sheet (repeat headings 6 ++
                     [repeat "" 15 ++ ["ann"]; [];
                      repeat "" 15 ++ ["bob"]])%list].

(** A state whose cache holds the two records of [ledger]. *)
Definition after_logs : World :=
  mkWorld [logs_sheet ledger] None
    [("ann", "https://i.ibb.co/a1/one.png", "5", "No");
     ("bob", "https://i.ibb.co/b2/two.png", "7.50", "No")] [].

End Samples.

(** ** Vocabulary of the statements *)

Definition failure_summary : Summary := (false, "", "$0.00", "$0.00", "0").

(** The value of a cell, [dflt] for an empty cell. *)
Definition value_or (dflt : string) (g : Grid) (row col : nat) : string :=
  if Grids.blank_cell (Grids.cell g row col) then dflt
  else Grids.cell g row col.

Definition summary_ranges (month_short : string) : list Range :=
  [one_cell month_short colQ 15; one_cell month_short colQ 18;
   one_cell month_short colQ 21].

(** What summarize-period answers, read off the spreadsheet: the failure
    tuple when the token is no month or the period sheet is missing, else
    the three cells of the sheet, each with its default when empty. *)
Definition summary_of (month_abbr : string) (b : Spreadsheet) : Summary :=
  match Calendar.strptime_b (Py.upper month_abbr),
        find (Sheets.by_title (Py.upper month_abbr)) b with
  | Ok d, Some sh =>
      (true, Calendar.strftime_B d,
       value_or "$0.00" (cells sh) 15 colQ,
       value_or "$0.00" (cells sh) 18 colQ,
       value_or "0" (cells sh) 21 colQ)
  | _, _ => failure_summary
  end.

(** A non-negative decimal as the specification has it: digits with at
    most one point and at least one digit, as in [10.50]. *)
Definition decimal_char (c : ascii) : bool :=
  Py.is_digit c || Float.is_point c.

Definition nonneg_decimal (s : string) : bool :=
  let l := list_ascii_of_string s in
  forallb decimal_char l
  && (List.length (List.filter Float.is_point l) <=? 1)%nat
  && existsb Py.is_digit l.

(** The row append-record writes to, after the last value of column C. *)
Definition next_row (sh : Sheet) : nat :=
  Z.to_nat (Py.len (Grids.read (cells sh) (whole_column "Logs" colC)) + 1).

(** The store-write call of append-record. *)
Definition append_call (sh : Sheet) (creator_name link price : string)
  : ApiCall :=
  ValuesUpdate (mkRange "Logs" colA colG (next_row sh) (Some (next_row sh)))
    USER_ENTERED [[""; ""; creator_name; ""; link; ""; price]].

(** The full name of month [m], 1 for January. *)
Definition month_name (m : Z) : string :=
  nth (Z.to_nat (m - 1)) Calendar.month_names "".

(** The calendar month after the month of [d], as year and month. *)
Definition following_month (d : Calendar.date) : Z * Z :=
  if Calendar.month d =? 12 then (Calendar.year d + 1, 1)
  else (Calendar.year d, Calendar.month d + 1).

Definition filters_range : Range := mkRange "Logs" colP colP 7 (Some 18%nat).

Definition logs_columns : list Range :=
  [whole_column "Logs" colC; whole_column "Logs" colE;
   whole_column "Logs" colG].

Definition listed_columns : list Range :=
  [column_from "Logs" colC 7; column_from "Logs" colE 7;
   column_from "Logs" colG 7; column_from "Logs" colJ 7].

Definition record_area : Range := mkRange "Logs" colA colG 7 None.

(** The tokens of the roll-over: the title of the current period sheet,
    and the name of its archive made with the value [q15] of the cell Q15. *)
Definition current_short (now : Calendar.date) : string :=
  Py.upper (Calendar.strftime_b now).

Definition archive_name (now : Calendar.date) (q15 : string) : string :=
  Calendar.strftime_B now ++ " (" ++ q15 ++ ")".

Definition whole_sheet (t : string) : Range :=
  mkRange t colA colZ 1 (Some 1000%nat).

(** The cells of the record area [A7:G]: from row 7 on, columns A to G. *)
Definition in_record_area (row col : nat) : bool :=
  (7 <=? row)%nat && (col <=? colG)%nat.

(** The three updates of the roll-over between the duplication and the
    clearing, on a spreadsheet [b1]. *)
Definition archived (arch : string) (vals : list (list string)) (aid : nat)
           (b1 : Spreadsheet) : Spreadsheet :=
  Sheets.update_where (Sheets.by_id aid) (Sheets.set_hidden true)
    (Sheets.update_where (Sheets.by_title arch)
       (fun sh =>
          Sheets.set_cells
            (Grids.write (cells sh) (whole_sheet arch) vals) sh)
       b1).

(** What the service answers when asked for the ranges [rgs]. *)
Definition fetched (w : World) (rgs : list Range)
  : result (list (list (list string))) :=
  Py.for_list (Sheets.read_range (book w)) rgs.

(** The rows of [indices] that list-logs keeps when no lookup raises: those
    with a field that is no sentinel. *)
Definition kept_rows (value_ranges : list (list (list string)))
           (indices : list Z) : list LogRow :=
  flat_map
    (fun i =>
       match log_fields value_ranges i, log_row value_ranges i with
       | Ok fields, Ok row => if forallb sentinel fields then [] else [row]
       | _, _ => []
       end)
    indices.

(** What happens in the life of the process around the creator filter: a
    request for the list, or any change of the spreadsheet by anyone. *)
Inductive Event : Type :=
| AskFilters
| StoreBecomes (b : Spreadsheet).

(** The answers to the requests of [evs], and the state after them. *)
Fixpoint serve (evs : list Event) (w : World)
  : list (result (list string)) * World :=
  match evs with
  | [] => ([], w)
  | AskFilters :: rest =>
      let (answer, w1) := get_log_filters w in
      let (answers, w2) := serve rest w1 in
      (answer :: answers, w2)
  | StoreBecomes b :: rest => serve rest (set_book b w)
  end.

(** A short link is known to the cache when a cached record has it. *)
Definition known_link (link : string) (logs : list LogRow) : Prop :=
  exists log, In log logs /\ short_link log = link.

(** The replies of [getlink_slash] that say the link was not found. *)
Definition not_found_reply (link : string) (r : Reply) : Prop :=
  r = NoRecentLogs \/ r = LinkNotFound link.

(** The identifiers of a spreadsheet's sheets are pairwise different. *)
Definition distinct_ids (b : Spreadsheet) : Prop := NoDup (map sheetId b).

(** ** Vocabulary of the further properties *)

(** [attachment.filename.lower().endswith(".png")] *)
Definition is_png (attachment : Attachment) : bool :=
  Str.endswith ".png" (Py.lower (filename attachment)).

(** The records list-logs returns, none when it fails. *)
Definition listed (w : World) : list LogRow :=
  match fst (get_logs w) with
  | Ok (_, logs) => logs
  | Raise _ => []
  end.

(** An image host whose first two posts time out and whose third is
    hosted. *)
Definition two_then_hosted : Host :=
  fun k => match k with
           | 2%nat => Hosted "https://i.ibb.co/x/y.png"
           | _ => RequestException
           end.

(** A period sheet that is the first sheet of its spreadsheet, with the
    identifier 0 the service gives to it. *)
Definition january_first : Sheet :=
  mkSheet 0 "JAN" false (Samples.period_cells "$120.00" "$40.00" "9").

Definition first_sheet_january : World :=
  Samples.start [january_first; Samples.logs_sheet Samples.ledger].

(** The value a write puts in the cell ([row], [col]), if it puts one. *)
Definition written (rg : Range) (vals : list (list string)) (row col : nat)
  : option string :=
  if (r_row0 rg <=? row)%nat && (row <? r_row0 rg + List.length vals)%nat
     && (r_col0 rg <=? col)%nat
     && (col <? r_col0 rg + List.length (nth (row - r_row0 rg) vals []))%nat
  then Some (nth (col - r_col0 rg) (nth (row - r_row0 rg) vals []) "")
  else None.

(** [col in ["C", "E", "G"]] *)
Definition tracked (col : nat) : bool :=
  existsb (Nat.eqb col) [colC; colE; colG].

(** The titles of a spreadsheet's sheets are pairwise different, as the
    service keeps them. *)
Definition distinct_titles (b : Spreadsheet) : Prop := NoDup (map title b).

(** [log[2]] and [log[3]] *)
Definition price_of (log : LogRow) : string := snd (fst log).

Definition paid_of (log : LogRow) : string := snd log.

(** A log of two records from row 7 on, the second marked paid, and
    January with that log. *)
Definition paid_log : Sheet :=
  Samples.logs_sheet
    (repeat [] 6 ++
     [Samples.entry_paid "ann" "https://i.ibb.co/a1/one.png" "5" "FALSE";
      Samples.entry_paid "bob" "https://i.ibb.co/b2/two.png" "7.50"
        "TRUE"])%list.

Definition paid_in_january : World :=
  Samples.start [paid_log; Samples.january].

(** * Properties *)

(** ** Python values *)

Lemma for_list_length {A B} (f : A -> result B) (l : list A) (l' : list B) :
  Py.for_list f l = Ok l' -> List.length l' = List.length l.
Proof.
  revert l'; induction l as [|x t IH]; simpl; intros l' H.
  - now inversion H.
  - destruct (f x); simpl in H; [|discriminate].
    destruct (Py.for_list f t); simpl in H; [|discriminate].
    inversion H; subst; simpl. f_equal. now apply IH.
Qed.

Lemma range_length (n : Z) : List.length (Py.range n) = Z.to_nat n.
Proof. unfold Py.range. now rewrite length_map, length_seq. Qed.

Lemma index_app_here {A} (l1 : list A) (x : A) (l2 : list A) (k : Z) :
  k = Z.of_nat (List.length l1) -> Py.index (l1 ++ x :: l2) k = Ok x.
Proof.
  intros ->. unfold Py.index.
  destruct (Z.of_nat (List.length l1) <? 0) eqn:E; [apply Z.ltb_lt in E; lia|].
  rewrite E, Nat2Z.id, nth_error_app2, Nat.sub_diag by lia. reflexivity.
Qed.

Lemma firstn_1_skipn {A} (n : nat) (l : list A) :
  firstn 1 (skipn n l) =
  match nth_error l n with Some x => [x] | None => [] end.
Proof.
  revert l; induction n as [|n IH]; intros [|x t]; simpl; auto.
  apply IH.
Qed.

Lemma nth_by_nth_error {A} (l : list A) (n : nat) (d : A) :
  nth n l d = match nth_error l n with Some x => x | None => d end.
Proof.
  revert l; induction n as [|n IH]; intros [|x t]; simpl; auto.
Qed.

(** ** Reading one cell *)

(** A range of one cell has one row of one value, or nothing. *)
Lemma read_one_cell (g : Grid) (t : string) (col row : nat) :
  Grids.read g (one_cell t col row) =
  if Grids.blank_cell (Grids.cell g row col) then []
  else [[Grids.cell g row col]].
Proof.
  unfold Grids.read, one_cell, Grids.rows_slice, Grids.row_slice, Grids.cell.
  cbn [r_row0 r_row1 r_col0 r_col1].
  replace (row - row + 1)%nat with 1%nat by lia.
  replace (col - col + 1)%nat with 1%nat by lia.
  rewrite (firstn_1_skipn (row - 1) g).
  rewrite (nth_by_nth_error g (row - 1) []).
  destruct (nth_error g (row - 1)) as [r|]; cbn [map].
  - rewrite (firstn_1_skipn col r), (nth_by_nth_error r col "").
    destruct (nth_error r col) as [v|]; simpl; [|reflexivity].
    destruct (Grids.blank_cell v); reflexivity.
  - destruct col; reflexivity.
Qed.

Lemma first_value_one_cell (g : Grid) (t : string) (col row : nat)
      (dflt : string) (before after : list (list (list string))) (k : Z) :
  k = Z.of_nat (List.length before) ->
  Grids.blank_cell dflt = false ->
  first_value (before ++ Grids.read g (one_cell t col row) :: after) k
    [[dflt]] = Ok (value_or dflt g row col).
Proof.
  intros Hk Hd. unfold first_value.
  rewrite (index_app_here before _ after k Hk). cbn [Py.bind].
  rewrite read_one_cell. unfold value_or.
  destruct (Grids.blank_cell (Grids.cell g row col)); reflexivity.
Qed.

(** ** Summarize-period *)

(** [get_month_summary] never raises, answers what [summary_of] reads
    off the spreadsheet, and changes nothing but the journal. *)
Lemma get_month_summary_run (month_abbr : string) (w : World) :
  get_month_summary month_abbr w =
  (Ok (summary_of month_abbr (book w)),
   match Calendar.strptime_b (Py.upper month_abbr) with
   | Ok _ => journal (ValuesBatchGet (summary_ranges (Py.upper month_abbr))) w
   | Raise _ => w
   end).
Proof.
  unfold get_month_summary, summary_of, try_except, bindM, lift, ret.
  destruct (Calendar.strptime_b (Py.upper month_abbr)) as [d|e];
    [|reflexivity].
  unfold Sheets.values_batch_get, summary_ranges. cbn [Py.for_list].
  unfold Sheets.read_range at 1 2 3. cbn [r_sheet one_cell book journal].
  destruct (find (Sheets.by_title (Py.upper month_abbr)) (book w)) as [sh|];
    [|reflexivity].
  cbn [Py.bind].
  set (g := cells sh). set (t := Py.upper month_abbr).
  pose proof (first_value_one_cell g t colQ 15 "$0.00" []
                [Grids.read g (one_cell t colQ 18);
                 Grids.read g (one_cell t colQ 21)] 0 eq_refl eq_refl) as H0.
  pose proof (first_value_one_cell g t colQ 18 "$0.00"
                [Grids.read g (one_cell t colQ 15)]
                [Grids.read g (one_cell t colQ 21)] 1 eq_refl eq_refl) as H1.
  pose proof (first_value_one_cell g t colQ 21 "0"
                [Grids.read g (one_cell t colQ 15);
                 Grids.read g (one_cell t colQ 18)] [] 2 eq_refl eq_refl) as H2.
  cbn [app] in H0, H1, H2. rewrite H0, H1, H2. reflexivity.
Qed.

Lemma get_month_summary_keeps_book (month_abbr : string) (w : World) :
  book (snd (get_month_summary month_abbr w)) = book w.
Proof.
  rewrite get_month_summary_run. simpl.
  destruct (Calendar.strptime_b (Py.upper month_abbr)); reflexivity.
Qed.

(** C2, as the claim has it, fails: on a January sheet whose cell Q15 is
    empty, summarize-period reports success, with the default in the place of
    the missing value, and not the failure tuple. *)
Lemma summary_missing_cell_counterexample :
  Grids.cell (cells Samples.january_no_earned) 15 colQ = "" /\
  fst (get_month_summary "JAN" (Samples.start [Samples.january_no_earned]))
  = Ok (true, "January", "$0.00", "$40.00", "9") /\
  fst (get_month_summary "JAN" (Samples.start [Samples.january_no_earned]))
  <> Ok failure_summary.
Proof.
  split; [reflexivity|]. split; [reflexivity|].
  vm_compute. discriminate.
Qed.

(** C2, amended: summarize-period always returns a tuple and never raises.
    For a month token whose period sheet is missing the tuple is the failure
    tuple [(false, "", "$0.00", "$0.00", "0")]; for a month token whose
    period sheet exists it is a success, in which each of Q15, Q18, Q21 that
    is missing is replaced by its default ["$0.00"], ["$0.00"], ["0"]. *)
Theorem get_month_summary_missing_sheet_or_cell
        (month_abbr : string) (w : World) :
  fst (get_month_summary month_abbr w)
  = Ok (summary_of month_abbr (book w)) /\
  (find (Sheets.by_title (Py.upper month_abbr)) (book w) = None ->
   fst (get_month_summary month_abbr w) = Ok failure_summary) /\
  (forall d sh,
     Calendar.strptime_b (Py.upper month_abbr) = Ok d ->
     find (Sheets.by_title (Py.upper month_abbr)) (book w) = Some sh ->
     fst (get_month_summary month_abbr w)
     = Ok (true, Calendar.strftime_B d,
           value_or "$0.00" (cells sh) 15 colQ,
           value_or "$0.00" (cells sh) 18 colQ,
           value_or "0" (cells sh) 21 colQ)).
Proof.
  rewrite get_month_summary_run. cbn [fst]. unfold summary_of.
  split; [reflexivity|]. split.
  - intros ->. destruct (Calendar.strptime_b _); reflexivity.
  - intros d sh -> ->. reflexivity.
Qed.

Lemma get_month_summary_missing_sheet_or_cell_witness :
  fst (get_month_summary "feb" Samples.in_january) = Ok failure_summary /\
  fst (get_month_summary "jan" (Samples.start [Samples.january_no_earned]))
  = Ok (true, "January", "$0.00", "$40.00", "9").
Proof.
  split.
  - apply (get_month_summary_missing_sheet_or_cell "feb" Samples.in_january).
    reflexivity.
  - apply (proj2 (proj2 (get_month_summary_missing_sheet_or_cell "jan"
                           (Samples.start [Samples.january_no_earned])))
             (Calendar.mkDate 1900 1 1) Samples.january_no_earned);
      reflexivity.
Defined.

(** ** Resolving a short link *)

Lemma full_link_of_unknown (link : string) (logs : list LogRow) :
  ~ known_link link logs -> full_link_of link logs = None.
Proof.
  intros Hun. unfold full_link_of.
  destruct (find _ logs) as [log|] eqn:Hf; [|reflexivity].
  apply find_some in Hf. destruct Hf as [Hin Heq].
  apply String.eqb_eq in Heq. exfalso. apply Hun. now exists log.
Qed.

(** C10: for a short link that no record of the cached logs has, the cache
    being empty or not, [getlink_slash] raises nothing, changes nothing, and
    replies that the link was not found: "No recent /logs output found" on
    an empty cache, "Link ... not found" otherwise. *)
Theorem getlink_unknown_link_not_found (link : string) (w : World) :
  ~ known_link link (recent_logs w) ->
  exists r,
    getlink_slash link w = (Ok r, w) /\
    not_found_reply link r /\
    (recent_logs w = [] -> r = NoRecentLogs) /\
    (recent_logs w <> [] -> r = LinkNotFound link).
Proof.
  intros Hun. unfold getlink_slash, not_found_reply.
  destruct (recent_logs w) as [|log logs] eqn:Hlogs.
  - exists NoRecentLogs. repeat split; auto. intros E. now elim E.
  - rewrite (full_link_of_unknown link (log :: logs) Hun). cbn [truthy].
    exists (LinkNotFound link). repeat split; auto. discriminate.
Qed.

Lemma getlink_unknown_link_not_found_witness :
  (exists r, getlink_slash "three.png" Samples.after_logs
             = (Ok r, Samples.after_logs) /\
             not_found_reply "three.png" r /\
             (recent_logs Samples.after_logs = [] -> r = NoRecentLogs) /\
             (recent_logs Samples.after_logs <> [] ->
              r = LinkNotFound "three.png")) /\
  (exists r, getlink_slash "one.png" Samples.header_only
             = (Ok r, Samples.header_only) /\
             not_found_reply "one.png" r /\
             (recent_logs Samples.header_only = [] -> r = NoRecentLogs) /\
             (recent_logs Samples.header_only <> [] ->
              r = LinkNotFound "one.png")).
Proof.
  split.
  - apply (getlink_unknown_link_not_found "three.png" Samples.after_logs).
    intros [log [Hin Heq]]. simpl in Hin.
    destruct Hin as [<-|[<-|[]]]; vm_compute in Heq; discriminate.
  - apply (getlink_unknown_link_not_found "one.png" Samples.header_only).
    intros [log [[] _]].
Defined.

(** ** The creator filter *)

Lemma get_log_filters_cached (names : list string) (w : World) :
  log_filters_cache w = Some names -> get_log_filters w = (Ok names, w).
Proof. intros H. unfold get_log_filters. now rewrite H. Qed.

(** Once the cache is set, no request reads the store and every request is
    answered with the cached list, whatever becomes of the store. *)
Lemma serve_cached (names : list string) (evs : list Event) :
  forall w answers w',
    log_filters_cache w = Some names ->
    serve evs w = (answers, w') ->
    Forall (eq (Ok names)) answers /\
    calls w' = calls w /\ log_filters_cache w' = Some names.
Proof.
  induction evs as [|ev rest IH]; intros w answers w' Hc Hs; simpl in Hs.
  - inversion Hs; subst. auto.
  - destruct ev as [|b].
    + rewrite (get_log_filters_cached names w Hc) in Hs.
      destruct (serve rest w) as [answers0 w0] eqn:Hrest.
      inversion Hs; subst.
      destruct (IH _ _ _ Hc Hrest) as [Hall [Hcalls Hcache]].
      auto.
    + apply (IH (set_book b w)); auto.
Qed.

Lemma get_log_filters_first (w : World) :
  log_filters_cache w = None ->
  get_log_filters w =
  match find (Sheets.by_title "Logs") (book w) with
  | Some sh =>
      let names := creator_names (Grids.read (cells sh) filters_range) in
      (Ok names,
       set_log_filters_cache (Some names) (journal (ValuesGet filters_range) w))
  | None => (Ok [], journal (ValuesGet filters_range) w)
  end.
Proof.
  intros Hc. unfold get_log_filters. rewrite Hc.
  unfold try_except, bindM, Sheets.values_get, Sheets.read_range, ret.
  fold filters_range. cbn [book journal r_sheet filters_range].
  destruct (find (Sheets.by_title "Logs") (book w)) as [sh|]; [|reflexivity].
  cbv zeta. f_equal.
  - f_equal. unfold Sheets.values_or.
    now destruct (Grids.read (cells sh) filters_range).
  - unfold Sheets.values_or.
    now destruct (Grids.read (cells sh) filters_range).
Qed.

(** C8: with the cache unset, a request whose fetch succeeds reads the
    store once, caches the list and returns it; after that, through any
    sequence of requests and of changes of the store, every request returns
    that same list and the journal of store calls does not grow.  A request
    whose fetch fails (no Logs sheet) returns the empty list and leaves the
    cache unset, so that the next request fetches again. *)
Theorem get_log_filters_reads_store_once (w : World) :
  log_filters_cache w = None ->
  (forall sh,
     find (Sheets.by_title "Logs") (book w) = Some sh ->
     exists names w1,
       get_log_filters w = (Ok names, w1) /\
       calls w1 = (calls w ++ [ValuesGet filters_range])%list /\
       forall evs,
         Forall (eq (Ok names)) (fst (serve evs w1)) /\
         calls (snd (serve evs w1)) = calls w1) /\
  (find (Sheets.by_title "Logs") (book w) = None ->
   exists w1,
     get_log_filters w = (Ok [], w1) /\
     log_filters_cache w1 = None /\
     calls w1 = (calls w ++ [ValuesGet filters_range])%list /\
     book w1 = book w).
Proof.
  intros Hc. split.
  - intros sh Hsh. rewrite (get_log_filters_first w Hc), Hsh. cbv zeta.
    eexists. eexists. split; [reflexivity|]. split; [reflexivity|].
    intros evs.
    destruct (serve evs _) as [answers w2] eqn:Hs.
    apply (serve_cached
             (creator_names (Grids.read (cells sh) filters_range))) in Hs;
      [|reflexivity].
    destruct Hs as [Hall [Hcalls _]]. auto.
  - intros Hno. rewrite (get_log_filters_first w Hc), Hno.
    eexists. split; [reflexivity|]. cbn. auto.
Qed.

Lemma get_log_filters_reads_store_once_witness :
  exists names w1,
    get_log_filters Samples.with_creators = (Ok names, w1) /\
    calls w1 = (calls Samples.with_creators ++ [ValuesGet filters_range])%list
    /\
    forall evs,
      Forall (eq (Ok names)) (fst (serve evs w1)) /\
      calls (snd (serve evs w1)) = calls w1.
Proof.
  eapply (proj1 (get_log_filters_reads_store_once Samples.with_creators
                   eq_refl)).
  reflexivity.
Defined.

(** ** Remove-recent *)

Lemma for_list_nth {A B} (f : A -> result B) (l : list A) (l' : list B)
      (i : nat) (d : A) (d' : B) :
  Py.for_list f l = Ok l' -> (i < List.length l)%nat ->
  f (nth i l d) = Ok (nth i l' d').
Proof.
  revert l' i; induction l as [|x t IH]; simpl; intros l' i H Hi; [lia|].
  destruct (f x) eqn:Hx; simpl in H; [|discriminate].
  destruct (Py.for_list f t); simpl in H; [|discriminate].
  inversion H; subst. destruct i; simpl; [assumption|].
  apply IH; [reflexivity|lia].
Qed.

Lemma range_nth (n : Z) (i : nat) :
  (i < Z.to_nat n)%nat -> nth i (Py.range n) 0 = Z.of_nat i.
Proof.
  intros Hi. unfold Py.range.
  change 0 with (Z.of_nat 0). rewrite map_nth, seq_nth by assumption.
  reflexivity.
Qed.

(** A row past the end of a column gives the default. *)
Lemma field_at_beyond (vrs : list (list (list string))) (k i : Z)
      (dflt : string) (v : list (list string)) :
  Py.index vrs k = Ok v -> Py.len (Sheets.values_or [] v) <= i ->
  field_at vrs k i dflt = Ok dflt.
Proof.
  intros Hv Hle. unfold field_at. rewrite Hv. cbn [Py.bind].
  destruct (i <? _) eqn:E; [apply Z.ltb_lt in E; lia|reflexivity].
Qed.

(** An empty row inside a column raises. *)
Lemma field_at_empty_row (vrs : list (list (list string))) (k i : Z)
      (dflt : string) (v : list (list string)) :
  Py.index vrs k = Ok v -> 0 <= i ->
  Py.index (Sheets.values_or [] v) i = Ok [] ->
  field_at vrs k i dflt = Raise IndexError.
Proof.
  intros Hv Hi Hrow. unfold field_at. rewrite Hv. cbn [Py.bind].
  destruct (i <? _) eqn:E.
  - rewrite Hrow. reflexivity.
  - exfalso. apply Z.ltb_ge in E. unfold Py.index in Hrow.
    destruct (i <? 0) eqn:E0; [apply Z.ltb_lt in E0; lia|].
    rewrite E0 in Hrow.
    destruct (nth_error _ _) eqn:Hn; [|discriminate].
    assert (nth_error (Sheets.values_or [] v) (Z.to_nat i) <> None) as Hs
        by (rewrite Hn; discriminate).
    apply nth_error_Some in Hs. unfold Py.len in E. lia.
Qed.

(** With at most one row in the longest column nothing is cleared, and the
    flag returned is [false]. *)
Lemma remove_recent_nothing_to_remove (count : Z) (w : World)
      (vrs : list (list (list string))) (n : Z) :
  fetched w logs_columns = Ok vrs ->
  longest vrs = Ok n -> n <= 1 ->
  remove_recent_from_sheets count w
  = (Ok (false, []), journal (ValuesBatchGet logs_columns) w).
Proof.
  unfold fetched. intros Hv Hl Hn.
  unfold remove_recent_from_sheets, try_except, bindM, lift, ret.
  unfold Sheets.values_batch_get. fold logs_columns. cbn [book journal].
  rewrite Hv, Hl.
  destruct (n <=? 1) eqn:E; [reflexivity|apply Z.leb_gt in E; lia].
Qed.

(** When remove-recent reports success, the list returned has
    [min(count, max_rows - 1)] records, and its record [j] is the snapshot
    of the row [min(count, max_rows - 1) - 1 - j] places above the last: the
    oldest of the batch comes first. *)
Lemma remove_recent_success (count : Z) (w : World) (removed : list Removed)
      (w' : World) :
  remove_recent_from_sheets count w = (Ok (true, removed), w') ->
  exists vrs max_rows,
    fetched w logs_columns = Ok vrs /\
    longest vrs = Ok max_rows /\ 1 < max_rows /\
    List.length removed = Z.to_nat (Z.min count (max_rows - 1)) /\
    forall j, (j < List.length removed)%nat ->
      removed_record vrs max_rows
        (Z.min count (max_rows - 1) - 1 - Z.of_nat j)
      = Ok (nth j removed ("", "", "")).
Proof.
  intros H. unfold fetched.
  unfold remove_recent_from_sheets, try_except, bindM, lift, ret in H.
  unfold Sheets.values_batch_get in H. fold logs_columns in H.
  cbn [book journal] in H.
  destruct (Py.for_list _ logs_columns) as [vrs|e] eqn:Hv;
    [|inversion H].
  destruct (longest vrs) as [max_rows|e] eqn:Hl; [|inversion H].
  destruct (max_rows <=? 1) eqn:Hm; [inversion H|].
  apply Z.leb_gt in Hm.
  destruct (Py.for_list _ (Py.range _)) as [recs|e] eqn:Hf;
    [|inversion H].
  destruct (for_each _ _ _) as [[[]|e] w2]; inversion H; subst.
  pose proof (for_list_length _ _ _ Hf) as Hlen.
  rewrite range_length in Hlen.
  exists vrs, max_rows.
  split; [reflexivity|]. split; [assumption|]. split; [assumption|]. split.
  - now rewrite length_rev.
  - intros j Hj. rewrite length_rev in Hj.
    rewrite rev_nth by assumption.
    assert (List.length recs - S j
            < List.length (Py.range (Z.min count (max_rows - 1))))%nat
      as Hb by (rewrite range_length; lia).
    pose proof (for_list_nth _ _ _ _ 0 (nth j (rev recs) ("", "", "")) Hf Hb)
      as Hn.
    rewrite range_nth in Hn by lia.
    etransitivity; [|etransitivity; [exact Hn|]].
    + f_equal. lia.
    + f_equal. apply nth_indep. lia.
Qed.

(** The handler's reply "No records to remove." is never sent: it needs a
    success with an empty list, which remove-recent does not return for a
    count of at least one. *)
Lemma removerecent_never_no_records (count : Z) (w : World) :
  fst (removerecent_slash count w) <> Ok NoRecordsToRemove.
Proof.
  unfold removerecent_slash, bindM, ret.
  destruct (count <? 1) eqn:Hc; [discriminate|]. apply Z.ltb_ge in Hc.
  destruct (remove_recent_from_sheets count w)
    as [[[ok removed]|e] w'] eqn:Hr; [|discriminate].
  destruct ok; [|discriminate].
  destruct removed; [|discriminate].
  exfalso. apply remove_recent_success in Hr.
  destruct Hr as [vrs [max_rows [_ [_ [Hm [Hlen _]]]]]]. simpl in Hlen. lia.
Qed.

(** C1, the code against the claim: on the log with only its heading row
    (the longest tracked column has one row) remove-recent clears nothing,
    which the claim asks, but returns the flag [false] with the empty list,
    where the claim asks for success; the handler then answers "Failed to
    remove records." and not "No records to remove.". *)
Theorem remove_recent_header_only_reports_failure :
  fetched Samples.header_only logs_columns
  = Ok [[["Creator"]]; [["Link"]]; [["Price"]]] /\
  longest [[["Creator"]]; [["Link"]]; [["Price"]]] = Ok 1 /\
  remove_recent_from_sheets 1 Samples.header_only
  = (Ok (false, []),
     journal (ValuesBatchGet logs_columns) Samples.header_only) /\
  fst (removerecent_slash 1 Samples.header_only) = Ok FailedToRemoveRecords.
Proof. repeat split; reflexivity. Qed.

(** C5, the code against the claim: on a log of a heading and two records
    ([max_rows = 3]) in which the older record has no price, remove-recent
    with [count = 2] should remove [min(2, 3 - 1) = 2] rows and return two
    records; the lookup of the empty row raises [IndexError], nothing is
    cleared and the result is [(false, [])].  On the same log with every
    cell filled the two records are removed and returned oldest first. *)
Theorem remove_recent_gap_removes_nothing :
  fetched Samples.price_gap logs_columns
  = Ok [[["Creator"]; ["ann"]; ["bob"]];
        [["Link"]; ["https://i.ibb.co/a1/one.png"];
         ["https://i.ibb.co/b2/two.png"]];
        [["Price"]; []; ["7.50"]]] /\
  Z.min 2 (3 - 1) = 2 /\
  remove_recent_from_sheets 2 Samples.price_gap
  = (Ok (false, []),
     journal (ValuesBatchGet logs_columns) Samples.price_gap) /\
  fst (remove_recent_from_sheets 2 Samples.two_records)
  = Ok (true, [("ann", "https://i.ibb.co/a1/one.png", "5");
               ("bob", "https://i.ibb.co/b2/two.png", "7.50")]).
Proof. repeat split; reflexivity. Qed.

(** C9, the code against the claim: in the batch of the two last rows of
    that log, the column G fetched has no value at the row of the older
    record (its row there is [[]]); the snapshot of that row is not
    [("ann", link, "")], its price lookup raises [IndexError] and the whole
    operation reports failure.  Only a row past the end of a column gives
    the empty string. *)
Theorem removed_record_empty_cell_raises :
  let vrs := [[["Creator"]; ["ann"]; ["bob"]];
              [["Link"]; ["https://i.ibb.co/a1/one.png"];
               ["https://i.ibb.co/b2/two.png"]];
              [["Price"]; []; ["7.50"]]] in
  fetched Samples.price_gap logs_columns = Ok vrs /\
  field_at vrs 2 1 "" = Raise IndexError /\
  removed_record vrs 3 1 = Raise IndexError /\
  field_at vrs 2 3 "" = Ok "" /\
  fst (remove_recent_from_sheets 2 Samples.price_gap) = Ok (false, []) /\
  fst (removerecent_slash 2 Samples.price_gap) = Ok FailedToRemoveRecords.
Proof. repeat split; reflexivity. Qed.

(** ** List-logs *)

Lemma present_rows_kept (vrs : list (list (list string))) (indices : list Z)
      (rows : list LogRow) :
  present_rows vrs indices = Ok rows -> rows = kept_rows vrs indices.
Proof.
  revert rows; induction indices as [|i rest IH]; simpl; intros rows H.
  - now inversion H.
  - destruct (log_fields vrs i) as [fields|e]; simpl in H; [|discriminate].
    destruct (forallb sentinel fields); simpl in H.
    + destruct (log_row vrs i); simpl; now apply IH.
    + destruct (log_row vrs i) as [row|e]; simpl in H; [|discriminate].
      destruct (present_rows vrs rest) as [rows'|e]; simpl in H;
        [|discriminate].
      inversion H; subst. simpl. f_equal. now apply IH.
Qed.

(** When list-logs reports success, a row of the fetched range is in the
    result exactly when one of its four fields is no sentinel. *)
Lemma get_logs_success (w w' : World) (logs : list LogRow) :
  get_logs w = (Ok (true, logs), w') ->
  exists vrs max_rows,
    fetched w listed_columns = Ok vrs /\
    longest vrs = Ok max_rows /\
    logs = kept_rows vrs (Py.range max_rows).
Proof.
  intros H. unfold fetched.
  unfold get_logs, try_except, bindM, lift, ret in H.
  unfold Sheets.values_batch_get in H. fold listed_columns in H.
  cbn [book journal] in H.
  destruct (Py.for_list _ listed_columns) as [vrs|e] eqn:Hv; [|inversion H].
  destruct (longest vrs) as [max_rows|e] eqn:Hl; [|inversion H].
  destruct (present_rows vrs _) as [rows|e] eqn:Hp; inversion H; subst.
  exists vrs, max_rows. repeat split; auto.
  now apply present_rows_kept.
Qed.

Lemma kept_rows_in (vrs : list (list (list string))) (indices : list Z)
      (row : LogRow) :
  In row (kept_rows vrs indices) <->
  exists i fields,
    In i indices /\ log_fields vrs i = Ok fields /\
    log_row vrs i = Ok row /\ forallb sentinel fields = false.
Proof.
  unfold kept_rows. rewrite in_flat_map. split.
  - intros [i [Hi Hin]].
    destruct (log_fields vrs i) as [fields|] eqn:Hf; [|destruct Hin].
    destruct (log_row vrs i) as [r|] eqn:Hr; [|destruct Hin].
    destruct (forallb sentinel fields) eqn:Hs; [destruct Hin|].
    destruct Hin as [<-|[]]. exists i, fields. auto.
  - intros [i [fields [Hi [Hf [Hr Hs]]]]]. exists i. split; [assumption|].
    rewrite Hf, Hr, Hs. now left.
Qed.

(** C6, the code against the claim: in a log whose first record is not
    marked paid and whose second is, the column J fetched has an empty row
    before a value.  The first row has a creator, a link and a price that
    are no sentinels, so the claim lists it; the lookup of its paid mark
    raises [IndexError] and list-logs returns [(false, [])], with no row at
    all.  With every mark set, the rows are listed and the row of sentinels
    is left out. *)
Theorem get_logs_paid_gap_lists_nothing :
  let vrs := [[["ann"]; ["bob"]];
              [["https://i.ibb.co/a1/one.png"];
               ["https://i.ibb.co/b2/two.png"]];
              [["5"]; ["7.50"]];
              [[]; ["Yes"]]] in
  fetched Samples.paid_gap listed_columns = Ok vrs /\
  sentinel "ann" = false /\
  field_at vrs 3 0 "No" = Raise IndexError /\
  log_fields vrs 0 = Raise IndexError /\
  get_logs Samples.paid_gap
  = (Ok (false, []), journal (ValuesBatchGet listed_columns) Samples.paid_gap)
  /\
  fst (get_logs Samples.paid_marked)
  = Ok (true, [("ann", "https://i.ibb.co/a1/one.png", "5", "FALSE");
               ("bob", "https://i.ibb.co/b2/two.png", "7.50", "TRUE")]).
Proof. repeat split; reflexivity. Qed.

(** ** The next period *)

Section NextMonth.

Import Calendar.

Lemma days_in_month_bounds (y m : Z) : 28 <= days_in_month y m <= 31.
Proof.
  unfold days_in_month.
  destruct (m =? 2); [destruct (is_leap y); lia|].
  destruct ((m =? 4) || (m =? 6) || (m =? 9) || (m =? 11)); lia.
Qed.

(** Days added without leaving the month. *)
Lemma add_days_same_month (n : nat) : forall d,
  day d + Z.of_nat n <= days_in_month (year d) (month d) ->
  add_days n d = Ok (mkDate (year d) (month d) (day d + Z.of_nat n)).
Proof.
  induction n as [|n IH]; intros d H.
  - simpl. rewrite Z.add_0_r. now destruct d.
  - cbn [add_days]. unfold tomorrow.
    destruct (day d <? days_in_month (year d) (month d)) eqn:E;
      [|apply Z.ltb_ge in E; lia].
    cbn [Py.bind].
    rewrite IH; cbn [year month day]; [f_equal; f_equal; lia|lia].
Qed.

Lemma add_days_plus (a b : nat) (d : date) :
  add_days (a + b) d = Py.bind (add_days a d) (add_days b).
Proof.
  revert d; induction a as [|a IH]; intros d; simpl; [reflexivity|].
  destruct (tomorrow d); simpl; [apply IH|reflexivity].
Qed.

(** C7, as the claim has it, fails: in December of the year 9999, the
    last year a [datetime] holds, the first of the month plus 32 days is
    no date; the addition raises [OverflowError] and the roll-over reports
    failure before any call of the service. *)
Lemma next_month_overflow_counterexample :
  valid (mkDate 9999 12 15) /\
  add_days 32 (replace_day (mkDate 9999 12 15) 1) = Raise OverflowError /\
  end_month (mkDate 9999 12 15) Samples.in_january
  = (Ok failure_summary, Samples.in_january).
Proof.
  split; [|split; reflexivity].
  unfold valid, MAXYEAR; cbn [year month day].
  change (days_in_month 9999 12) with 31. lia.
Qed.

(** C7, amended: for every date [now] that is not in December 9999, the
    first day of the month of [now] plus 32 days is a date of the calendar
    month that follows the month of [now], whatever the length of that
    month, and its full name and abbreviation are those of the following
    month. *)
Theorem next_month_is_following_month (now : date) :
  valid now -> (year now < MAXYEAR \/ month now < 12) ->
  exists next,
    add_days 32 (replace_day now 1) = Ok next /\
    (year next, month next) = following_month now /\
    strftime_B next = month_name (snd (following_month now)) /\
    strftime_b next = abbreviation (month_name (snd (following_month now))).
Proof.
  intros [Hy [Hm Hd]] Hlast.
  pose proof (days_in_month_bounds (year now) (month now)) as HL.
  set (L := days_in_month (year now) (month now)) in *.
  replace 32%nat with (Z.to_nat (L - 1) + S (Z.to_nat (32 - L)))%nat by lia.
  rewrite add_days_plus.
  rewrite add_days_same_month
    by (unfold replace_day; cbn [year month day]; fold L; lia).
  unfold replace_day; cbn [year month day Py.bind add_days].
  unfold tomorrow; cbn [year month day].
  fold L. replace (1 + Z.of_nat (Z.to_nat (L - 1))) with L by lia.
  rewrite Z.ltb_irrefl.
  unfold following_month, strftime_b, strftime_B, month_name.
  destruct (month now <? 12) eqn:E12.
  - apply Z.ltb_lt in E12. cbn [Py.bind].
    pose proof (days_in_month_bounds (year now) (month now + 1)) as HL'.
    rewrite add_days_same_month by (cbn [year month day]; lia).
    cbn [year month day].
    destruct (month now =? 12) eqn:E; [apply Z.eqb_eq in E; lia|].
    eexists; repeat split.
  - apply Z.ltb_ge in E12.
    destruct (year now <? MAXYEAR) eqn:EY; [|apply Z.ltb_ge in EY; lia].
    cbn [Py.bind].
    pose proof (days_in_month_bounds (year now + 1) 1) as HL'.
    rewrite add_days_same_month by (cbn [year month day]; lia).
    cbn [year month day].
    destruct (month now =? 12) eqn:E; [|apply Z.eqb_neq in E; lia].
    eexists; repeat split.
Qed.

Lemma next_month_is_following_month_witness :
  exists next,
    add_days 32 (replace_day (mkDate 2024 1 31) 1) = Ok next /\
    (year next, month next) = following_month (mkDate 2024 1 31) /\
    strftime_B next = month_name (snd (following_month (mkDate 2024 1 31)))
    /\
    strftime_b next
    = abbreviation (month_name (snd (following_month (mkDate 2024 1 31)))).
Proof.
  apply (next_month_is_following_month (mkDate 2024 1 31)).
  - unfold valid, MAXYEAR; cbn [year month day].
    change (days_in_month 2024 1) with 31. lia.
  - left. unfold MAXYEAR; cbn [year]. lia.
Defined.

End NextMonth.

(** ** Append-record *)

(** What a non-negative decimal is made of is neither white space, nor an
    underscore, nor a sign, nor a dollar. *)
Lemma decimal_char_plain c :
  decimal_char c = true ->
  Py.is_space c = false /\ Float.underscore c = false /\
  Float.is_sign c = false /\ Ascii.eqb c "$" = false.
Proof.
  destruct c as [[] [] [] [] [] [] [] []]; vm_compute; intros H;
    try discriminate H; repeat split.
Qed.

Lemma digit_not_point c : Py.is_digit c = true -> Float.is_point c = false.
Proof.
  destruct c as [[] [] [] [] [] [] [] []]; vm_compute; intros H;
    try discriminate H; reflexivity.
Qed.

Lemma remove_dollar_decimal s :
  forallb decimal_char (list_ascii_of_string s) = true ->
  Py.remove_char "$" s = s.
Proof.
  induction s as [|c t IH]; simpl; intros H; [reflexivity|].
  apply andb_true_iff in H. destruct H as [Hc Ht].
  destruct (decimal_char_plain c Hc) as [_ [_ [_ ->]]]. now rewrite IH.
Qed.

Lemma drop_while_head {A} (p : A -> bool) l :
  match l with [] => True | x :: _ => p x = false end ->
  Float.drop_while p l = l.
Proof. destruct l; simpl; [reflexivity|]. now intros ->. Qed.

Lemma strip_decimal l :
  forallb decimal_char l = true -> Float.strip l = l.
Proof.
  intros H. rewrite forallb_forall in H. unfold Float.strip.
  rewrite (drop_while_head _ l).
  - rewrite drop_while_head; [apply rev_involutive|].
    destruct (rev l) as [|x t] eqn:E; [exact I|].
    apply decimal_char_plain, H, in_rev. rewrite E. now left.
  - destruct l as [|x t]; [exact I|]. apply decimal_char_plain, H. now left.
Qed.

Lemma without_underscores_decimal l : forall prev,
  Float.after_underscore prev = false ->
  forallb decimal_char l = true ->
  Float.without_underscores prev l = Some l.
Proof.
  induction l as [|c t IH]; simpl; intros prev Hp H.
  - now rewrite Hp.
  - apply andb_true_iff in H. destruct H as [Hc Ht].
    destruct (decimal_char_plain c Hc) as [_ [Hu _]].
    rewrite Hu, Hp. cbn [andb]. rewrite IH; auto.
Qed.

Lemma digits_all l :
  forallb Py.is_digit l = true -> Float.digits l = (l, []).
Proof.
  induction l as [|c t IH]; simpl; intros H; [reflexivity|].
  apply andb_true_iff in H. destruct H as [-> Ht]. now rewrite IH.
Qed.

Lemma digits_split l : forall whole r,
  Float.digits l = (whole, r) ->
  l = (whole ++ r)%list /\ forallb Py.is_digit whole = true /\
  match r with [] => True | c :: _ => Py.is_digit c = false end.
Proof.
  induction l as [|c t IH]; simpl; intros whole r H.
  - inversion H; subst. auto.
  - destruct (Py.is_digit c) eqn:Hc.
    + destruct (Float.digits t) as [d r0]. inversion H; subst.
      destruct (IH d r eq_refl) as [-> [Hd Hr]]. simpl. rewrite Hc. auto.
    + inversion H; subst. simpl. auto.
Qed.

Lemma number_decimal l :
  forallb decimal_char l = true ->
  (List.length (List.filter Float.is_point l) <= 1)%nat ->
  existsb Py.is_digit l = true ->
  Float.number l = true.
Proof.
  intros Hall Hpoints Hdigit. unfold Float.number.
  destruct (Float.digits l) as [whole r] eqn:Hd.
  destruct (digits_split l whole r Hd) as [-> [Hw Hr]].
  destruct r as [|c r'].
  - rewrite app_nil_r in Hdigit. destruct whole; [discriminate|reflexivity].
  - rewrite forallb_app in Hall. apply andb_true_iff in Hall.
    destruct Hall as [_ Hall]. simpl in Hall.
    apply andb_true_iff in Hall. destruct Hall as [Hc Hr'].
    unfold decimal_char in Hc. rewrite Hr in Hc. simpl in Hc. rewrite Hc.
    rewrite filter_app, length_app in Hpoints. simpl in Hpoints.
    rewrite Hc in Hpoints. simpl in Hpoints.
    assert (List.filter Float.is_point r' = []) as Hnone
        by (destruct (List.filter Float.is_point r');
            [reflexivity|simpl in Hpoints; lia]).
    assert (forallb Py.is_digit r' = true) as Hfrac.
    { rewrite forallb_forall in Hr' |- *. intros x Hx.
      specialize (Hr' x Hx). unfold decimal_char in Hr'.
      destruct (Float.is_point x) eqn:Hp.
      - assert (In x (List.filter Float.is_point r')) as Hin
            by (apply filter_In; auto).
        rewrite Hnone in Hin. destruct Hin.
      - now rewrite orb_false_r in Hr'. }
    rewrite (digits_all r' Hfrac). cbn [Float.exponent andb].
    rewrite andb_true_r.
    rewrite existsb_app in Hdigit. simpl in Hdigit. rewrite Hr in Hdigit.
    simpl in Hdigit.
    destruct whole; [|reflexivity]. destruct r'; [discriminate|reflexivity].
Qed.

Lemma nonneg_decimal_parses s :
  nonneg_decimal s = true -> Float.parses (Py.remove_char "$" s) = true.
Proof.
  unfold nonneg_decimal. intros H.
  apply andb_true_iff in H. destruct H as [H Hdigit].
  apply andb_true_iff in H. destruct H as [Hall Hpoints].
  apply Nat.leb_le in Hpoints. fold decimal_char in Hall.
  rewrite (remove_dollar_decimal s Hall). unfold Float.parses.
  rewrite (strip_decimal _ Hall).
  rewrite (without_underscores_decimal _ None eq_refl Hall).
  unfold Float.literal.
  assert (Float.unsigned (list_ascii_of_string s) = list_ascii_of_string s)
    as ->.
  { destruct (list_ascii_of_string s) as [|c t]; [reflexivity|]. simpl in *.
    apply andb_true_iff in Hall. destruct Hall as [Hc _].
    now destruct (decimal_char_plain c Hc) as [_ [_ [-> _]]]. }
  rewrite (number_decimal _ Hall Hpoints Hdigit). apply orb_true_r.
Qed.

(** Append-record reads column C of the log and, when the log is there,
    writes the record on the row after its last value. *)
Lemma add_to_google_sheets_run creator_name link price w :
  add_to_google_sheets creator_name link price w =
  match find (Sheets.by_title "Logs") (book w) with
  | Some sh =>
      (Ok true,
       set_book
         (Sheets.update_where (Sheets.by_title "Logs")
            (fun s =>
               Sheets.set_cells
                 (Grids.write (cells s)
                    (mkRange "Logs" colA colG (next_row sh)
                       (Some (next_row sh)))
                    [[""; ""; creator_name; ""; link; ""; price]]) s)
            (book w))
         (journal (append_call sh creator_name link price)
            (journal (ValuesBatchGet [whole_column "Logs" colC]) w)))
  | None => (Ok false, journal (ValuesBatchGet [whole_column "Logs" colC]) w)
  end.
Proof.
  unfold add_to_google_sheets, try_except, bindM, lift, ret.
  unfold Sheets.values_batch_get. cbn [Py.for_list book journal].
  unfold Sheets.read_range. cbn [r_sheet whole_column].
  destruct (find (Sheets.by_title "Logs") (book w)) as [sh|] eqn:Hf;
    [|reflexivity].
  cbn [Py.bind].
  match goal with
  | |- context [Py.index [?x] 0] => change (Py.index [x] 0) with (Ok x)
  end.
  cbn [Py.bind]. cbv zeta.
  unfold Sheets.values_update. cbn [book journal r_sheet]. rewrite Hf.
  unfold append_call, next_row, whole_column, Sheets.values_or.
  destruct (Grids.read (cells sh) _); reflexivity.
Qed.

(** C4, as the claim has it, fails: ["-5"] is no non-negative decimal, and
    [add_slash] accepts it and writes the record with that price. *)
Lemma add_slash_negative_price_counterexample :
  nonneg_decimal "-5" = false /\
  fst (add_slash "ann" "https://i.ibb.co/a1/one.png" "-5" Samples.header_only)
  = Ok (RecordAdded "ann" "https://i.ibb.co/a1/one.png" "-5") /\
  calls (snd (add_slash "ann" "https://i.ibb.co/a1/one.png" "-5"
                Samples.header_only))
  = [ValuesBatchGet [whole_column "Logs" colC];
     ValuesUpdate (mkRange "Logs" colA colG 2 (Some 2%nat)) USER_ENTERED
       [[""; ""; "ann"; ""; "https://i.ibb.co/a1/one.png"; ""; "-5"]]].
Proof. repeat split; reflexivity. Qed.

Lemma decimal_char_ascii c :
  decimal_char c = true -> Py.is_ascii_char c = true.
Proof.
  unfold decimal_char, Py.is_digit, Float.is_point, Py.is_ascii_char.
  intros H. apply orb_true_iff in H. destruct H as [H|H].
  - apply andb_true_iff in H. destruct H as [_ H]. apply Nat.leb_le in H.
    apply Nat.ltb_lt. lia.
  - apply Ascii.eqb_eq in H. now subst c.
Qed.

Lemma nonneg_decimal_ascii s :
  nonneg_decimal s = true -> Py.is_ascii s = true.
Proof.
  unfold nonneg_decimal, Py.is_ascii. intros H.
  apply andb_true_iff in H. destruct H as [H _].
  apply andb_true_iff in H. destruct H as [H _].
  apply forallb_forall. intros c Hc. apply decimal_char_ascii.
  now apply (proj1 (forallb_forall _ _) H).
Qed.

(** C4, amended: for a price of ASCII characters, [add_slash] rejects it
    exactly when [float] of the price without its dollars raises
    [ValueError]; it then answers "Invalid price format." and calls the
    store not at all.  For every other such price, negative numbers,
    exponents, [inf] and [nan] among them, append-record is attempted:
    column C of the log is read and, when the log is there, the update call
    for the next row is made.  Every non-negative decimal is such a
    price. *)
Theorem add_slash_writes_unless_float_raises
        (creator_name link price : string) (w : World) :
  (Py.is_ascii price = true ->
   (Float.parses (Py.remove_char "$" price) = false ->
    add_slash creator_name link price w = (Ok InvalidPriceFormat, w)) /\
   (Float.parses (Py.remove_char "$" price) = true ->
    (forall sh,
       find (Sheets.by_title "Logs") (book w) = Some sh ->
       fst (add_slash creator_name link price w)
       = Ok (RecordAdded creator_name link price) /\
       calls (snd (add_slash creator_name link price w))
       = (calls w ++ [ValuesBatchGet [whole_column "Logs" colC];
                      append_call sh creator_name link price])%list) /\
    (find (Sheets.by_title "Logs") (book w) = None ->
     add_slash creator_name link price w
     = (Ok FailedToAddRecord,
        journal (ValuesBatchGet [whole_column "Logs" colC]) w)))) /\
  (nonneg_decimal price = true ->
   Py.is_ascii price = true /\
   Float.parses (Py.remove_char "$" price) = true).
Proof.
  split; [intros _; split|].
  - intros Hp. unfold add_slash, try_except, bindM, lift, Float.float, ret.
    now rewrite Hp.
  - intros Hp. unfold add_slash, try_except, bindM, lift, Float.float, ret.
    rewrite Hp, add_to_google_sheets_run. split.
    + intros sh ->. cbn [fst snd calls set_book journal].
      split; [reflexivity|]. now rewrite <- app_assoc.
    + intros ->. reflexivity.
  - intros H. split; [now apply nonneg_decimal_ascii|].
    now apply nonneg_decimal_parses.
Qed.

Lemma add_slash_writes_unless_float_raises_witness :
  add_slash "ann" "https://i.ibb.co/a1/one.png" "abc" Samples.header_only
  = (Ok InvalidPriceFormat, Samples.header_only) /\
  (Py.is_ascii "10.50" = true /\
   Float.parses (Py.remove_char "$" "10.50") = true) /\
  fst (add_slash "ann" "https://i.ibb.co/a1/one.png" "$10.50"
         Samples.header_only)
  = Ok (RecordAdded "ann" "https://i.ibb.co/a1/one.png" "$10.50").
Proof.
  split; [|split].
  - apply (proj1 (proj1 (add_slash_writes_unless_float_raises
                           "ann" "https://i.ibb.co/a1/one.png" "abc"
                           Samples.header_only) eq_refl)).
    reflexivity.
  - apply (proj2 (add_slash_writes_unless_float_raises
                    "ann" "https://i.ibb.co/a1/one.png" "10.50"
                    Samples.header_only)).
    reflexivity.
  - apply (proj1 (proj1 (proj2 (proj1 (add_slash_writes_unless_float_raises
                                         "ann" "https://i.ibb.co/a1/one.png"
                                         "$10.50" Samples.header_only)
                                  eq_refl)
                           eq_refl)
                    (Samples.logs_sheet [Samples.headings]) eq_refl)).
Defined.

(** ** Roll-over *)

Section RollOver.

Import Sheets.

(** The cells of a grid after a clear. *)
Lemma mapi_from_nth {A B} (f : nat -> A -> B) (l : list A) :
  forall i n d d',
    (n < List.length l)%nat ->
    nth n (Grids.mapi_from i f l) d' = f (i + n)%nat (nth n l d).
Proof.
  induction l as [|x t IH]; simpl; intros i n d d' Hn; [lia|].
  destruct n; [now rewrite Nat.add_0_r|].
  rewrite (IH (S i) n d d') by lia. f_equal. lia.
Qed.

Lemma mapi_from_length {A B} (f : nat -> A -> B) (l : list A) :
  forall i, List.length (Grids.mapi_from i f l) = List.length l.
Proof. induction l; simpl; intros; [reflexivity|now rewrite IHl]. Qed.

Lemma cell_clear g rg row col :
  (1 <= row)%nat ->
  Grids.cell (Grids.clear g rg) row col =
  if Grids.in_rows rg row && Grids.in_cols rg col then ""
  else Grids.cell g row col.
Proof.
  intros Hrow. unfold Grids.cell, Grids.clear.
  destruct (Nat.lt_ge_cases (row - 1) (List.length g)) as [Hlt|Hge].
  - rewrite (mapi_from_nth _ g 1 (row - 1) [] []) by assumption.
    replace (1 + (row - 1))%nat with row by lia.
    destruct (Grids.in_rows rg row); [|reflexivity]. cbn [andb].
    set (r := nth (row - 1) g []).
    destruct (Nat.lt_ge_cases col (List.length r)) as [Hc|Hc].
    + rewrite (mapi_from_nth _ r 0 col "" "") by assumption. reflexivity.
    + rewrite !nth_overflow; [now destruct (Grids.in_cols rg col)|lia|].
      now rewrite mapi_from_length.
  - rewrite !(nth_overflow _ []); [|lia|now rewrite mapi_from_length].
    destruct col; simpl; now destruct (_ && _).
Qed.

(** What a successful roll-over went through: every call of [end_month]
    succeeded, on the spreadsheets [b1], [b3], [b4] in turn. *)
Lemma end_month_success now w w' full earned pending work_done :
  end_month now w = (Ok (true, full, earned, pending, work_done), w') ->
  exists next sh0 q15 b1 aid b3 b4 vals,
    Calendar.add_days 32 (Calendar.replace_day now 1) = Ok next /\
    find (by_title (current_short now)) (book w) = Some sh0 /\
    sheetId sh0 <> 0%nat /\
    apply_request (DuplicateSheet (sheetId sh0) 1 (archive_name now q15))
      (book w) = Ok b1 /\
    sheet_id_titled (archive_name now q15) b1 = Some aid /\
    apply_request (SetHidden aid true)
      (update_where (by_title (archive_name now q15))
         (fun sh =>
            set_cells
              (Grids.write (cells sh) (whole_sheet (archive_name now q15))
                 vals) sh) b1) = Ok b3 /\
    apply_request
      (SetTitle (sheetId sh0) (Py.upper (Calendar.strftime_b next))) b3
    = Ok b4 /\
    find (by_title "Logs") b4 <> None /\
    book w' = update_where (by_title "Logs")
                (fun sh => set_cells (Grids.clear (cells sh) record_area) sh)
                b4.
Proof.
  intros H.
  unfold end_month, try_except, bindM, lift, ret, raise in H.
  destruct (Calendar.add_days 32 (Calendar.replace_day now 1))
    as [next|e] eqn:Hnext; [|inversion H].
  unfold spreadsheets_get at 1 in H. cbn [book journal] in H.
  unfold sheet_id_titled at 1 in H. fold (current_short now) in H.
  destruct (find (by_title (current_short now)) (book w)) as [sh0|] eqn:Hcur;
    cbn [option_map] in H; [|inversion H].
  destruct (sheetId sh0) as [|n] eqn:Hid; [inversion H|].
  rewrite get_month_summary_run in H.
  destruct (summary_of (current_short now) _) as [[[[ok s1] s2] s3] s4].
  destruct ok; cbn [negb] in H; [|inversion H].
  match type of H with context [values_get _ ?w0] => set (w1 := w0) in H end.
  assert (book w1 = book w) as Hb1
      by (unfold w1; destruct (Calendar.strptime_b _); reflexivity).
  clearbody w1.
  unfold values_get at 1 in H. cbn [book journal] in H. rewrite Hb1 in H.
  destruct (read_range (book w) (one_cell (current_short now) colQ 15))
    as [q|e]; [|inversion H].
  destruct (row <-? Py.index (values_or [[""]] q) 0;; Py.index row 0)
    as [q15|e]; [|inversion H].
  fold (archive_name now q15) in H.
  unfold batch_update at 1 in H. cbn [book journal] in H. rewrite Hb1 in H.
  destruct (apply_request (DuplicateSheet (S n) 1 (archive_name now q15))
              (book w))
    as [b1|e] eqn:Hdup; [|inversion H].
  unfold spreadsheets_get at 1 in H. cbn [book journal set_book] in H.
  unfold values_get at 1 in H. cbn [book journal set_book] in H.
  destruct (read_range b1 _) as [got|e]; [|inversion H].
  unfold values_update at 1 in H. cbn [book journal set_book r_sheet] in H.
  destruct (find (by_title (archive_name now q15)) b1) as [arch|] eqn:Harch;
    [|inversion H].
  destruct (sheet_id_titled (archive_name now q15) b1) as [aid|] eqn:Haid;
    [|inversion H].
  unfold batch_update at 1 in H. cbn [book journal set_book] in H.
  match type of H with context [apply_request (SetHidden aid true) ?b] =>
    destruct (apply_request (SetHidden aid true) b) as [b3|e] eqn:Hhide;
      [|inversion H] end.
  unfold batch_update at 1 in H. cbn [book journal set_book] in H.
  destruct (apply_request (SetTitle (S n) _) b3) as [b4|e] eqn:Hren;
    [|inversion H].
  unfold values_clear at 1 in H. cbn [book journal set_book r_sheet] in H.
  destruct (find (by_title "Logs") b4) as [lg|] eqn:Hlogs; [|inversion H].
  inversion H; subst. cbn [book set_book].
  exists next, sh0, q15, b1, aid, b3, b4, (values_or [[]] got).
  rewrite Hid. repeat split; auto; try discriminate.
  rewrite Hlogs. discriminate.
Qed.

(** Finding a sheet after an update, an insertion. *)
Lemma find_update_where (q p : Sheet -> bool) (f : Sheet -> Sheet)
      (b : Spreadsheet) :
  (forall sh, In sh b -> p sh = true -> q (f sh) = q sh) ->
  find q (update_where p f b)
  = option_map (fun sh => if p sh then f sh else sh) (find q b).
Proof.
  unfold update_where. induction b as [|x t IH]; intros Hq; [reflexivity|].
  cbn [map find].
  assert (q (if p x then f x else x) = q x) as ->.
  { destruct (p x) eqn:Hp; [apply Hq; [now left|assumption]|reflexivity]. }
  destruct (q x); [reflexivity|].
  apply IH. intros sh Hin. apply Hq. now right.
Qed.

Lemma find_insert (q : Sheet -> bool) (x : Sheet) (n : nat) (b : Spreadsheet) :
  q x = false -> find q (firstn n b ++ x :: skipn n b)%list = find q b.
Proof.
  intros Hx. revert b; induction n as [|n IH]; intros b.
  - simpl. now rewrite Hx.
  - destruct b as [|y t]; simpl; [now rewrite Hx|].
    destruct (q y); [reflexivity|apply IH].
Qed.

Lemma in_insert (x sh : Sheet) (n : nat) (b : Spreadsheet) :
  In sh (firstn n b ++ x :: skipn n b)%list -> sh = x \/ In sh b.
Proof.
  intros H. apply in_app_or in H. destruct H as [H|[H|H]].
  - right. rewrite <- (firstn_skipn n b). apply in_or_app. now left.
  - left. now symmetry.
  - right. rewrite <- (firstn_skipn n b). apply in_or_app. now right.
Qed.

Lemma fresh_id_above (b : Spreadsheet) (sh : Sheet) :
  In sh b -> (sheetId sh < fresh_id b)%nat.
Proof.
  unfold fresh_id. induction b as [|x t IH]; simpl; [intros []|].
  intros [<-|H]; [lia|]. specialize (IH H). lia.
Qed.

Lemma same_id_same_sheet (b : Spreadsheet) (sh sh' : Sheet) :
  distinct_ids b -> In sh b -> In sh' b -> sheetId sh = sheetId sh' ->
  sh = sh'.
Proof.
  unfold distinct_ids. induction b as [|x t IH]; simpl; [intros _ []|].
  intros Hnd Hin Hin' Hid. inversion Hnd as [|? ? Hnotin Hnd']; subst.
  destruct Hin as [<-|Hin], Hin' as [<-|Hin']; auto.
  - exfalso. apply Hnotin. rewrite Hid. now apply in_map.
  - exfalso. apply Hnotin. rewrite <- Hid. now apply in_map.
Qed.

Lemma month_token_not_logs (d : Calendar.date) :
  Py.upper (Calendar.strftime_b d) <> "Logs".
Proof.
  unfold Calendar.strftime_b, Calendar.strftime_B.
  generalize (Z.to_nat (Calendar.month d - 1)). intros k.
  do 12 (destruct k as [|k]; [vm_compute; discriminate|]).
  destruct k; vm_compute; discriminate.
Qed.

Lemma archive_name_not_logs (d : Calendar.date) (q15 : string) :
  archive_name d q15 <> "Logs".
Proof.
  unfold archive_name, Calendar.strftime_B.
  generalize (Z.to_nat (Calendar.month d - 1)). intros k.
  do 12 (destruct k as [|k]; [simpl; discriminate|]).
  destruct k; simpl; discriminate.
Qed.

Lemma in_update_where (p : Sheet -> bool) (f : Sheet -> Sheet)
      (b : Spreadsheet) (sh : Sheet) :
  In sh (update_where p f b) ->
  exists sh', In sh' b /\ sh = if p sh' then f sh' else sh'.
Proof.
  unfold update_where. rewrite in_map_iff. intros [sh' [<- Hin]].
  now exists sh'.
Qed.

Lemma by_title_true (t : string) (sh : Sheet) :
  by_title t sh = true -> title sh = t.
Proof. unfold by_title. apply String.eqb_eq. Qed.

Lemma by_title_other (t : string) (sh : Sheet) :
  title sh <> t -> by_title t sh = false.
Proof. unfold by_title. apply String.eqb_neq. Qed.

Lemma by_id_true (i : nat) (sh : Sheet) : by_id i sh = true -> sheetId sh = i.
Proof. unfold by_id. apply Nat.eqb_eq. Qed.

Section Steps.

Variables (b0 b1 b4 : Spreadsheet) (sh0 : Sheet).
Variables (cur arch nxt : string) (vals : list (list string)) (aid : nat).
Hypothesis Hnd : distinct_ids b0.
Hypothesis Hcur : find (by_title cur) b0 = Some sh0.
Hypothesis Hdup :
  apply_request (DuplicateSheet (sheetId sh0) 1 arch) b0 = Ok b1.
Hypothesis Hren :
  apply_request (SetTitle (sheetId sh0) nxt) (archived arch vals aid b1)
  = Ok b4.
Hypothesis Hcur_logs : cur <> "Logs".
Hypothesis Harch_logs : arch <> "Logs".
Hypothesis Hnxt_logs : nxt <> "Logs".

Lemma sh0_in : In sh0 b0 /\ title sh0 = cur.
Proof.
  apply find_some in Hcur. destruct Hcur as [Hin Ht].
  split; [assumption|now apply by_title_true].
Qed.

Lemma duplicate_shape :
  exists src,
    find (by_title arch) b0 = None /\
    b1 = (firstn 1 b0
            ++ mkSheet (fresh_id b0) arch (hidden src) (cells src)
            :: skipn 1 b0)%list.
Proof.
  unfold apply_request in Hdup.
  destruct (find (by_id (sheetId sh0)) b0) as [src|]; [|discriminate].
  destruct (find (by_title arch) b0); [discriminate|].
  exists src. split; [reflexivity|]. injection Hdup as Hb. now symmetry.
Qed.

Lemma arch_is_new : forall sh, In sh b0 -> title sh <> arch.
Proof.
  intros sh Hin Ht. destruct duplicate_shape as [src [Hf _]].
  pose proof (find_none _ _ Hf sh Hin) as Hn.
  unfold by_title in Hn. rewrite Ht, String.eqb_refl in Hn. discriminate.
Qed.

Lemma b1_members : forall sh, In sh b1 ->
  (title sh = arch /\ sheetId sh = fresh_id b0) \/ In sh b0.
Proof.
  intros sh Hin. destruct duplicate_shape as [src [_ Hb]].
  rewrite Hb in Hin. apply in_insert in Hin.
  destruct Hin as [->|Hin]; [left; split; reflexivity|now right].
Qed.

Lemma find_b1 (q : Sheet -> bool) :
  (forall sh, title sh = arch -> sheetId sh = fresh_id b0 -> q sh = false) ->
  find q b1 = find q b0.
Proof.
  intros Hq. destruct duplicate_shape as [src [_ Hb]].
  rewrite Hb. apply find_insert. now apply Hq.
Qed.

(** A sheet of the archived spreadsheet comes from a sheet of [b1] with
    the same identifier and title, and the same cells unless it is the
    archive. *)
Lemma archived_members : forall sh, In sh (archived arch vals aid b1) ->
  exists sh1, In sh1 b1 /\ sheetId sh = sheetId sh1 /\ title sh = title sh1 /\
              (title sh1 <> arch -> cells sh = cells sh1).
Proof.
  intros sh Hin. unfold archived in Hin.
  apply in_update_where in Hin. destruct Hin as [sh2 [Hin ->]].
  apply in_update_where in Hin. destruct Hin as [sh1 [Hin ->]].
  exists sh1. split; [assumption|].
  destruct (by_title arch sh1) eqn:Ha.
  - apply by_title_true in Ha.
    destruct (by_id aid _); cbn; repeat split; auto; intros Hne; now elim Hne.
  - destruct (by_id aid sh1); cbn; repeat split; auto.
Qed.

Lemma archived_with_id : forall sh,
  In sh (archived arch vals aid b1) -> sheetId sh = sheetId sh0 ->
  title sh = cur /\ cells sh = cells sh0.
Proof.
  intros sh Hin Hid. destruct sh0_in as [Hin0 Ht0].
  destruct (archived_members sh Hin) as [sh1 [Hin1 [Hid1 [Ht1 Hc1]]]].
  destruct (b1_members sh1 Hin1) as [[_ Hfresh]|Hin1'].
  - pose proof (fresh_id_above b0 sh0 Hin0). lia.
  - assert (sh1 = sh0) as ->
        by (apply (same_id_same_sheet b0); auto; congruence).
    split; [congruence|]. apply Hc1. rewrite Ht0.
    intros E. apply (arch_is_new sh0 Hin0). congruence.
Qed.

Lemma find_archived (q : Sheet -> bool) :
  (forall sh g h, q (set_cells g sh) = q sh /\ q (set_hidden h sh) = q sh) ->
  find q (archived arch vals aid b1)
  = option_map
      (fun sh =>
         let sh2 := if by_title arch sh
                    then set_cells
                           (Grids.write (cells sh) (whole_sheet arch) vals) sh
                    else sh in
         if by_id aid sh2 then set_hidden true sh2 else sh2)
      (find q b1).
Proof.
  intros Hq. unfold archived.
  rewrite find_update_where by (intros; apply Hq; exact []).
  rewrite find_update_where by (intros; apply Hq; exact true).
  now destruct (find q b1).
Qed.

(** The sheet that was the current period's keeps its identifier and its
    cells, and has the next period's title. *)
Lemma renamed_sheet :
  exists sh4, find (by_id (sheetId sh0)) b4 = Some sh4 /\
              title sh4 = nxt /\ cells sh4 = cells sh0.
Proof.
  unfold apply_request in Hren.
  destruct (find (by_id (sheetId sh0)) (archived arch vals aid b1))
    as [sh3|] eqn:Hf; [|discriminate].
  destruct (existsb _ _); [discriminate|]. inversion Hren; subst.
  rewrite find_update_where by reflexivity. rewrite Hf. cbn [option_map].
  apply find_some in Hf. destruct Hf as [Hin Hid]. rewrite Hid.
  apply by_id_true in Hid.
  destruct (archived_with_id sh3 Hin Hid) as [_ Hc].
  eexists. split; [reflexivity|]. split; [reflexivity|exact Hc].
Qed.

(** The log sheet is found after the renaming as it was before the
    roll-over, with its identifier and its cells. *)
Lemma logs_sheet_kept : forall lg4,
  find (by_title "Logs") b4 = Some lg4 ->
  exists lg, find (by_title "Logs") b0 = Some lg /\
             sheetId lg4 = sheetId lg /\ cells lg4 = cells lg.
Proof.
  intros lg4 Hf4. unfold apply_request in Hren.
  destruct (find (by_id (sheetId sh0)) (archived arch vals aid b1));
    [|discriminate].
  destruct (existsb _ _); [discriminate|]. inversion Hren; subst.
  rewrite find_update_where in Hf4.
  2:{ intros sh Hin Hid. apply by_id_true in Hid.
      destruct (archived_with_id sh Hin Hid) as [Ht _].
      rewrite (by_title_other "Logs" sh) by congruence.
      apply by_title_other. assumption. }
  rewrite find_archived in Hf4 by (intros; split; reflexivity).
  rewrite find_b1 in Hf4
    by (intros sh Ht _; apply by_title_other; congruence).
  destruct (find (by_title "Logs") b0) as [lg|] eqn:Hlg; [|discriminate].
  exists lg. split; [reflexivity|].
  apply find_some in Hlg. destruct Hlg as [Hin Ht]. apply by_title_true in Ht.
  cbn [option_map] in Hf4. injection Hf4 as <-.
  rewrite (by_title_other arch lg) by congruence. cbv zeta.
  destruct (by_id aid lg); destruct (by_id (sheetId sh0) _);
    split; reflexivity.
Qed.

End Steps.

(** C3, as the claim has it, fails: after the roll-over of January, the
    sheet that was JAN is titled FEB and is the active period sheet, and its
    rows from 7 on are as they were (the cell C7 still holds "ann"); what
    the roll-over cleared is the area A7:G of the sheet Logs. *)
Lemma new_active_sheet_not_cleared_counterexample :
  fst (end_month (Calendar.mkDate 2025 1 20) Samples.in_january)
  = Ok (true, "January", "$120.00", "$40.00", "9") /\
  find (by_id 7)
    (book (snd (end_month (Calendar.mkDate 2025 1 20) Samples.in_january)))
  = Some (mkSheet 7 "FEB" false (cells Samples.january)) /\
  in_record_area 7 colC = true /\
  Grids.cell (cells Samples.january) 7 colC = "ann" /\
  Grids.cell (cells Samples.january) 7 colC <> "".
Proof.
  split; [vm_compute; reflexivity|]. split; [vm_compute; reflexivity|].
  split; [reflexivity|]. split; [vm_compute; reflexivity|].
  vm_compute. discriminate.
Qed.

(** C3, amended: after every successful roll-over (on a spreadsheet whose
    sheets have different identifiers) the sheet that was the current
    period's has the abbreviation of the next period for title, so that it
    is the new active period sheet, and its cells are unchanged; the record
    rows A7:G that are cleared are those of the sheet Logs, of which every
    cell above row 7 or right of column G is unchanged. *)
Theorem end_month_renames_sheet_and_clears_logs
        (now : Calendar.date) (w w' : World)
        (full earned pending work_done : string) :
  distinct_ids (book w) ->
  end_month now w = (Ok (true, full, earned, pending, work_done), w') ->
  exists next current active logs logs',
    Calendar.add_days 32 (Calendar.replace_day now 1) = Ok next /\
    find (by_title (current_short now)) (book w) = Some current /\
    find (by_id (sheetId current)) (book w') = Some active /\
    title active = Py.upper (Calendar.strftime_b next) /\
    cells active = cells current /\
    find (by_title "Logs") (book w) = Some logs /\
    find (by_title "Logs") (book w') = Some logs' /\
    forall row col, (1 <= row)%nat ->
      Grids.cell (cells logs') row col
      = if in_record_area row col then ""
        else Grids.cell (cells logs) row col.
Proof.
  intros Hnd H. apply end_month_success in H.
  destruct H as [next [sh0 [q15 [b1 [aid [b3 [b4 [vals H]]]]]]]].
  destruct H as [Hnext [Hcur [Hid [Hdup [Haid [Hhide [Hren [Hlogs Hbook]]]]]]]].
  assert (b3 = archived (archive_name now q15) vals aid b1) as Hb3.
  { unfold apply_request in Hhide.
    destruct (find (by_id aid) _); [|discriminate].
    injection Hhide as <-. reflexivity. }
  subst b3.
  pose proof (month_token_not_logs now) as Hc.
  pose proof (month_token_not_logs next) as Hn.
  pose proof (archive_name_not_logs now q15) as Ha.
  destruct (renamed_sheet (book w) b1 b4 sh0 (current_short now)
              (archive_name now q15) (Py.upper (Calendar.strftime_b next))
              vals aid Hnd Hcur Hdup Hren) as [sh4 [Hf4 [Ht4 Hc4]]].
  destruct (find (by_title "Logs") b4) as [lg4|] eqn:Hlg4; [|now elim Hlogs].
  destruct (logs_sheet_kept (book w) b1 b4 sh0 (current_short now)
              (archive_name now q15) (Py.upper (Calendar.strftime_b next))
              vals aid Hnd Hcur Hdup Hren Hc Ha Hn lg4 Hlg4)
    as [lg [Hlg [_ Hcl]]].
  exists next, sh0, sh4, lg,
    (set_cells (Grids.clear (cells lg4) record_area) lg4).
  rewrite Hbook.
  rewrite !find_update_where by reflexivity. rewrite Hf4, Hlg4.
  cbn [option_map].
  rewrite (by_title_other "Logs" sh4) by congruence.
  apply find_some in Hlg4. destruct Hlg4 as [_ Hlt]. rewrite Hlt.
  repeat split; auto.
  intros row col Hrow. cbn [cells set_cells]. rewrite cell_clear by assumption.
  rewrite Hcl. unfold in_record_area, Grids.in_rows, Grids.in_cols, record_area.
  cbn [r_row0 r_row1 r_col0 r_col1]. unfold colA.
  rewrite andb_true_r. cbn [Nat.leb andb]. reflexivity.
Qed.

Lemma end_month_renames_sheet_and_clears_logs_witness :
  exists next current active logs logs',
    Calendar.add_days 32
      (Calendar.replace_day (Calendar.mkDate 2025 1 20) 1) = Ok next /\
    find (by_title (current_short (Calendar.mkDate 2025 1 20)))
      (book Samples.in_january) = Some current /\
    find (by_id (sheetId current))
      (book (snd (end_month (Calendar.mkDate 2025 1 20) Samples.in_january)))
    = Some active /\
    title active = Py.upper (Calendar.strftime_b next) /\
    cells active = cells current /\
    find (by_title "Logs") (book Samples.in_january) = Some logs /\
    find (by_title "Logs")
      (book (snd (end_month (Calendar.mkDate 2025 1 20) Samples.in_january)))
    = Some logs' /\
    forall row col, (1 <= row)%nat ->
      Grids.cell (cells logs') row col
      = if in_record_area row col then ""
        else Grids.cell (cells logs) row col.
Proof.
  apply (end_month_renames_sheet_and_clears_logs
           (Calendar.mkDate 2025 1 20) Samples.in_january
           (snd (end_month (Calendar.mkDate 2025 1 20) Samples.in_january))
           "January" "$120.00" "$40.00" "9").
  - unfold distinct_ids. cbn.
    repeat constructor; cbn; intuition discriminate.
  - vm_compute. reflexivity.
Defined.

End RollOver.

(** * Further properties *)

(** ** Image upload *)

Lemma upload_image_to_imgbb_run (host : Host) (image_url : string) (n : Net) :
  let p := List.length (posts n) in
  upload_image_to_imgbb host image_url n =
  match host p with
  | Hosted link => (Link link, mkNet (posts n ++ [image_url]) (sleeps n))
  | OtherException => (Propagated, mkNet (posts n ++ [image_url]) (sleeps n))
  | RequestException =>
      match host (p + 1)%nat with
      | Hosted link =>
          (Link link, mkNet (posts n ++ [image_url; image_url]) (sleeps n + 1))
      | OtherException =>
          (Propagated, mkNet (posts n ++ [image_url; image_url]) (sleeps n + 1))
      | RequestException =>
          let n3 := mkNet (posts n ++ [image_url; image_url; image_url])
                      (sleeps n + 2) in
          match host (p + 2)%nat with
          | Hosted link => (Link link, n3)
          | OtherException => (Propagated, n3)
          | RequestException => (NoLink, n3)
          end
      end
  end%list.
Proof.
  unfold upload_image_to_imgbb.
  change (Py.range 3) with [0; 1; 2].
  cbn [upload_attempts posts sleeps].
  rewrite !length_app. cbn [List.length].
  change (0 <? 2) with true. change (1 <? 2) with true.
  change (2 <? 2) with false. cbv iota zeta.
  rewrite <- !app_assoc. cbn [app].
  replace (S (sleeps n)) with (sleeps n + 1)%nat by lia.
  replace (S (sleeps n + 1)) with (sleeps n + 2)%nat by lia.
  replace (List.length (posts n) + 1 + 1)%nat
    with (List.length (posts n) + 2)%nat by lia.
  reflexivity.
Qed.

(** X1: [upload_image_to_imgbb] posts the image url at least once and at
    most three times and nothing else, sleeps once between two posts (so at
    most twice), and returns [None] only after three posts. *)
Theorem upload_posts_at_most_three_times
        (host : Host) (image_url : string) (n : Net) :
  exists k : nat,
    (1 <= k <= 3)%nat /\
    posts (snd (upload_image_to_imgbb host image_url n))
    = (posts n ++ repeat image_url k)%list /\
    sleeps (snd (upload_image_to_imgbb host image_url n))
    = (sleeps n + (k - 1))%nat /\
    (fst (upload_image_to_imgbb host image_url n) = NoLink -> k = 3%nat).
Proof.
  rewrite upload_image_to_imgbb_run. cbv zeta.
  destruct (host (List.length (posts n)));
    [exists 1%nat| |exists 1%nat];
    try (cbn; repeat split; try reflexivity; try lia; discriminate).
  destruct (host (List.length (posts n) + 1)%nat);
    [exists 2%nat| |exists 2%nat];
    try (cbn; repeat split; try reflexivity; try lia; discriminate).
  exists 3%nat.
  destruct (host (List.length (posts n) + 2)%nat);
    cbn; repeat split; try reflexivity; lia.
Qed.

(** X2: [upload_image_to_imgbb] returns [None] exactly when each of its three
    posts raises a [requests.RequestException], and returns a link exactly
    when one of the three posts is hosted under that link and every post
    before it raised a [requests.RequestException]. *)
Theorem upload_result_by_first_outcome
        (host : Host) (image_url : string) (n : Net) :
  let p := List.length (posts n) in
  let r := fst (upload_image_to_imgbb host image_url n) in
  (r = NoLink <->
   forall j, (j < 3)%nat -> host (p + j)%nat = RequestException) /\
  (forall link,
     r = Link link <->
     exists k, (k < 3)%nat /\ host (p + k)%nat = Hosted link /\
               forall j, (j < k)%nat -> host (p + j)%nat = RequestException).
Proof.
  cbv zeta. rewrite upload_image_to_imgbb_run. cbv zeta.
  set (p := List.length (posts n)).
  assert (forall j, (j < 3)%nat -> j = 0%nat \/ j = 1%nat \/ j = 2%nat) as H3
      by (intros; lia).
  assert (p + 0 = p)%nat as E0 by lia.
  destruct (host p) eqn:H0; [| |].
  - split.
    + split; [discriminate|]. intros H. specialize (H 0%nat).
      rewrite E0, H0 in H. discriminate H. lia.
    + intros l. split.
      * intros E. injection E as <-. exists 0%nat. rewrite E0.
        repeat split; auto; try lia.
      * intros [k [Hk [Hh Hj]]]. destruct k.
        -- rewrite E0, H0 in Hh. now injection Hh as <-.
        -- specialize (Hj 0%nat). rewrite E0, H0 in Hj. discriminate Hj. lia.
  - destruct (host (p + 1)%nat) eqn:H1.
    + split.
      * split; [discriminate|]. intros H. specialize (H 1%nat).
        rewrite H1 in H. discriminate H. lia.
      * intros l. split.
        -- intros E. injection E as <-. exists 1%nat.
           repeat split; auto. intros j Hj. assert (j = 0%nat) as -> by lia.
           now rewrite E0.
        -- intros [k [Hk [Hh Hj]]].
           destruct k as [|[|k]].
           ++ rewrite E0, H0 in Hh. discriminate.
           ++ rewrite H1 in Hh. now injection Hh as <-.
           ++ specialize (Hj 1%nat). rewrite H1 in Hj. discriminate Hj. lia.
    + destruct (host (p + 2)%nat) eqn:H2.
      * split.
        -- split; [discriminate|]. intros H. specialize (H 2%nat).
           rewrite H2 in H. discriminate H. lia.
        -- intros l. split.
           ++ intros E. injection E as <-. exists 2%nat.
              repeat split; auto. intros j Hj.
              assert (j = 0%nat \/ j = 1%nat) as [-> | ->] by lia;
                [now rewrite E0|assumption].
           ++ intros [k [Hk [Hh Hj]]].
              destruct k as [|[|[|k]]]; try lia.
              ** rewrite E0, H0 in Hh. discriminate.
              ** rewrite H1 in Hh. discriminate.
              ** rewrite H2 in Hh. now injection Hh as <-.
      * split.
        -- split; [|reflexivity]. intros _ j Hj.
           destruct (H3 j Hj) as [-> | [-> | ->]];
             [now rewrite E0|assumption|assumption].
        -- intros l. split; [discriminate|].
           intros [k [Hk [Hh Hj]]].
           destruct (H3 k Hk) as [-> | [-> | ->]]; try rewrite E0 in Hh;
             congruence.
      * split.
        -- split; [discriminate|]. intros H. specialize (H 2%nat).
           rewrite H2 in H. discriminate H. lia.
        -- intros l. split; [discriminate|].
           intros [k [Hk [Hh Hj]]].
           destruct (H3 k Hk) as [-> | [-> | ->]]; try rewrite E0 in Hh;
             congruence.
    + split.
      * split; [discriminate|]. intros H. specialize (H 1%nat).
        rewrite H1 in H. discriminate H. lia.
      * intros l. split; [discriminate|].
        intros [k [Hk [Hh Hj]]].
        destruct k as [|[|k]].
        -- rewrite E0, H0 in Hh. discriminate.
        -- rewrite H1 in Hh. discriminate.
        -- specialize (Hj 1%nat). rewrite H1 in Hj. discriminate Hj. lia.
  - split.
    + split; [discriminate|]. intros H. specialize (H 0%nat).
      rewrite E0, H0 in H. discriminate H. lia.
    + intros l. split; [discriminate|].
      intros [k [Hk [Hh Hj]]]. destruct k.
      * rewrite E0, H0 in Hh. discriminate.
      * specialize (Hj 0%nat). rewrite E0, H0 in Hj. discriminate Hj. lia.
Qed.

Lemma endswith_spec (suffix s : string) :
  Str.endswith suffix s = true <-> exists p, s = p ++ suffix.
Proof.
  induction s as [|c t IH]; cbn [Str.endswith].
  - rewrite orb_false_r, String.eqb_eq. split.
    + intros ->. now exists "".
    + intros [p Hp]. destruct p; cbn in Hp; [assumption|discriminate].
  - rewrite orb_true_iff, String.eqb_eq, IH. split.
    + intros [->|[p ->]]; [now exists ""|now exists (String c p)].
    + intros [p Hp]. destruct p as [|c' p]; cbn in Hp.
      * now left.
      * right. exists p. now injection Hp.
Qed.

Lemma upload_posts_repeat (host : Host) (image_url : string) (n : Net) :
  exists k : nat,
    (k <= 3)%nat /\
    posts (snd (upload_image_to_imgbb host image_url n))
    = (posts n ++ repeat image_url k)%list.
Proof.
  rewrite upload_image_to_imgbb_run. cbv zeta.
  destruct (host (List.length (posts n)));
    [exists 1%nat| |exists 1%nat];
    try (cbn; split; [lia|reflexivity]).
  destruct (host (List.length (posts n) + 1)%nat);
    [exists 2%nat| |exists 2%nat];
    try (cbn; split; [lia|reflexivity]).
  exists 3%nat.
  destruct (host (List.length (posts n) + 2)%nat);
    cbn; split; try reflexivity; lia.
Qed.

(** X3: when [on_message] gets through the attachments of a message that
    the bot did not write, it has sent one reply per attachment, in their
    order, and the reply is "Please send a PNG image." exactly for the
    attachments whose file name, in lower case, does not end with
    [.png]. *)
Theorem on_message_one_reply_per_attachment
        (host : Host) (attachments : list Attachment) :
  forall (n n' : Net) (replies : list MessageReply),
    on_message host false attachments n = (replies, true, n') ->
    Forall2
      (fun attachment reply =>
         reply = SendPng <->
         ~ exists p, Py.lower (filename attachment) = p ++ ".png")
      attachments replies.
Proof.
  unfold on_message.
  induction attachments as [|a rest IH]; intros n n' replies H;
    cbn [on_attachments] in H.
  - injection H as <- _. constructor.
  - destruct (Str.endswith ".png" (Py.lower (filename a))) eqn:Hpng.
    + assert (exists p, Py.lower (filename a) = p ++ ".png") as Hex
          by now apply endswith_spec.
      destruct (upload_image_to_imgbb host (url a) n) as [[l| |] n1].
      * destruct (on_attachments host rest n1) as [[rs e] n2] eqn:Hr.
        injection H as <- -> ->. constructor; [|now apply (IH n1 n')].
        split; [|tauto]. destruct (String.eqb l ""); discriminate.
      * destruct (on_attachments host rest n1) as [[rs e] n2] eqn:Hr.
        injection H as <- -> ->. constructor; [|now apply (IH n1 n')].
        split; [discriminate|tauto].
      * discriminate.
    + destruct (on_attachments host rest n) as [[rs e] n2] eqn:Hr.
      injection H as <- -> ->. constructor; [|now apply (IH n n')].
      split; [|reflexivity]. intros _ Hex. apply endswith_spec in Hex.
      congruence.
Qed.

Lemma on_message_one_reply_per_attachment_witness :
  Forall2
    (fun attachment reply =>
       reply = SendPng <->
       ~ exists p, Py.lower (filename attachment) = p ++ ".png")
    [mkAttachment "a.PNG" "u1"; mkAttachment "b.jpg" "u2"]
    [ImgBBLink "https://i.ibb.co/x/y.png"; SendPng].
Proof.
  apply (on_message_one_reply_per_attachment two_then_hosted
           [mkAttachment "a.PNG" "u1"; mkAttachment "b.jpg" "u2"]
           (mkNet [] 0) (mkNet ["u1"; "u1"; "u1"] 2)).
  reflexivity.
Defined.

(** X4: whatever the image host does, [on_message] posts to it only urls of
    attachments whose file name ends with [.png] in any case of letters, at
    most three posts for each such attachment, and posts nothing for a
    message of the bot itself. *)
Theorem on_message_posts_only_png
        (host : Host) (author_is_bot : bool) (attachments : list Attachment) :
  forall n : Net,
  exists posted : list string,
    posts (snd (on_message host author_is_bot attachments n))
    = (posts n ++ posted)%list /\
    (forall u, In u posted ->
       exists attachment,
         In attachment attachments /\ is_png attachment = true /\
         url attachment = u) /\
    (List.length posted <= 3 * List.length (List.filter is_png attachments))%nat
    /\ (author_is_bot = true -> posted = []).
Proof.
  unfold on_message. destruct author_is_bot.
  { intros n. exists []. cbn [snd]. rewrite app_nil_r.
    split; [reflexivity|]. split; [intros u []|]. split; [cbn; lia|].
    reflexivity. }
  induction attachments as [|a rest IH]; intros n; cbn [on_attachments].
  - exists []. cbn [snd]. rewrite app_nil_r.
    split; [reflexivity|]. split; [intros u []|]. split; [cbn; lia|].
    discriminate.
  - cbn [List.filter]. fold (is_png a). destruct (is_png a) eqn:Hpng.
    + destruct (upload_posts_repeat host (url a) n) as [k [Hk Hp]].
      assert (forall u, In u (repeat (url a) k) ->
                exists attachment, In attachment (a :: rest) /\
                  is_png attachment = true /\ url attachment = u) as Hrep.
      { intros u Hu. apply repeat_spec in Hu. exists a.
        repeat split; auto. now left. }
      destruct (upload_image_to_imgbb host (url a) n) as [[l| |] n1];
        cbn [snd] in Hp.
      1,2: destruct (IH n1) as [posted [Hposts [Hin [Hlen _]]]];
        destruct (on_attachments host rest n1) as [[rs e] n2];
        cbn [snd] in *; exists (repeat (url a) k ++ posted)%list;
        rewrite Hposts, Hp, <- app_assoc;
        (split; [reflexivity|]); (split; [|split; [|discriminate]]);
        [intros u Hu; apply in_app_or in Hu; destruct Hu as [Hu|Hu];
           [now apply Hrep|];
         destruct (Hin u Hu) as [x [Hx1 Hx2]]; exists x; split;
           [now right|assumption]
        |rewrite length_app, repeat_length; cbn [List.length]; lia].
      exists (repeat (url a) k). cbn [snd].
      split; [assumption|]. split; [assumption|]. split; [|discriminate].
      rewrite repeat_length. cbn [List.length]. lia.
    + destruct (IH n) as [posted [Hposts [Hin [Hlen _]]]].
      destruct (on_attachments host rest n) as [[rs e] n2].
      cbn [snd] in *. exists posted. split; [assumption|].
      split; [|split; [assumption|discriminate]].
      intros u Hu. destruct (Hin u Hu) as [x [Hx1 Hx2]]. exists x.
      split; [now right|assumption].
Qed.

(** ** Autocompletion and the cache of list-logs *)

Lemma prefix_spec (a b : string) :
  String.prefix a b = true <-> exists s, b = a ++ s.
Proof.
  revert a. induction b as [|c' b IH]; intros [|c a]; cbn [String.prefix].
  - split; [intros _; now exists ""|reflexivity].
  - split; [discriminate|]. intros [s Hs]. discriminate.
  - split; [intros _; now exists (String c' b)|reflexivity].
  - destruct (Ascii.ascii_dec c c') as [->|Hne].
    + rewrite IH. split; intros [s Hs]; exists s.
      * cbn. now rewrite Hs.
      * cbn in Hs. now injection Hs.
    + split; [discriminate|]. intros [s Hs]. cbn in Hs.
      injection Hs as Hc _. congruence.
Qed.

Lemma contains_spec (needle hay : string) :
  Str.contains needle hay = true <-> exists p s, hay = p ++ needle ++ s.
Proof.
  induction hay as [|c t IH]; cbn [Str.contains].
  - rewrite orb_false_r, prefix_spec. split.
    + intros [s Hs]. now exists "", s.
    + intros [p [s Hs]]. destruct p; [now exists s|discriminate].
  - rewrite orb_true_iff, prefix_spec, IH. split.
    + intros [[s Hs]|[p [s Hs]]].
      * now exists "", s.
      * exists (String c p), s. cbn. now rewrite Hs.
    + intros [p [s Hs]]. destruct p as [|c' p]; cbn in Hs.
      * left. now exists s.
      * right. exists p, s. now injection Hs.
Qed.

Lemma contains_empty (hay : string) : Str.contains "" hay = true.
Proof. destruct hay; reflexivity. Qed.

Lemma in_firstn {A} (n : nat) (l : list A) (x : A) :
  In x (firstn n l) -> In x l.
Proof.
  intros H. rewrite <- (firstn_skipn n l). apply in_or_app. now left.
Qed.

Lemma filter_all {A} (p : A -> bool) (l : list A) :
  (forall x, p x = true) -> List.filter p l = l.
Proof.
  intros H. induction l as [|x t IH]; cbn; [reflexivity|].
  now rewrite H, IH.
Qed.

Lemma get_log_filters_ok (w : World) :
  exists creators, fst (get_log_filters w) = Ok creators.
Proof.
  destruct (log_filters_cache w) as [names|] eqn:Hc.
  - exists names. now rewrite (get_log_filters_cached names w Hc).
  - rewrite (get_log_filters_first w Hc).
    destruct (find _ _); eexists; reflexivity.
Qed.

(** X5: for a typed text and creator names of ASCII characters,
    [creator_autocomplete] leaves the state as [get_log_filters] does and
    offers at most 25 choices, each a name of the creator filter that
    contains the typed text when both are put in lower case; for an empty
    text it offers the first 25 names of the filter. *)
Theorem creator_autocomplete_offers_matching_creators
        (current : string) (w w' : World) (creators : list string) :
  get_log_filters w = (Ok creators, w') ->
  Py.is_ascii current = true ->
  forallb Py.is_ascii creators = true ->
  exists choices,
    creator_autocomplete current w = (Ok choices, w') /\
    (List.length choices <= 25)%nat /\
    (forall c, In c choices ->
       In c creators /\
       exists p s, Py.lower c = p ++ Py.lower current ++ s) /\
    (current = "" -> choices = firstn 25 creators).
Proof.
  intros Hc _ _. unfold creator_autocomplete, bindM, ret. rewrite Hc.
  eexists. split; [reflexivity|].
  unfold first_25. split; [apply firstn_le_length|]. split.
  - intros c Hin. apply in_firstn in Hin. apply filter_In in Hin.
    destruct Hin as [Hin Hm]. split; [assumption|]. now apply contains_spec.
  - intros ->. rewrite filter_all; [reflexivity|].
    intros x. apply contains_empty.
Qed.

Lemma creator_autocomplete_offers_matching_creators_witness :
  exists choices,
    creator_autocomplete "B" Samples.with_creators
    = (Ok choices, snd (get_log_filters Samples.with_creators)) /\
    (List.length choices <= 25)%nat /\
    (forall c, In c choices ->
       In c ["ann"; "bob"] /\
       exists p s, Py.lower c = p ++ Py.lower "B" ++ s) /\
    ("B" = "" -> choices = firstn 25 ["ann"; "bob"]).
Proof.
  apply (creator_autocomplete_offers_matching_creators "B"
           Samples.with_creators
           (snd (get_log_filters Samples.with_creators)) ["ann"; "bob"]).
  - vm_compute. reflexivity.
  - reflexivity.
  - reflexivity.
Defined.

Lemma get_logs_run (w : World) :
  exists success logs,
    get_logs w
    = (Ok (success, logs), journal (ValuesBatchGet listed_columns) w) /\
    (success = false -> logs = []).
Proof.
  unfold get_logs, try_except, bindM, Sheets.values_batch_get, lift, ret.
  fold listed_columns.
  destruct (Py.for_list _ listed_columns) as [vrs|e].
  - destruct (longest vrs) as [m|e].
    + destruct (present_rows vrs (Py.range m)) as [rows|e].
      * exists true, rows. split; [reflexivity|discriminate].
      * exists false, []. split; reflexivity.
    + exists false, []. split; reflexivity.
  - exists false, []. split; reflexivity.
Qed.

Lemma range_from_in (a b i : Z) :
  In i (range_from a b) <-> a <= i < b.
Proof.
  unfold range_from, Py.range. rewrite in_map_iff. split.
  - intros [x [<- Hx]]. apply in_map_iff in Hx. destruct Hx as [k [<- Hk]].
    apply in_seq in Hk. lia.
  - intros H. exists (i - a). split; [lia|]. apply in_map_iff.
    exists (Z.to_nat (i - a)). split; [lia|]. apply in_seq. lia.
Qed.

Lemma range_from_length (a b : Z) :
  List.length (range_from a b) = Z.to_nat (b - a).
Proof. unfold range_from. now rewrite length_map, range_length. Qed.

Lemma filter_length_bound {A} (p : A -> bool) (l : list A) :
  (List.length (List.filter p l) <= List.length l)%nat.
Proof. induction l as [|x t IH]; cbn; [lia|]. destruct (p x); cbn; lia. Qed.

(** X6: [count_autocomplete] leaves the state as [get_logs] does and offers
    at most 25 choices, each the decimal writing of a number between 1 and
    the number of records list-logs returns (capped at 25, and 1 when there
    is no record or list-logs fails); for an empty text it offers all these
    numbers in increasing order. *)
Theorem count_autocomplete_offers_counts_of_listed_rows
        (current : string) (w : World) :
  exists choices,
    count_autocomplete current w = (Ok choices, snd (get_logs w)) /\
    (List.length choices <= 25)%nat /\
    (forall c, In c choices ->
       exists i, c = Str.of_int i /\
                 1 <= i <= Z.max 1 (Z.min 25 (Py.len (listed w)))) /\
    (current = "" ->
     choices
     = map Str.of_int
         (range_from 1 (Z.max 1 (Z.min 25 (Py.len (listed w))) + 1))).
Proof.
  unfold listed, count_autocomplete, bindM, ret.
  destruct (get_logs_run w) as [success [logs [Hrun Hfail]]].
  rewrite Hrun. cbn [fst snd].
  destruct success; cbn [negb].
  - destruct logs as [|log logs].
    + exists ["1"]. split; [reflexivity|]. split; [cbn; lia|]. split.
      * intros c [<-|[]]. exists 1. split; [reflexivity|]. cbn. lia.
      * reflexivity.
    + set (l := log :: logs).
      assert (1 <= Py.len l) as Hl by (unfold Py.len, l; cbn; lia).
      replace (Z.max 1 (Z.min 25 (Py.len l)) + 1)
        with (Z.min (Py.len l + 1) 26) by lia.
      eexists. split; [reflexivity|]. split; [|split].
      * rewrite length_map.
        etransitivity; [apply filter_length_bound|].
        rewrite range_from_length. lia.
      * intros c Hin. apply in_map_iff in Hin. destruct Hin as [i [<- Hi]].
        apply filter_In in Hi. destruct Hi as [Hi _].
        apply range_from_in in Hi. exists i. split; [reflexivity|lia].
      * intros ->. rewrite filter_all; [reflexivity|]. intros x. reflexivity.
  - rewrite (Hfail eq_refl).
    exists ["1"]. split; [reflexivity|]. split; [cbn; lia|]. split.
    + intros c [<-|[]]. exists 1. split; [reflexivity|]. cbn. lia.
    + reflexivity.
Qed.

Lemma find_first {A} (p : A -> bool) (l : list A) (x : A) :
  In x l -> p x = true -> exists y, find p l = Some y /\ In y l /\ p y = true.
Proof.
  intros Hin Hp. destruct (find p l) as [y|] eqn:Hf.
  - exists y. apply find_some in Hf. tauto.
  - pose proof (find_none p l Hf x Hin). congruence.
Qed.

(** X7: a non-empty short link that [link_autocomplete] offers is resolved
    by [getlink_slash] and by [getimage_slash] to the same full link, whose
    last path segment is the short link; none of the three changes the
    state. *)
Theorem offered_link_resolves
        (current : string) (w w' : World) (choices : list string)
        (link : string) :
  link_autocomplete current w = (Ok choices, w') ->
  In link choices -> link <> "" ->
  w' = w /\
  exists full_link,
    getlink_slash link w = (Ok (FullURL full_link), w) /\
    getimage_slash link w = (Ok (ImageDisplay full_link), w) /\
    Py.last_segment "/" full_link = link.
Proof.
  unfold link_autocomplete, getlink_slash, getimage_slash.
  intros H Hin Hne.
  destruct (recent_logs w) as [|l0 ls] eqn:Hlogs.
  { injection H as <- _. destruct Hin. }
  rewrite <- Hlogs in *. injection H as <- <-. split; [reflexivity|].
  apply in_firstn, filter_In in Hin. destruct Hin as [Hin _].
  apply in_map_iff in Hin. destruct Hin as [log [Hs Hlog]].
  destruct (find_first (fun log => String.eqb (short_link log) link)
              (recent_logs w) log Hlog) as [y [Hf [_ Hy]]].
  { now apply String.eqb_eq. }
  apply String.eqb_eq in Hy.
  rewrite Hlogs. rewrite <- Hlogs.
  unfold full_link_of. rewrite Hf. cbn [option_map truthy].
  assert (link_of y <> "") as Hfull.
  { intros E. unfold short_link in Hy. rewrite E in Hy. cbn in Hy.
    congruence. }
  apply String.eqb_neq in Hfull. rewrite Hfull. cbn [negb].
  exists (link_of y). repeat split. exact Hy.
Qed.

Lemma offered_link_resolves_witness :
  Samples.after_logs = Samples.after_logs /\
  exists full_link,
    getlink_slash "one.png" Samples.after_logs
    = (Ok (FullURL full_link), Samples.after_logs) /\
    getimage_slash "one.png" Samples.after_logs
    = (Ok (ImageDisplay full_link), Samples.after_logs) /\
    Py.last_segment "/" full_link = "one.png".
Proof.
  apply (offered_link_resolves "ONE" Samples.after_logs Samples.after_logs
           ["one.png"] "one.png").
  - reflexivity.
  - simpl. auto.
  - discriminate.
Defined.

(** X8: whatever reply [logs_slash] gets to send, it has not changed the
    spreadsheet.  When the reply shows records, these are not empty, they
    are the records of list-logs (those of the creator asked for when a
    non-empty filter is given) and they have replaced the cache
    [recent_logs]; when it says that there is no record or that the fetch
    failed, [recent_logs] is as it was. *)
Theorem logs_slash_remembers_what_it_shows
        (filter : option string) (w w' : World) (r : Reply) :
  logs_slash filter w = (Ok r, w') ->
  book w' = book w /\
  match r with
  | LogsOverview logs =>
      recent_logs w' = logs /\ logs <> [] /\
      (forall log, In log logs -> In log (listed w)) /\
      (forall f, filter = Some f -> f <> "" ->
         forall log, In log logs <->
                     In log (listed w) /\ creator_of log = f) /\
      (truthy filter = false -> logs = listed w)
  | FailedToFetchLogs | NoRecords _ => recent_logs w' = recent_logs w
  | _ => False
  end.
Proof.
  unfold listed, logs_slash, bindM, ret.
  destruct (get_logs_run w) as [success [logs [Hrun Hfail]]].
  rewrite Hrun. cbn [fst snd].
  destruct success; cbn [negb].
  2:{ intros H. injection H as <- <-. split; reflexivity. }
  set (shown := if truthy filter then _ else _).
  destruct shown as [|l0 ls] eqn:Hshown.
  { intros H. injection H as <- <-. split; reflexivity. }
  rewrite <- Hshown. intros H. injection H as <- <-.
  split; [reflexivity|].
  split; [reflexivity|]. split; [congruence|].
  subst shown. clear Hshown. split; [|split].
  - intros log. destruct (truthy filter); [|auto].
    intros Hin. now apply filter_In in Hin.
  - intros f -> Hf log. cbn [truthy].
    apply String.eqb_neq in Hf. rewrite Hf. cbn [negb].
    rewrite filter_In, String.eqb_eq. reflexivity.
  - intros ->. reflexivity.
Qed.

Lemma logs_slash_remembers_what_it_shows_witness :
  book (snd (logs_slash (Some "ann") Samples.paid_marked))
  = book Samples.paid_marked /\
  match LogsOverview [("ann", "https://i.ibb.co/a1/one.png", "5", "FALSE")]
  with
  | LogsOverview logs =>
      recent_logs (snd (logs_slash (Some "ann") Samples.paid_marked)) = logs /\
      logs <> [] /\
      (forall log, In log logs -> In log (listed Samples.paid_marked)) /\
      (forall f, Some "ann" = Some f -> f <> "" ->
         forall log, In log logs <->
                     In log (listed Samples.paid_marked) /\
                     creator_of log = f) /\
      (truthy (Some "ann") = false -> logs = listed Samples.paid_marked)
  | FailedToFetchLogs | NoRecords _ =>
      recent_logs (snd (logs_slash (Some "ann") Samples.paid_marked))
      = recent_logs Samples.paid_marked
  | _ => False
  end.
Proof.
  apply (logs_slash_remembers_what_it_shows (Some "ann") Samples.paid_marked
           (snd (logs_slash (Some "ann") Samples.paid_marked))
           (LogsOverview
              [("ann", "https://i.ibb.co/a1/one.png", "5", "FALSE")])).
  vm_compute. reflexivity.
Defined.

(** ** Lookups *)

Lemma range_in (n i : Z) : In i (Py.range n) <-> 0 <= i < n.
Proof.
  unfold Py.range. rewrite in_map_iff. split.
  - intros [k [<- Hk]]. apply in_seq in Hk. lia.
  - intros H. exists (Z.to_nat i). split; [lia|]. apply in_seq. lia.
Qed.

Lemma log_fields_of_row (vrs : list (list (list string))) (i : Z)
      (c e g j : string) :
  log_row vrs i = Ok (c, e, g, j) <-> log_fields vrs i = Ok [c; e; g; j].
Proof.
  unfold log_row, log_fields, Py.bind.
  destruct (field_at vrs 0 i "N/A"); [|split; discriminate].
  destruct (field_at vrs 1 i "N/A"); [|split; discriminate].
  destruct (field_at vrs 2 i "N/A"); [|split; discriminate].
  destruct (field_at vrs 3 i "No"); [|split; discriminate].
  split; intros H; injection H as -> -> -> ->; reflexivity.
Qed.

(** X9: when [get_logs] succeeds, a record is in its list exactly when it
    is the row of some index below the length of the longest fetched column
    and one of its four fields is none of "N/A", "No", "" and "FALSE". *)
Theorem get_logs_lists_rows_with_a_value
        (w w' : World) (logs : list LogRow) :
  get_logs w = (Ok (true, logs), w') ->
  exists vrs max_rows,
    fetched w listed_columns = Ok vrs /\
    longest vrs = Ok max_rows /\
    forall c e g j,
      In (c, e, g, j) logs <->
      exists i, 0 <= i < max_rows /\ log_row vrs i = Ok (c, e, g, j) /\
                forallb sentinel [c; e; g; j] = false.
Proof.
  intros H. apply get_logs_success in H.
  destruct H as [vrs [m [Hf [Hm ->]]]]. exists vrs, m.
  split; [assumption|]. split; [assumption|].
  intros c e g j. rewrite kept_rows_in. split.
  - intros [i [fields [Hi [Hfields [Hrow Hs]]]]]. exists i.
    apply range_in in Hi. split; [assumption|]. split; [assumption|].
    apply log_fields_of_row in Hrow. congruence.
  - intros [i [Hi [Hrow Hs]]]. exists i, [c; e; g; j].
    split; [now apply range_in|]. split; [now apply log_fields_of_row|].
    split; assumption.
Qed.

Lemma get_logs_lists_rows_with_a_value_witness :
  exists vrs max_rows,
    fetched Samples.paid_marked listed_columns = Ok vrs /\
    longest vrs = Ok max_rows /\
    forall c e g j,
      In (c, e, g, j)
         [("ann", "https://i.ibb.co/a1/one.png", "5", "FALSE");
          ("bob", "https://i.ibb.co/b2/two.png", "7.50", "TRUE")] <->
      exists i, 0 <= i < max_rows /\ log_row vrs i = Ok (c, e, g, j) /\
                forallb sentinel [c; e; g; j] = false.
Proof.
  apply (get_logs_lists_rows_with_a_value Samples.paid_marked
           (snd (get_logs Samples.paid_marked))).
  vm_compute. reflexivity.
Defined.

(** The operations that only read. *)
Lemma get_log_filters_keeps_book (w : World) :
  book (snd (get_log_filters w)) = book w.
Proof.
  destruct (log_filters_cache w) as [names|] eqn:Hc.
  - now rewrite (get_log_filters_cached names w Hc).
  - rewrite (get_log_filters_first w Hc). now destruct (find _ _).
Qed.

(** X10: the operations that look something up ([get_logs],
    [get_log_filters], [get_month_summary], [summary_slash], [logs_slash],
    [creator_autocomplete], [count_autocomplete]) never change a sheet, and
    [link_autocomplete], [getlink_slash] and [getimage_slash] leave the
    whole state, journal of calls included, as it is. *)
Theorem lookups_keep_the_spreadsheet (w : World) :
  book (snd (get_logs w)) = book w /\
  book (snd (get_log_filters w)) = book w /\
  (forall month_abbr, book (snd (get_month_summary month_abbr w)) = book w) /\
  (forall now, book (snd (summary_slash now w)) = book w) /\
  (forall filter, book (snd (logs_slash filter w)) = book w) /\
  (forall current,
     book (snd (creator_autocomplete current w)) = book w /\
     book (snd (count_autocomplete current w)) = book w /\
     snd (link_autocomplete current w) = w) /\
  (forall link,
     snd (getlink_slash link w) = w /\ snd (getimage_slash link w) = w).
Proof.
  destruct (get_logs_run w) as [success [logs [Hrun Hfail]]].
  split; [now rewrite Hrun|].
  split; [apply get_log_filters_keeps_book|].
  split; [intros m; apply get_month_summary_keeps_book|].
  split.
  { intros now. unfold summary_slash, bindM, ret.
    pose proof (get_month_summary_keeps_book
                  (Py.upper (Calendar.strftime_b now)) w) as Hk.
    rewrite get_month_summary_run in *. cbn [snd] in *.
    destruct (summary_of _ _) as [[[[s m] e] p] d].
    destruct s; exact Hk. }
  split.
  { intros filter. unfold logs_slash, bindM, ret. rewrite Hrun.
    destruct success; cbn [negb]; [|reflexivity].
    destruct (if truthy filter then _ else _); reflexivity. }
  split.
  { intros current. split; [|split].
    - unfold creator_autocomplete, bindM, ret.
      pose proof (get_log_filters_keeps_book w) as Hk.
      destruct (get_log_filters_ok w) as [cs Hcs].
      destruct (get_log_filters w) as [r w1]. cbn [fst snd] in *.
      now subst r.
    - unfold count_autocomplete, bindM, ret. rewrite Hrun.
      destruct success, logs; reflexivity.
    - unfold link_autocomplete. now destruct (recent_logs w). }
  intros link. unfold getlink_slash, getimage_slash.
  destruct (recent_logs w); [split; reflexivity|].
  destruct (truthy _); split; reflexivity.
Qed.

Lemma strip_end_length {A} (blank : A -> bool) (l : list A) :
  (List.length (Grids.strip_end blank l) <= List.length l)%nat.
Proof.
  induction l as [|x t IH]; cbn [Grids.strip_end List.length]; [lia|].
  destruct (Grids.strip_end blank t) eqn:E.
  - destruct (blank x); cbn; lia.
  - cbn [List.length] in *. lia.
Qed.

Lemma creator_names_length (values : list (list string)) :
  (List.length (creator_names values) <= List.length values)%nat.
Proof.
  induction values as [|row t IH]; cbn [creator_names flat_map List.length];
    [lia|].
  rewrite length_app. fold (creator_names t).
  destruct row as [|x r]; [cbn; lia|].
  destruct (String.eqb x ""); cbn; lia.
Qed.

Lemma creator_names_in (values : list (list string)) (c : string) :
  In c (creator_names values) <->
  c <> "" /\ exists row, In (c :: row) values.
Proof.
  unfold creator_names. rewrite in_flat_map. split.
  - intros [row [Hin Hc]]. destruct row as [|x r]; [destruct Hc|].
    destruct (String.eqb x "") eqn:E; [destruct Hc|].
    destruct Hc as [<-|[]]. apply String.eqb_neq in E.
    split; [assumption|now exists r].
  - intros [Hne [row Hin]]. exists (c :: row). split; [assumption|].
    apply String.eqb_neq in Hne. rewrite Hne. now left.
Qed.

(** ** The summary command and a roll-over that cannot start *)

Lemma month_cases (m : Z) :
  1 <= m <= 12 ->
  m = 1 \/ m = 2 \/ m = 3 \/ m = 4 \/ m = 5 \/ m = 6 \/ m = 7 \/ m = 8 \/
  m = 9 \/ m = 10 \/ m = 11 \/ m = 12.
Proof. lia. Qed.

(** The month token of a date is read back as its month. *)
Lemma month_token_round_trip (now : Calendar.date) :
  1 <= Calendar.month now <= 12 ->
  Py.upper (current_short now) = current_short now /\
  Calendar.strptime_b (current_short now)
  = Ok (Calendar.mkDate 1900 (Calendar.month now) 1).
Proof.
  intros H. apply month_cases in H.
  unfold current_short, Calendar.strftime_b, Calendar.strftime_B.
  repeat (destruct H as [H|H]; [rewrite H; split; reflexivity|]).
  rewrite H; split; reflexivity.
Qed.

(** X11: for a valid date, [summary_slash] makes one batch read of Q15, Q18
    and Q21 of the sheet titled with the upper-case month abbreviation; with
    that sheet there it shows the full month name and the three cells (an
    empty cell as its default), without it the failure reply, whose month
    is the empty string. *)
Theorem summary_slash_reports_current_month (now : Calendar.date) (w : World) :
  Calendar.valid now ->
  summary_slash now w =
  (Ok match find (Sheets.by_title (current_short now)) (book w) with
      | Some sh =>
          MonthOverview (Calendar.strftime_B now)
            (value_or "$0.00" (cells sh) 15 colQ)
            (value_or "$0.00" (cells sh) 18 colQ)
            (value_or "0" (cells sh) 21 colQ)
      | None => FailedToFetchSummary ""
      end,
   journal (ValuesBatchGet (summary_ranges (current_short now))) w).
Proof.
  intros [_ [Hm _]]. destruct (month_token_round_trip now Hm) as [Hup Hp].
  unfold summary_slash, bindM, ret. fold (current_short now).
  rewrite get_month_summary_run. unfold summary_of. rewrite Hup, Hp.
  destruct (find _ _); reflexivity.
Qed.

Lemma summary_slash_reports_current_month_witness :
  summary_slash (Calendar.mkDate 2025 1 20) Samples.in_january =
  (Ok match find (Sheets.by_title (current_short (Calendar.mkDate 2025 1 20)))
              (book Samples.in_january) with
      | Some sh =>
          MonthOverview (Calendar.strftime_B (Calendar.mkDate 2025 1 20))
            (value_or "$0.00" (cells sh) 15 colQ)
            (value_or "$0.00" (cells sh) 18 colQ)
            (value_or "0" (cells sh) 21 colQ)
      | None => FailedToFetchSummary ""
      end,
   journal
     (ValuesBatchGet
        (summary_ranges (current_short (Calendar.mkDate 2025 1 20))))
     Samples.in_january).
Proof.
  apply (summary_slash_reports_current_month (Calendar.mkDate 2025 1 20)
           Samples.in_january).
  unfold Calendar.valid, Calendar.MAXYEAR. cbn. lia.
Defined.

(** X12: when no sheet has the current month's abbreviation for title, or
    the first such sheet has identifier 0, [end_month] returns the failure
    tuple, leaves every sheet as it is, makes no service call other than
    reading the sheet list, and [endmonth_slash] answers "Failed to end
    month.". *)
Theorem end_month_needs_current_sheet_with_nonzero_id
        (now : Calendar.date) (w : World) :
  (find (Sheets.by_title (current_short now)) (book w) = None \/
   exists sh, find (Sheets.by_title (current_short now)) (book w) = Some sh /\
              sheetId sh = 0%nat) ->
  fst (end_month now w) = Ok failure_summary /\
  book (snd (end_month now w)) = book w /\
  (forall c, In c (calls (snd (end_month now w))) ->
             In c (calls w) \/ c = SpreadsheetsGet) /\
  fst (endmonth_slash now w) = Ok FailedToEndMonth.
Proof.
  intros H.
  assert (end_month now w = (Ok failure_summary, w) \/
          end_month now w = (Ok failure_summary, journal SpreadsheetsGet w))
    as Hrun.
  { unfold end_month, try_except, bindM, lift, ret, raise.
    destruct (Calendar.add_days 32 (Calendar.replace_day now 1));
      [|now left].
    right. unfold Sheets.spreadsheets_get. cbn [book journal].
    unfold sheet_id_titled. fold (current_short now).
    destruct H as [->|[sh [-> Hid]]]; cbn [option_map];
      [|rewrite Hid]; reflexivity. }
  unfold endmonth_slash, bindM, ret.
  destruct Hrun as [-> | ->]; cbn [fst snd book journal calls];
    repeat split; auto.
  intros c Hc. apply in_app_or in Hc. destruct Hc as [Hc|[<-|[]]]; auto.
Qed.

Lemma end_month_needs_current_sheet_with_nonzero_id_witness :
  fst (end_month (Calendar.mkDate 2025 1 20) first_sheet_january)
  = Ok failure_summary /\
  book (snd (end_month (Calendar.mkDate 2025 1 20) first_sheet_january))
  = book first_sheet_january /\
  (forall c,
     In c (calls (snd (end_month (Calendar.mkDate 2025 1 20)
                         first_sheet_january))) ->
     In c (calls first_sheet_january) \/ c = SpreadsheetsGet) /\
  fst (endmonth_slash (Calendar.mkDate 2025 1 20) first_sheet_january)
  = Ok FailedToEndMonth.
Proof.
  apply (end_month_needs_current_sheet_with_nonzero_id
           (Calendar.mkDate 2025 1 20) first_sheet_january).
  right. exists january_first. split; reflexivity.
Defined.

(** ** Writing and reading cells *)

(** The cells of a grid after a write. *)
Lemma nth_set_nth {A} (d : A) (n : nat) (x : A) (l : list A) (k : nat) :
  nth k (Grids.set_nth d n x l) d = if (k =? n)%nat then x else nth k l d.
Proof.
  revert l k. induction n as [|n IH]; intros l k.
  - destruct l, k as [|k]; cbn; try reflexivity. now destruct k.
  - destruct l as [|h t], k as [|k]; cbn [Grids.set_nth nth Nat.eqb];
      try reflexivity.
    + rewrite IH. destruct (k =? n)%nat; [reflexivity|now destruct k].
    + apply IH.
Qed.

Lemma set_nth_length {A} (d : A) (n : nat) (x : A) (l : list A) :
  List.length (Grids.set_nth d n x l) = Nat.max (S n) (List.length l).
Proof.
  revert l. induction n as [|n IH]; intros [|h t];
    cbn [Grids.set_nth List.length]; try rewrite IH; cbn [List.length]; lia.
Qed.

Lemma nth_write_cells (vals : list string) :
  forall (c : nat) (row : list string) (k : nat),
    nth k (Grids.write_cells c vals row) ""
    = if (c <=? k)%nat && (k <? c + List.length vals)%nat
      then nth (k - c) vals "" else nth k row "".
Proof.
  induction vals as [|v vs IH]; intros c row k;
    cbn [Grids.write_cells List.length].
  - destruct (c <=? k)%nat eqn:E1; cbn [andb]; [|reflexivity].
    destruct (k <? c + 0)%nat eqn:E2; [|reflexivity].
    apply Nat.leb_le in E1. apply Nat.ltb_lt in E2. lia.
  - rewrite IH, nth_set_nth.
    destruct (Nat.lt_trichotomy k c) as [Hlt|[->|Hgt]].
    + replace (S c <=? k)%nat with false by (symmetry; apply Nat.leb_gt; lia).
      replace (c <=? k)%nat with false by (symmetry; apply Nat.leb_gt; lia).
      replace (k =? c)%nat with false by (symmetry; apply Nat.eqb_neq; lia).
      reflexivity.
    + replace (S c <=? c)%nat with false by (symmetry; apply Nat.leb_gt; lia).
      rewrite Nat.leb_refl, Nat.eqb_refl, Nat.sub_diag.
      replace (c <? c + S (List.length vs))%nat with true
        by (symmetry; apply Nat.ltb_lt; lia).
      reflexivity.
    + replace (S c <=? k)%nat with true by (symmetry; apply Nat.leb_le; lia).
      replace (c <=? k)%nat with true by (symmetry; apply Nat.leb_le; lia).
      replace (k <? c + S (List.length vs))%nat
        with (k <? S c + List.length vs)%nat by (f_equal; lia).
      cbn [andb]. destruct (k <? S c + List.length vs)%nat.
      * replace (k - c)%nat with (S (k - S c)) by lia. reflexivity.
      * replace (k =? c)%nat with false by (symmetry; apply Nat.eqb_neq; lia).
        reflexivity.
Qed.

Lemma nth_write_rows (c0 : nat) (vals : list (list string)) :
  forall (r : nat) (g : Grid) (k : nat),
    nth k (Grids.write_rows r c0 vals g) []
    = if (r <=? k)%nat && (k <? r + List.length vals)%nat
      then Grids.write_cells c0 (nth (k - r) vals []) (nth k g [])
      else nth k g [].
Proof.
  induction vals as [|vr rest IH]; intros r g k;
    cbn [Grids.write_rows List.length].
  - destruct (r <=? k)%nat eqn:E1; cbn [andb]; [|reflexivity].
    destruct (k <? r + 0)%nat eqn:E2; [|reflexivity].
    apply Nat.leb_le in E1. apply Nat.ltb_lt in E2. lia.
  - rewrite IH, nth_set_nth.
    destruct (Nat.lt_trichotomy k r) as [Hlt|[->|Hgt]].
    + replace (S r <=? k)%nat with false by (symmetry; apply Nat.leb_gt; lia).
      replace (r <=? k)%nat with false by (symmetry; apply Nat.leb_gt; lia).
      replace (k =? r)%nat with false by (symmetry; apply Nat.eqb_neq; lia).
      reflexivity.
    + replace (S r <=? r)%nat with false by (symmetry; apply Nat.leb_gt; lia).
      rewrite Nat.leb_refl, Nat.eqb_refl, Nat.sub_diag.
      replace (r <? r + S (List.length rest))%nat with true
        by (symmetry; apply Nat.ltb_lt; lia).
      reflexivity.
    + replace (S r <=? k)%nat with true by (symmetry; apply Nat.leb_le; lia).
      replace (r <=? k)%nat with true by (symmetry; apply Nat.leb_le; lia).
      replace (k <? r + S (List.length rest))%nat
        with (k <? S r + List.length rest)%nat by (f_equal; lia).
      replace (k =? r)%nat with false by (symmetry; apply Nat.eqb_neq; lia).
      cbn [andb]. destruct (k <? S r + List.length rest)%nat.
      * replace (k - r)%nat with (S (k - S r)) by lia. reflexivity.
      * reflexivity.
Qed.

Lemma cell_write (g : Grid) (rg : Range) (vals : list (list string))
      (row col : nat) :
  (1 <= r_row0 rg)%nat -> (1 <= row)%nat ->
  Grids.cell (Grids.write g rg vals) row col
  = match written rg vals row col with
    | Some v => v
    | None => Grids.cell g row col
    end.
Proof.
  intros H0 Hrow. unfold Grids.cell, Grids.write, written.
  rewrite nth_write_rows.
  replace (r_row0 rg - 1 <=? row - 1)%nat with (r_row0 rg <=? row)%nat.
  2:{ destruct (r_row0 rg <=? row)%nat eqn:E.
      - symmetry. apply Nat.leb_le. apply Nat.leb_le in E. lia.
      - symmetry. apply Nat.leb_gt. apply Nat.leb_gt in E. lia. }
  replace (row - 1 <? r_row0 rg - 1 + List.length vals)%nat
    with (row <? r_row0 rg + List.length vals)%nat.
  2:{ destruct (row <? r_row0 rg + List.length vals)%nat eqn:E.
      - symmetry. apply Nat.ltb_lt. apply Nat.ltb_lt in E. lia.
      - symmetry. apply Nat.ltb_ge. apply Nat.ltb_ge in E. lia. }
  destruct ((r_row0 rg <=? row)%nat
            && (row <? r_row0 rg + List.length vals)%nat)
    eqn:E; cbn [andb]; [|reflexivity].
  rewrite nth_write_cells.
  replace (row - 1 - (r_row0 rg - 1))%nat with (row - r_row0 rg)%nat by lia.
  destruct ((r_col0 rg <=? col)%nat && _); reflexivity.
Qed.

(** ** The archive of a roll-over *)

Section Archive.

Import Sheets.

Lemma archive_name_not_token (d d' : Calendar.date) (q15 : string) :
  archive_name d q15 <> Py.upper (Calendar.strftime_b d').
Proof.
  unfold archive_name, Calendar.strftime_b, Calendar.strftime_B.
  generalize (Z.to_nat (Calendar.month d - 1)). intros k.
  generalize (Z.to_nat (Calendar.month d' - 1)). intros k'.
  assert (forall name, In name ("" :: Calendar.month_names) ->
            forall name', In name' ("" :: Calendar.month_names) ->
              name ++ " (" ++ q15 ++ ")"
              <> Py.upper (Calendar.abbreviation name')) as H.
  { intros name Hn name' Hn'. cbn in Hn, Hn'.
    repeat (destruct Hn as [<-|Hn]; [
      repeat (destruct Hn' as [<-|Hn']; [cbn; discriminate|]);
      destruct Hn'|]).
    destruct Hn. }
  apply H.
  - destruct (nth_in_or_default k Calendar.month_names "") as [Hin| ->];
      [now right|now left].
  - destruct (nth_in_or_default k' Calendar.month_names "") as [Hin| ->];
      [now right|now left].
Qed.

Lemma find_none_firstn (q : Sheet -> bool) (n : nat) (b : Spreadsheet) :
  find q b = None -> find q (firstn n b) = None.
Proof.
  intros H. destruct (find q (firstn n b)) as [x|] eqn:E; [|reflexivity].
  apply find_some in E. destruct E as [Hin Hq]. apply in_firstn in Hin.
  pose proof (find_none q b H x Hin). congruence.
Qed.

Lemma find_app_none {A} (q : A -> bool) (l1 l2 : list A) :
  find q l1 = None -> find q (l1 ++ l2) = find q l2.
Proof.
  induction l1 as [|x t IH]; cbn; [reflexivity|].
  destruct (q x); [discriminate|assumption].
Qed.

Lemma read_q15 (g : Grid) (t : string) :
  (row <-? Py.index (values_or [[""]] (Grids.read g (one_cell t colQ 15))) 0 ;;
   Py.index row 0) = Ok (Grids.cell g 15 colQ).
Proof.
  rewrite read_one_cell. unfold Grids.blank_cell.
  destruct (String.eqb (Grids.cell g 15 colQ) "") eqn:E.
  - apply String.eqb_eq in E. rewrite E. reflexivity.
  - reflexivity.
Qed.

Lemma summary_month_is_now (now : Calendar.date) (b : Spreadsheet)
      (s1 earned pending work_done : string) :
  summary_of (current_short now) b = (true, s1, earned, pending, work_done) ->
  s1 = Calendar.strftime_B now.
Proof.
  unfold summary_of, current_short, Calendar.strftime_b, Calendar.strftime_B.
  generalize (Z.to_nat (Calendar.month now - 1)). intros k.
  do 12 (destruct k as [|k];
         [cbn [nth Calendar.month_names];
          match goal with
          | |- context [Calendar.strptime_b ?s] =>
              let v := eval vm_compute in (Calendar.strptime_b s) in
              change (Calendar.strptime_b s) with v
          end;
          destruct (find _ b); intros H; inversion H; reflexivity|]).
  replace (nth _ Calendar.month_names "") with "" by (now destruct k).
  discriminate.
Qed.

(** What a successful roll-over did, by the spreadsheet before it. *)
Lemma end_month_archive now w w' full earned pending work_done :
  end_month now w = (Ok (true, full, earned, pending, work_done), w') ->
  exists next sh0 src b4,
    let arch := archive_name now (Grids.cell (cells sh0) 15 colQ) in
    let copy := mkSheet (fresh_id (book w)) arch (hidden src) (cells src) in
    let vals :=
      values_or [[]] (Grids.read (cells sh0) (whole_sheet (current_short now)))
    in
    Calendar.add_days 32 (Calendar.replace_day now 1) = Ok next /\
    find (by_title (current_short now)) (book w) = Some sh0 /\
    sheetId sh0 <> 0%nat /\
    summary_of (current_short now) (book w)
    = (true, full, earned, pending, work_done) /\
    find (by_id (sheetId sh0)) (book w) = Some src /\
    find (by_title arch) (book w) = None /\
    apply_request
      (SetTitle (sheetId sh0) (Py.upper (Calendar.strftime_b next)))
      (archived arch vals (fresh_id (book w))
         (firstn 1 (book w) ++ copy :: skipn 1 (book w))%list)
    = Ok b4 /\
    find (by_title "Logs") b4 <> None /\
    book w' = update_where (by_title "Logs")
                (fun sh => set_cells (Grids.clear (cells sh) record_area) sh)
                b4.
Proof.
  intros H.
  unfold end_month, try_except, bindM, lift, ret, raise in H.
  destruct (Calendar.add_days 32 (Calendar.replace_day now 1))
    as [next|e] eqn:Hnext; [|inversion H].
  unfold spreadsheets_get at 1 in H. cbn [book journal] in H.
  unfold sheet_id_titled at 1 in H. fold (current_short now) in H.
  destruct (find (by_title (current_short now)) (book w)) as [sh0|] eqn:Hcur;
    cbn [option_map] in H; [|inversion H].
  destruct (sheetId sh0) as [|n] eqn:Hid; [inversion H|].
  rewrite get_month_summary_run in H.
  destruct (summary_of (current_short now) _) as [[[[ok s1] s2] s3] s4]
    eqn:Hsum.
  destruct ok; cbn [negb] in H; [|inversion H].
  match type of H with context [values_get _ ?w0] => set (w1 := w0) in H end.
  assert (book w1 = book w) as Hb1
      by (unfold w1; destruct (Calendar.strptime_b _); reflexivity).
  clearbody w1.
  unfold values_get at 1 in H. cbn [book journal] in H. rewrite Hb1 in H.
  unfold read_range at 1 in H. cbn [r_sheet one_cell] in H.
  rewrite Hcur in H. rewrite read_q15 in H.
  set (arch := archive_name now (Grids.cell (cells sh0) 15 colQ)) in *.
  fold (archive_name now (Grids.cell (cells sh0) 15 colQ)) in H.
  fold arch in H.
  unfold batch_update at 1 in H. cbn [book journal] in H. rewrite Hb1 in H.
  unfold apply_request at 1 in H.
  destruct (find (by_id (S n)) (book w)) as [src|] eqn:Hsrc; [|inversion H].
  destruct (find (by_title arch) (book w)) eqn:Harch; [inversion H|].
  set (copy := mkSheet (fresh_id (book w)) arch (hidden src) (cells src)) in *.
  set (b1 := (firstn 1 (book w) ++ copy :: skipn 1 (book w))%list) in *.
  unfold spreadsheets_get at 1 in H. cbn [book journal set_book] in H.
  unfold values_get at 1 in H. cbn [book journal set_book] in H.
  assert (find (by_title (current_short now)) b1 = Some sh0) as Hcur1.
  { unfold b1. rewrite find_insert; [assumption|].
    apply by_title_other. cbn [title copy]. apply archive_name_not_token. }
  unfold read_range at 1 in H. cbn [r_sheet] in H. rewrite Hcur1 in H.
  unfold values_update at 1 in H. cbn [book journal set_book r_sheet] in H.
  assert (find (by_title arch) b1 = Some copy) as Harch1.
  { unfold b1. rewrite find_app_none by now apply find_none_firstn.
    cbn [find]. unfold by_title at 1. cbn [title copy].
    now rewrite String.eqb_refl. }
  rewrite Harch1 in H.
  unfold sheet_id_titled at 1 in H. rewrite Harch1 in H.
  cbn [option_map sheetId copy] in H.
  unfold batch_update at 1 in H. cbn [book journal set_book] in H.
  match type of H with context [apply_request (SetHidden ?a true) ?b] =>
    destruct (apply_request (SetHidden a true) b) as [b3|e] eqn:Hhide;
      [|inversion H] end.
  assert (b3 = archived arch
                 (values_or [[]]
                    (Grids.read (cells sh0) (whole_sheet (current_short now))))
                 (fresh_id (book w)) b1) as Hb3.
  { unfold apply_request in Hhide.
    destruct (find (by_id (fresh_id (book w))) _); [|discriminate].
    injection Hhide as <-. reflexivity. }
  unfold batch_update at 1 in H. cbn [book journal set_book] in H.
  destruct (apply_request (SetTitle (S n) _) b3) as [b4|e] eqn:Hren;
    [|inversion H].
  unfold values_clear at 1 in H. cbn [book journal set_book r_sheet] in H.
  destruct (find (by_title "Logs") b4) as [lg|] eqn:Hlogs; [|inversion H].
  cbn [book journal] in Hsum.
  pose proof (summary_month_is_now _ _ _ _ _ _ Hsum) as Hs1.
  inversion H; subst. cbn [book set_book].
  exists next, sh0, src, b4. cbv zeta. fold arch. fold copy. fold b1.
  rewrite Hid. repeat split; auto; try discriminate.
  rewrite Hlogs. discriminate.
Qed.

(** Reading a range and writing the values back. *)
Lemma strip_end_prefix {A} (blank : A -> bool) (l : list A) :
  exists t, l = (Grids.strip_end blank l ++ t)%list.
Proof.
  induction l as [|x r IH]; cbn [Grids.strip_end]; [now exists []|].
  destruct IH as [t Ht]. destruct (Grids.strip_end blank r) as [|y r'].
  - destruct (blank x); [now exists (x :: r)|exists r; reflexivity].
  - exists t. cbn [app]. f_equal. exact Ht.
Qed.

Lemma nth_strip_end {A} (blank : A -> bool) (l : list A) (k : nat) (d : A) :
  (k < List.length (Grids.strip_end blank l))%nat ->
  nth k (Grids.strip_end blank l) d = nth k l d.
Proof.
  intros Hk. destruct (strip_end_prefix blank l) as [t Ht].
  rewrite Ht at 2. now rewrite app_nth1.
Qed.

Lemma nth_read (g : Grid) (rg : Range) (i k : nat) :
  (1 <= r_row0 rg)%nat ->
  (i < List.length (Grids.read g rg))%nat ->
  (k < List.length (nth i (Grids.read g rg) []))%nat ->
  nth k (nth i (Grids.read g rg) []) ""
  = Grids.cell g (r_row0 rg + i) (r_col0 rg + k).
Proof.
  intros H0 Hi. unfold Grids.read in *.
  rewrite nth_strip_end by assumption.
  pose proof (strip_end_length Grids.blank_row
                (map (Grids.row_slice (r_col0 rg) (r_col1 rg))
                   (Grids.rows_slice (r_row0 rg) (r_row1 rg) g))) as Hlen.
  rewrite length_map in Hlen.
  rewrite (nth_indep _ [] (Grids.row_slice (r_col0 rg) (r_col1 rg) []))
    by (rewrite length_map; lia).
  rewrite map_nth. unfold Grids.row_slice at 1 2. intros Hk.
  rewrite nth_strip_end by assumption.
  pose proof (strip_end_length Grids.blank_cell
                (firstn (r_col1 rg - r_col0 rg + 1)
                   (skipn (r_col0 rg)
                      (nth i (Grids.rows_slice (r_row0 rg) (r_row1 rg) g) []))))
    as Hlen'.
  rewrite length_firstn in Hlen'.
  rewrite nth_firstn.
  replace (k <? r_col1 rg - r_col0 rg + 1)%nat with true
    by (symmetry; apply Nat.ltb_lt; lia).
  rewrite nth_skipn. unfold Grids.cell. f_equal.
  unfold Grids.rows_slice in *.
  replace (r_row0 rg + i - 1)%nat with (r_row0 rg - 1 + i)%nat by lia.
  destruct (r_row1 rg) as [r1|].
  - rewrite length_firstn in Hlen. rewrite nth_firstn.
    replace (i <? r1 - r_row0 rg + 1)%nat with true
      by (symmetry; apply Nat.ltb_lt; lia).
    apply nth_skipn.
  - apply nth_skipn.
Qed.

Lemma written_read (g : Grid) (rg rg' : Range) (row col : nat) (v : string) :
  r_row0 rg' = r_row0 rg -> r_col0 rg' = r_col0 rg -> (1 <= r_row0 rg)%nat ->
  written rg' (Grids.read g rg) row col = Some v ->
  v = Grids.cell g row col.
Proof.
  intros Hr Hc H0. unfold written. rewrite Hr, Hc.
  destruct (_ && _) eqn:E; [|discriminate]. intros H. injection H as <-.
  apply andb_true_iff in E. destruct E as [E E4].
  apply andb_true_iff in E. destruct E as [E E3].
  apply andb_true_iff in E. destruct E as [E1 E2].
  apply Nat.leb_le in E1, E3. apply Nat.ltb_lt in E2, E4.
  rewrite nth_read by lia. f_equal; lia.
Qed.

Lemma written_nothing (rg : Range) (row col : nat) :
  written rg [[]] row col = None.
Proof.
  unfold written.
  replace (nth (row - r_row0 rg) [[]] []) with (@nil string)
    by (destruct (row - r_row0 rg)%nat as [|[|k]]; reflexivity).
  cbn [List.length]. rewrite Nat.add_0_r.
  destruct (r_col0 rg <=? col)%nat eqn:E1; [|now rewrite !andb_false_r].
  replace (col <? r_col0 rg)%nat with false; [now rewrite !andb_false_r|].
  symmetry. apply Nat.ltb_ge. now apply Nat.leb_le.
Qed.

(** Writing back what was read changes no cell. *)
Lemma cell_write_read (g' g : Grid) (rg rg' : Range) (row col : nat) :
  r_row0 rg' = r_row0 rg -> r_col0 rg' = r_col0 rg -> (1 <= r_row0 rg)%nat ->
  (1 <= row)%nat ->
  (forall r c, Grids.cell g' r c = Grids.cell g r c) ->
  Grids.cell (Grids.write g' rg' (values_or [[]] (Grids.read g rg))) row col
  = Grids.cell g row col.
Proof.
  intros Hr Hc H0 Hrow Hsame. rewrite cell_write by lia.
  destruct (written rg' _ row col) as [v|] eqn:E; [|apply Hsame].
  unfold values_or in E. destruct (Grids.read g rg) as [|x t] eqn:Hread.
  - now rewrite written_nothing in E.
  - rewrite <- Hread in E. now apply (written_read g rg rg').
Qed.

Lemma update_where_length (p : Sheet -> bool) (f : Sheet -> Sheet)
      (b : Spreadsheet) :
  List.length (update_where p f b) = List.length b.
Proof. unfold update_where. apply length_map. Qed.

Lemma insert_length {A} (x : A) (n : nat) (l : list A) :
  List.length (firstn n l ++ x :: skipn n l)%list = S (List.length l).
Proof.
  rewrite length_app. cbn [List.length].
  rewrite <- (firstn_skipn n l) at 3. rewrite length_app. lia.
Qed.

(** The archive of a successful roll-over, as it is found afterwards. *)
Lemma end_month_archive_sheet now w w' full earned pending work_done :
  end_month now w = (Ok (true, full, earned, pending, work_done), w') ->
  exists sh0 src,
    let arch := archive_name now (Grids.cell (cells sh0) 15 colQ) in
    find (by_title (current_short now)) (book w) = Some sh0 /\
    find (by_id (sheetId sh0)) (book w) = Some src /\
    summary_of (current_short now) (book w)
    = (true, full, earned, pending, work_done) /\
    find (by_title arch) (book w) = None /\
    List.length (book w') = S (List.length (book w)) /\
    find (by_title arch) (book w')
    = Some (mkSheet (fresh_id (book w)) arch true
              (Grids.write (cells src) (whole_sheet arch)
                 (values_or [[]]
                    (Grids.read (cells sh0)
                       (whole_sheet (current_short now)))))).
Proof.
  intros H. apply end_month_archive in H.
  destruct H as [next [sh0 [src [b4 H]]]]. cbv zeta in H.
  destruct H as [Hnext [Hcur [Hid [Hsum [Hsrc [Harch [Hren [Hlogs Hbook]]]]]]]].
  exists sh0, src. cbv zeta.
  set (arch := archive_name now (Grids.cell (cells sh0) 15 colQ)) in *.
  set (copy := mkSheet (fresh_id (book w)) arch (hidden src) (cells src)) in *.
  set (b1 := (firstn 1 (book w) ++ copy :: skipn 1 (book w))%list) in *.
  set (vals := values_or [[]] _) in *.
  repeat (split; [assumption|]).
  unfold apply_request in Hren.
  destruct (find (by_id (sheetId sh0)) (archived arch vals _ b1));
    [|discriminate].
  destruct (existsb _ _); [discriminate|]. injection Hren as <-.
  rewrite Hbook. split.
  { rewrite !update_where_length. unfold archived.
    rewrite !update_where_length. apply insert_length. }
  rewrite find_update_where by reflexivity.
  pose proof (find_some _ _ Hcur) as [Hin0 _].
  pose proof (fresh_id_above _ _ Hin0) as Hfresh.
  rewrite find_update_where.
  2:{ intros sh Hin Hp. apply by_id_true in Hp.
      destruct (archived_members _ _ _ _ sh Hin) as [sh1 [Hin1 [Hi1 [Ht1 _]]]].
      rewrite (by_title_other arch (set_title _ sh))
        by (cbn [title set_title]; intros E;
            now apply (archive_name_not_token now next
                         (Grids.cell (cells sh0) 15 colQ))).
      symmetry. apply by_title_other. rewrite Ht1.
      apply in_insert in Hin1. destruct Hin1 as [->|Hin1].
      - cbn [sheetId copy] in Hi1. lia.
      - intros E. pose proof (find_none _ _ Harch sh1 Hin1) as Hn.
        unfold by_title in Hn. rewrite E, String.eqb_refl in Hn.
        discriminate. }
  rewrite find_archived by (intros; split; reflexivity).
  assert (find (by_title arch) b1 = Some copy) as ->.
  { unfold b1. rewrite find_app_none by now apply find_none_firstn.
    cbn [find]. unfold by_title at 1. cbn [title copy].
    now rewrite String.eqb_refl. }
  cbn [option_map].
  assert (by_title arch copy = true) as E1
      by (unfold by_title; cbn [title copy]; apply String.eqb_refl).
  rewrite !E1.
  set (c1 := set_cells (Grids.write (cells copy) (whole_sheet arch) vals) copy).
  assert (by_id (fresh_id (book w)) c1 = true) as E2 by apply Nat.eqb_refl.
  rewrite !E2. set (c2 := set_hidden true c1).
  assert (by_id (sheetId sh0) c2 = false) as E3
      by (apply Nat.eqb_neq; cbn; lia).
  rewrite !E3.
  assert (by_title "Logs" c2 = false) as E4
      by (apply by_title_other; apply archive_name_not_logs).
  rewrite E4. reflexivity.
Qed.

(** X13: after a successful [end_month] the spreadsheet has one sheet more:
    a hidden sheet titled with the full month name followed by the value of
    Q15 in parentheses, a title no sheet had before; the figures returned
    are those summarize-period gives on the spreadsheet before the
    roll-over, and [endmonth_slash] shows them with the name of the month
    32 days after the first of the current one. *)
Theorem end_month_adds_hidden_archive
        (now : Calendar.date) (w w' : World)
        (full earned pending work_done : string) :
  end_month now w = (Ok (true, full, earned, pending, work_done), w') ->
  exists current archive next,
    find (by_title (current_short now)) (book w) = Some current /\
    fst (get_month_summary (current_short now) w)
    = Ok (true, full, earned, pending, work_done) /\
    find (by_title (archive_name now (Grids.cell (cells current) 15 colQ)))
      (book w) = None /\
    find (by_title (archive_name now (Grids.cell (cells current) 15 colQ)))
      (book w') = Some archive /\
    hidden archive = true /\
    List.length (book w') = S (List.length (book w)) /\
    Calendar.add_days 32 (Calendar.replace_day now 1) = Ok next /\
    endmonth_slash now w
    = (Ok (MonthWrappedUp full (Calendar.strftime_B next) earned pending
             work_done), w').
Proof.
  intros H. pose proof (end_month_archive_sheet _ _ _ _ _ _ _ H) as Ha.
  destruct Ha as [sh0 [src Ha]]. cbv zeta in Ha.
  destruct Ha as [Hcur [Hsrc [Hsum [Harch [Hlen Hfound]]]]].
  pose proof (end_month_success _ _ _ _ _ _ _ H) as Hs.
  destruct Hs as [next [_ [_ [_ [_ [_ [_ [_ [Hnext _]]]]]]]]].
  exists sh0. eexists. exists next.
  split; [assumption|].
  split; [rewrite get_month_summary_run; cbn [fst]; now f_equal|].
  split; [assumption|]. split; [eassumption|]. split; [reflexivity|].
  split; [assumption|]. split; [assumption|].
  unfold endmonth_slash, bindM, lift, ret. rewrite H, Hnext. reflexivity.
Qed.

Lemma end_month_adds_hidden_archive_witness :
  exists current archive next,
    find (by_title (current_short (Calendar.mkDate 2025 1 20)))
      (book Samples.in_january) = Some current /\
    fst (get_month_summary (current_short (Calendar.mkDate 2025 1 20))
           Samples.in_january)
    = Ok (true, "January", "$120.00", "$40.00", "9") /\
    find (by_title
            (archive_name (Calendar.mkDate 2025 1 20)
               (Grids.cell (cells current) 15 colQ)))
      (book Samples.in_january) = None /\
    find (by_title
            (archive_name (Calendar.mkDate 2025 1 20)
               (Grids.cell (cells current) 15 colQ)))
      (book (snd (end_month (Calendar.mkDate 2025 1 20) Samples.in_january)))
    = Some archive /\
    hidden archive = true /\
    List.length
      (book (snd (end_month (Calendar.mkDate 2025 1 20) Samples.in_january)))
    = S (List.length (book Samples.in_january)) /\
    Calendar.add_days 32 (Calendar.replace_day (Calendar.mkDate 2025 1 20) 1)
    = Ok next /\
    endmonth_slash (Calendar.mkDate 2025 1 20) Samples.in_january
    = (Ok (MonthWrappedUp "January" (Calendar.strftime_B next) "$120.00"
             "$40.00" "9"),
       snd (end_month (Calendar.mkDate 2025 1 20) Samples.in_january)).
Proof.
  apply (end_month_adds_hidden_archive (Calendar.mkDate 2025 1 20)
           Samples.in_january
           (snd (end_month (Calendar.mkDate 2025 1 20) Samples.in_january))
           "January" "$120.00" "$40.00" "9").
  vm_compute. reflexivity.
Defined.

(** X14: after a successful [end_month] on a spreadsheet whose sheets have
    different identifiers, every cell of the archive sheet holds what the
    same cell of the period sheet held before the roll-over. *)
Theorem end_month_archive_holds_the_period_cells
        (now : Calendar.date) (w w' : World)
        (full earned pending work_done : string) :
  distinct_ids (book w) ->
  end_month now w = (Ok (true, full, earned, pending, work_done), w') ->
  exists current archive,
    find (by_title (current_short now)) (book w) = Some current /\
    find (by_title
            (archive_name now (Grids.cell (cells current) 15 colQ)))
      (book w') = Some archive /\
    forall row col, (1 <= row)%nat ->
      Grids.cell (cells archive) row col = Grids.cell (cells current) row col.
Proof.
  intros Hnd H. apply end_month_archive_sheet in H.
  destruct H as [sh0 [src H]]. cbv zeta in H.
  destruct H as [Hcur [Hsrc [Hsum [Harch [Hlen Hfound]]]]].
  assert (src = sh0) as ->.
  { apply find_some in Hcur, Hsrc. destruct Hcur as [Hin0 _].
    destruct Hsrc as [Hin Hid]. apply by_id_true in Hid.
    now apply (same_id_same_sheet (book w)). }
  exists sh0. eexists. split; [assumption|]. split; [exact Hfound|].
  intros row col Hrow. cbn [cells].
  apply cell_write_read; auto.
Qed.

Lemma end_month_archive_holds_the_period_cells_witness :
  exists current archive,
    find (by_title (current_short (Calendar.mkDate 2025 1 20)))
      (book Samples.in_january) = Some current /\
    find (by_title
            (archive_name (Calendar.mkDate 2025 1 20)
               (Grids.cell (cells current) 15 colQ)))
      (book (snd (end_month (Calendar.mkDate 2025 1 20) Samples.in_january)))
    = Some archive /\
    forall row col, (1 <= row)%nat ->
      Grids.cell (cells archive) row col = Grids.cell (cells current) row col.
Proof.
  apply (end_month_archive_holds_the_period_cells (Calendar.mkDate 2025 1 20)
           Samples.in_january
           (snd (end_month (Calendar.mkDate 2025 1 20) Samples.in_january))
           "January" "$120.00" "$40.00" "9").
  - unfold distinct_ids. cbn.
    repeat constructor; cbn; intuition discriminate.
  - vm_compute. reflexivity.
Defined.

End Archive.

(** ** Where append-record writes *)

Section Append.

Import Sheets.

(** The length of what is left when the blanks at the end are gone. *)
Lemma strip_end_length_blank {A} (blank : A -> bool) (d : A) (l : list A) :
  blank d = true ->
  (forall k, (List.length (Grids.strip_end blank l) <= k)%nat ->
             blank (nth k l d) = true) /\
  ((0 < List.length (Grids.strip_end blank l))%nat ->
   blank (nth (List.length (Grids.strip_end blank l) - 1) l d) = false).
Proof.
  intros Hd. induction l as [|x t [IH1 IH2]]; cbn [Grids.strip_end].
  - split; [intros k _; now destruct k|cbn; lia].
  - destruct (Grids.strip_end blank t) as [|y s] eqn:E.
    + destruct (blank x) eqn:Hx.
      * split; [|cbn; lia]. intros [|k] _; [assumption|].
        apply IH1. cbn. lia.
      * split; [|intros _; exact Hx]. intros [|k] Hk; [cbn in Hk; lia|].
        apply IH1. cbn. lia.
    + split.
      * intros [|k] Hk; [cbn in Hk; lia|]. apply IH1.
        cbn [List.length] in *. lia.
      * intros _. cbn [List.length] in *.
        replace (S (S (List.length s)) - 1)%nat with (S (List.length s))
          by lia.
        cbn [nth]. replace (List.length s) with (S (List.length s) - 1)%nat
          by lia.
        apply IH2. lia.
Qed.

Lemma strip_end_length_unique {A} (blank : A -> bool) (d : A) (l : list A)
      (n : nat) :
  blank d = true ->
  (forall k, (n <= k)%nat -> blank (nth k l d) = true) ->
  ((0 < n)%nat -> blank (nth (n - 1) l d) = false) ->
  List.length (Grids.strip_end blank l) = n.
Proof.
  intros Hd H1 H2.
  destruct (strip_end_length_blank blank d l Hd) as [S1 S2].
  set (m := List.length (Grids.strip_end blank l)) in *.
  destruct (Nat.lt_trichotomy m n) as [Hlt|[Heq|Hgt]]; [|assumption|].
  - specialize (S1 (n - 1)%nat). rewrite H2 in S1 by lia.
    assert (false = true) by (apply S1; lia). discriminate.
  - specialize (H1 (m - 1)%nat). rewrite S2 in H1 by lia.
    assert (false = true) by (apply H1; lia). discriminate.
Qed.

Lemma row_slice_one (c : nat) (row : list string) :
  Grids.blank_row (Grids.row_slice c c row)
  = Grids.blank_cell (nth c row "").
Proof.
  unfold Grids.row_slice. replace (c - c + 1)%nat with 1%nat by lia.
  rewrite firstn_1_skipn, nth_by_nth_error.
  destruct (nth_error row c) as [x|]; [|reflexivity].
  cbn [Grids.strip_end]. now destruct (Grids.blank_cell x).
Qed.

Lemma nth_row_slices (c : nat) (g : Grid) (k : nat) :
  nth k (map (Grids.row_slice c c) g) [] = Grids.row_slice c c (nth k g []).
Proof.
  assert (Grids.row_slice c c [] = []) as E
      by (unfold Grids.row_slice; now rewrite skipn_nil, firstn_nil).
  rewrite <- E at 1. apply map_nth.
Qed.

(** The number of rows the service returns for a whole column: the row of
    the column's last value. *)
Lemma whole_column_length (g : Grid) (t : string) (c n : nat) :
  (forall row, (n < row)%nat -> Grids.cell g row c = "") ->
  ((0 < n)%nat -> Grids.cell g n c <> "") ->
  List.length (Grids.read g (whole_column t c)) = n.
Proof.
  intros H1 H2. unfold Grids.read, whole_column, Grids.rows_slice.
  cbn [r_row0 r_row1 r_col0 r_col1 skipn Nat.sub].
  apply (strip_end_length_unique Grids.blank_row []); [reflexivity| |].
  - intros k Hk. rewrite nth_row_slices, row_slice_one.
    specialize (H1 (S k)). unfold Grids.cell in H1.
    replace (S k - 1)%nat with k in H1 by lia.
    unfold Grids.blank_cell. rewrite H1 by lia. reflexivity.
  - intros Hn. rewrite nth_row_slices, row_slice_one.
    specialize (H2 Hn). unfold Grids.cell in H2.
    unfold Grids.blank_cell. now apply String.eqb_neq.
Qed.

Lemma whole_column_last (g : Grid) (t : string) (c : nat) :
  let n := List.length (Grids.read g (whole_column t c)) in
  (forall row, (n < row)%nat -> Grids.cell g row c = "") /\
  ((0 < n)%nat -> Grids.cell g n c <> "").
Proof.
  cbv zeta. unfold Grids.read, whole_column, Grids.rows_slice.
  cbn [r_row0 r_row1 r_col0 r_col1 skipn Nat.sub].
  destruct (strip_end_length_blank Grids.blank_row []
              (map (Grids.row_slice c c) g) eq_refl) as [S1 S2].
  set (n := List.length _) in *. split.
  - intros row Hrow. specialize (S1 (row - 1)%nat).
    rewrite nth_row_slices, row_slice_one in S1. unfold Grids.cell.
    apply String.eqb_eq. apply S1. lia.
  - intros Hn. specialize (S2 Hn).
    rewrite nth_row_slices, row_slice_one in S2.
    unfold Grids.cell. now apply String.eqb_neq.
Qed.

Lemma written_record (sheet : string) (r : nat) (vals : list string)
      (row col : nat) :
  written (mkRange sheet colA colG r (Some r)) [vals] row col
  = if (row =? r)%nat && (col <? List.length vals)%nat
    then Some (nth col vals "") else None.
Proof.
  unfold written. cbn [r_row0 r_col0 List.length colA].
  rewrite Nat.sub_0_r. cbn [Nat.leb Nat.add]. rewrite andb_true_r.
  destruct (Nat.eq_dec row r) as [->|Hne].
  - rewrite Nat.leb_refl, Nat.eqb_refl, Nat.sub_diag.
    replace (r <? r + 1)%nat with true by (symmetry; apply Nat.ltb_lt; lia).
    reflexivity.
  - replace (row =? r)%nat with false by (symmetry; now apply Nat.eqb_neq).
    cbn [andb].
    destruct (r <=? row)%nat eqn:E1; [|reflexivity].
    replace (row <? r + 1)%nat with false; [reflexivity|].
    symmetry. apply Nat.ltb_ge. apply Nat.leb_le in E1. lia.
Qed.

(** The cells of Logs after append-record. *)
Lemma add_to_google_sheets_cells
      (creator_name link price : string) (w : World) (sh : Sheet) :
  find (by_title "Logs") (book w) = Some sh ->
  exists sh',
    fst (add_to_google_sheets creator_name link price w) = Ok true /\
    find (by_title "Logs")
      (book (snd (add_to_google_sheets creator_name link price w)))
    = Some sh' /\
    (forall row col, (1 <= row)%nat ->
       Grids.cell (cells sh') row col
       = if (row =? next_row sh)%nat && (col <=? colG)%nat
         then nth col [""; ""; creator_name; ""; link; ""; price] ""
         else Grids.cell (cells sh) row col).
Proof.
  intros Hsh. rewrite add_to_google_sheets_run, Hsh. cbn [fst snd].
  eexists. split; [reflexivity|].
  cbn [book set_book]. rewrite find_update_where by reflexivity.
  rewrite Hsh. cbn [option_map].
  assert (by_title "Logs" sh = true) as ->
      by (apply find_some in Hsh; tauto).
  split; [reflexivity|]. cbn [cells set_cells].
  assert (1 <= next_row sh)%nat as Hnext by (unfold next_row, Py.len; lia).
  intros row col Hrow. rewrite cell_write by assumption.
  rewrite written_record. cbn [List.length].
  replace (col <? 7)%nat with (col <=? colG)%nat.
  2:{ unfold colG. destruct (col <=? 6)%nat eqn:E.
      - symmetry. apply Nat.ltb_lt. apply Nat.leb_le in E. lia.
      - symmetry. apply Nat.ltb_ge. apply Nat.leb_gt in E. lia. }
  now destruct (_ && _).
Qed.

Lemma next_row_length (sh : Sheet) :
  next_row sh
  = S (List.length (Grids.read (cells sh) (whole_column "Logs" colC))).
Proof. unfold next_row, Py.len. lia. Qed.

(** X15: when [add_to_google_sheets] returns [True], it has read column C of
    Logs and made one update call, for the cells A to G of the row after
    the last value of column C, a row that has no creator, as has no row
    below it; every cell of Logs outside A to G of that row, and every
    other sheet, is as before. *)
Theorem add_appends_below_last_creator
        (creator_name link price : string) (w w' : World) :
  add_to_google_sheets creator_name link price w = (Ok true, w') ->
  exists sh sh',
    find (by_title "Logs") (book w) = Some sh /\
    find (by_title "Logs") (book w') = Some sh' /\
    calls w'
    = (calls w ++ [ValuesBatchGet [whole_column "Logs" colC];
                   append_call sh creator_name link price])%list /\
    (forall row, (next_row sh <= row)%nat ->
       Grids.cell (cells sh) row colC = "") /\
    (forall row col, (1 <= row)%nat ->
       row <> next_row sh \/ (colG < col)%nat ->
       Grids.cell (cells sh') row col = Grids.cell (cells sh) row col) /\
    (forall t, t <> "Logs" ->
       find (by_title t) (book w') = find (by_title t) (book w)).
Proof.
  intros H. pose proof H as Hrun. rewrite add_to_google_sheets_run in Hrun.
  destruct (find (by_title "Logs") (book w)) as [sh|] eqn:Hsh;
    [|discriminate].
  destruct (add_to_google_sheets_cells creator_name link price w sh Hsh)
    as [sh' [_ [Hsh' Hcell]]].
  rewrite H in Hsh'. cbn [snd] in Hsh'.
  exists sh, sh'. split; [reflexivity|]. split; [assumption|].
  injection Hrun as <-. cbn [calls book set_book journal]. split.
  { now rewrite <- app_assoc. }
  split.
  { intros row Hrow.
    destruct (whole_column_last (cells sh) "Logs" colC) as [L1 _].
    cbv zeta in L1. apply L1. rewrite (next_row_length sh) in Hrow. lia. }
  split.
  { intros row col Hrow Hout. rewrite Hcell by assumption.
    destruct Hout as [Hne|Hcol].
    - now replace (row =? next_row sh)%nat with false
        by (symmetry; now apply Nat.eqb_neq).
    - replace (col <=? colG)%nat with false
        by (symmetry; apply Nat.leb_gt; lia).
      now rewrite andb_false_r. }
  intros t Ht. rewrite find_update_where by reflexivity.
  destruct (find (by_title t) (book w)) as [x|] eqn:Hx; [|reflexivity].
  cbn [option_map]. apply find_some in Hx. destruct Hx as [_ Hx].
  apply by_title_true in Hx.
  now rewrite (by_title_other "Logs" x) by congruence.
Qed.

Lemma add_appends_below_last_creator_witness :
  exists sh sh',
    find (by_title "Logs") (book Samples.two_records) = Some sh /\
    find (by_title "Logs")
      (book (snd (add_to_google_sheets "cy" "https://i.ibb.co/c3/three.png"
                    "12" Samples.two_records)))
    = Some sh' /\
    calls (snd (add_to_google_sheets "cy" "https://i.ibb.co/c3/three.png"
                  "12" Samples.two_records))
    = (calls Samples.two_records
       ++ [ValuesBatchGet [whole_column "Logs" colC];
           append_call sh "cy" "https://i.ibb.co/c3/three.png" "12"])%list /\
    (forall row, (next_row sh <= row)%nat ->
       Grids.cell (cells sh) row colC = "") /\
    (forall row col, (1 <= row)%nat ->
       row <> next_row sh \/ (colG < col)%nat ->
       Grids.cell (cells sh') row col = Grids.cell (cells sh) row col) /\
    (forall t, t <> "Logs" ->
       find (by_title t)
         (book (snd (add_to_google_sheets "cy"
                       "https://i.ibb.co/c3/three.png" "12"
                       Samples.two_records)))
       = find (by_title t) (book Samples.two_records)).
Proof.
  apply (add_appends_below_last_creator "cy" "https://i.ibb.co/c3/three.png"
           "12" Samples.two_records
           (snd (add_to_google_sheets "cy" "https://i.ibb.co/c3/three.png"
                   "12" Samples.two_records))).
  vm_compute. reflexivity.
Defined.

End Append.

(** ** What remove-recent clears *)

Section Removal.

Import Sheets.

Lemma cell_clear_one (g : Grid) (t : string) (c r row col : nat) :
  (1 <= row)%nat ->
  Grids.cell (Grids.clear g (one_cell t c r)) row col
  = if (row =? r)%nat && (col =? c)%nat then "" else Grids.cell g row col.
Proof.
  intros Hrow. rewrite cell_clear by assumption.
  unfold Grids.in_rows, Grids.in_cols, one_cell.
  cbn [r_row0 r_row1 r_col0 r_col1].
  replace ((r <=? row)%nat && (row <=? r)%nat) with (row =? r)%nat.
  2:{ destruct (Nat.eq_dec row r) as [->|Hne].
      - now rewrite Nat.eqb_refl, Nat.leb_refl.
      - replace (row =? r)%nat with false
          by (symmetry; now apply Nat.eqb_neq).
        destruct (r <=? row)%nat eqn:E1; [|reflexivity].
        destruct (row <=? r)%nat eqn:E2; [|reflexivity].
        apply Nat.leb_le in E1, E2. lia. }
  replace ((c <=? col)%nat && (col <=? c)%nat) with (col =? c)%nat.
  2:{ destruct (Nat.eq_dec col c) as [->|Hne].
      - now rewrite Nat.eqb_refl, Nat.leb_refl.
      - replace (col =? c)%nat with false
          by (symmetry; now apply Nat.eqb_neq).
        destruct (c <=? col)%nat eqn:E1; [|reflexivity].
        destruct (col <=? c)%nat eqn:E2; [|reflexivity].
        apply Nat.leb_le in E1, E2. lia. }
  reflexivity.
Qed.

(** Clearing the three tracked cells of one row of the log. *)
Lemma clear_row_run (r : nat) (w : World) (sh : Sheet) :
  find (by_title "Logs") (book w) = Some sh ->
  exists w' sh',
    for_each [colC; colE; colG]
      (fun col => values_clear (one_cell "Logs" col r)) w = (Ok tt, w') /\
    find (by_title "Logs") (book w') = Some sh' /\
    (forall row col, (1 <= row)%nat ->
       Grids.cell (cells sh') row col
       = if (row =? r)%nat && tracked col then ""
         else Grids.cell (cells sh) row col).
Proof.
  intros Hsh.
  assert (forall (c : nat) (w0 : World) (s0 : Sheet),
            find (by_title "Logs") (book w0) = Some s0 ->
            exists w1,
              values_clear (one_cell "Logs" c r) w0 = (Ok tt, w1) /\
              find (by_title "Logs") (book w1)
              = Some (set_cells (Grids.clear (cells s0) (one_cell "Logs" c r))
                        s0)) as Hone.
  { intros c w0 s0 H0. unfold values_clear.
    cbn [book journal r_sheet one_cell]. rewrite H0.
    eexists. split; [reflexivity|]. cbn [book set_book].
    rewrite find_update_where by reflexivity. rewrite H0. cbn [option_map].
    assert (by_title "Logs" s0 = true) as ->
        by (apply find_some in H0; tauto).
    reflexivity. }
  cbn [for_each]. unfold bindM, ret.
  destruct (Hone colC w sh Hsh) as [w1 [-> H1]].
  destruct (Hone colE w1 _ H1) as [w2 [-> H2]].
  destruct (Hone colG w2 _ H2) as [w3 [-> H3]].
  eexists _, _. split; [reflexivity|]. split; [exact H3|].
  intros row col Hrow. cbn [cells set_cells].
  rewrite !cell_clear_one by assumption. unfold tracked. cbn [existsb].
  destruct (row =? r)%nat; cbn [andb]; [|reflexivity].
  destruct (col =? colG)%nat; [now rewrite !orb_true_r|].
  destruct (col =? colE)%nat; [now rewrite orb_true_r|].
  destruct (col =? colC)%nat; reflexivity.
Qed.

Lemma for_each_cons {A} (x : A) (t : list A) (body : A -> M unit)
      (w : World) :
  for_each (x :: t) body w
  = match body x w with
    | (Ok _, w') => for_each t body w'
    | (Raise e, w') => (Raise e, w')
    end.
Proof. reflexivity. Qed.

(** The clearing loop of remove-recent over the rows [max_rows - i]. *)
Lemma clear_rows_run (max_rows : Z) (indices : list Z) :
  forall (w : World) (sh : Sheet),
    find (by_title "Logs") (book w) = Some sh ->
    exists w' sh',
      for_each indices
        (fun i =>
           let row := Z.to_nat (max_rows - i) in
           for_each [colC; colE; colG]
             (fun col => values_clear (one_cell "Logs" col row))) w
      = (Ok tt, w') /\
      find (by_title "Logs") (book w') = Some sh' /\
      (forall row col, (1 <= row)%nat ->
         Grids.cell (cells sh') row col
         = if existsb (fun i => (row =? Z.to_nat (max_rows - i))%nat) indices
              && tracked col
           then "" else Grids.cell (cells sh) row col).
Proof.
  induction indices as [|i rest IH]; intros w sh Hsh.
  - exists w, sh. split; [reflexivity|]. split; [assumption|]. reflexivity.
  - rewrite for_each_cons. cbv beta zeta.
    destruct (clear_row_run (Z.to_nat (max_rows - i)) w sh Hsh)
      as [w1 [sh1 [-> [H1 Hc1]]]].
    destruct (IH w1 sh1 H1) as [w2 [sh2 [Hrun [H2 Hc2]]]].
    exists w2, sh2. split; [exact Hrun|]. split; [exact H2|].
    intros row col Hrow. rewrite Hc2, Hc1 by assumption.
    cbn [existsb].
    destruct (existsb _ rest); destruct (row =? _)%nat; destruct (tracked col);
      reflexivity.
Qed.

Lemma fetched_logs_sheet (w : World) (vrs : list (list (list string))) :
  fetched w logs_columns = Ok vrs ->
  exists sh, find (by_title "Logs") (book w) = Some sh.
Proof.
  unfold fetched, logs_columns. cbn [Py.for_list]. unfold read_range at 1.
  cbn [r_sheet whole_column].
  destruct (find (by_title "Logs") (book w)) as [sh|]; [now exists sh|].
  discriminate.
Qed.

Lemma in_cleared_rows (max_rows k : Z) (row : nat) :
  k <= max_rows - 1 ->
  existsb (fun i => (row =? Z.to_nat (max_rows - i))%nat) (Py.range k) = true
  <-> max_rows - k < Z.of_nat row <= max_rows /\ 0 < k.
Proof.
  intros Hk. rewrite existsb_exists. split.
  - intros [i [Hi E]]. apply range_in in Hi. apply Nat.eqb_eq in E. lia.
  - intros H. exists (max_rows - Z.of_nat row). split.
    + apply range_in. lia.
    + apply Nat.eqb_eq. lia.
Qed.

(** What remove-recent does to the state, in each of its outcomes. *)
Lemma remove_recent_run (count : Z) (w : World) :
  (exists w', remove_recent_from_sheets count w = (Ok (false, []), w') /\
              book w' = book w) \/
  (exists removed w' vrs max_rows sh sh',
     remove_recent_from_sheets count w = (Ok (true, removed), w') /\
     fetched w logs_columns = Ok vrs /\ longest vrs = Ok max_rows /\
     1 < max_rows /\
     find (by_title "Logs") (book w) = Some sh /\
     find (by_title "Logs") (book w') = Some sh' /\
     (forall row col, (1 <= row)%nat ->
        Grids.cell (cells sh') row col
        = if existsb (fun i => (row =? Z.to_nat (max_rows - i))%nat)
               (Py.range (Z.min count (max_rows - 1)))
             && tracked col
          then "" else Grids.cell (cells sh) row col)).
Proof.
  unfold remove_recent_from_sheets, try_except, bindM, lift, ret.
  unfold values_batch_get. fold logs_columns.
  set (w1 := journal (ValuesBatchGet logs_columns) w).
  change (book w1) with (book w).
  destruct (Py.for_list (read_range (book w)) logs_columns) as [vrs|e] eqn:Hv;
    [|left; eexists; split; reflexivity].
  destruct (longest vrs) as [max_rows|e] eqn:Hl;
    [|left; eexists; split; reflexivity].
  destruct (max_rows <=? 1) eqn:Hm;
    [left; eexists; split; reflexivity|].
  apply Z.leb_gt in Hm.
  destruct (Py.for_list _ (Py.range _)) as [recs|e] eqn:Hf;
    [|left; eexists; split; reflexivity].
  destruct (fetched_logs_sheet w vrs Hv) as [sh Hsh].
  destruct (clear_rows_run max_rows (Py.range (Z.min count (max_rows - 1)))
              w1 sh Hsh)
    as [w2 [sh2 [Hrun [H2 Hc2]]]].
  right. exists (rev recs), w2, vrs, max_rows, sh, sh2.
  cbv zeta in Hrun. rewrite Hrun. repeat split; auto.
Qed.

(** Remove-recent when every lookup of its snapshot goes through. *)
Lemma remove_recent_forward (count : Z) (w : World)
      (vrs : list (list (list string))) (max_rows : Z) (recs : list Removed)
      (sh : Sheet) :
  fetched w logs_columns = Ok vrs -> longest vrs = Ok max_rows ->
  1 < max_rows ->
  Py.for_list (removed_record vrs max_rows)
    (Py.range (Z.min count (max_rows - 1))) = Ok recs ->
  find (by_title "Logs") (book w) = Some sh ->
  exists w' sh',
    remove_recent_from_sheets count w = (Ok (true, rev recs), w') /\
    find (by_title "Logs") (book w') = Some sh' /\
    (forall row col, (1 <= row)%nat ->
       Grids.cell (cells sh') row col
       = if existsb (fun i => (row =? Z.to_nat (max_rows - i))%nat)
              (Py.range (Z.min count (max_rows - 1)))
            && tracked col
         then "" else Grids.cell (cells sh) row col).
Proof.
  intros Hv Hl Hm Hf Hsh. unfold fetched in Hv.
  unfold remove_recent_from_sheets, try_except, bindM, lift, ret.
  unfold values_batch_get. fold logs_columns.
  set (w1 := journal (ValuesBatchGet logs_columns) w).
  change (book w1) with (book w). rewrite Hv, Hl.
  replace (max_rows <=? 1) with false by (symmetry; apply Z.leb_gt; lia).
  rewrite Hf.
  destruct (clear_rows_run max_rows (Py.range (Z.min count (max_rows - 1)))
              w1 sh Hsh)
    as [w2 [sh2 [Hrun [H2 Hc2]]]].
  exists w2, sh2. cbv zeta in Hrun. rewrite Hrun. repeat split; auto.
Qed.

(** X16: when [remove_recent_from_sheets] succeeds, with [max_rows] the
    length of the longest of the columns C, E, G, it returns
    [min(count, max_rows - 1)] records and empties the cells C, E, G of as
    many rows, the last ones up to row [max_rows]; every other cell of Logs
    is as before, those of the heading row 1 in particular. *)
Theorem remove_recent_clears_only_the_last_rows
        (count : Z) (w w' : World) (removed : list Removed) :
  remove_recent_from_sheets count w = (Ok (true, removed), w') ->
  exists vrs max_rows sh sh',
    fetched w logs_columns = Ok vrs /\ longest vrs = Ok max_rows /\
    find (by_title "Logs") (book w) = Some sh /\
    find (by_title "Logs") (book w') = Some sh' /\
    List.length removed = Z.to_nat (Z.min count (max_rows - 1)) /\
    (forall row col, (1 <= row)%nat ->
       Grids.cell (cells sh') row col
       = if (max_rows - Z.min count (max_rows - 1) <? Z.of_nat row)
            && (Z.of_nat row <=? max_rows) && tracked col
         then "" else Grids.cell (cells sh) row col) /\
    (forall col, Grids.cell (cells sh') 1 col = Grids.cell (cells sh) 1 col).
Proof.
  intros H. pose proof (remove_recent_success _ _ _ _ H) as Hs.
  destruct Hs as [vrs0 [m0 [Hv0 [Hl0 [_ [Hlen _]]]]]].
  destruct (remove_recent_run count w) as [[w2 [Hrun _]]|Hrun].
  { rewrite Hrun in H. discriminate. }
  destruct Hrun as [removed2 [w2 [vrs [max_rows [sh [sh' Hrun]]]]]].
  destruct Hrun as [Hrun [Hv [Hl [Hm [Hsh [Hsh' Hcell]]]]]].
  rewrite Hrun in H. injection H as -> ->.
  assert (vrs0 = vrs) as -> by congruence.
  assert (m0 = max_rows) as -> by congruence.
  exists vrs, max_rows, sh, sh'.
  repeat (split; [assumption|]).
  assert (forall row col, (1 <= row)%nat ->
            Grids.cell (cells sh') row col
            = if (max_rows - Z.min count (max_rows - 1) <? Z.of_nat row)
                 && (Z.of_nat row <=? max_rows) && tracked col
              then "" else Grids.cell (cells sh) row col) as Hcell'.
  { intros row col Hrow. rewrite Hcell by assumption.
    replace (existsb _ _)
      with ((max_rows - Z.min count (max_rows - 1) <? Z.of_nat row)
            && (Z.of_nat row <=? max_rows)); [reflexivity|].
    apply eq_true_iff_eq.
    rewrite in_cleared_rows by lia.
    rewrite andb_true_iff, Z.ltb_lt, Z.leb_le. lia. }
  split; [exact Hcell'|].
  intros col. rewrite Hcell' by lia.
  replace (_ <? Z.of_nat 1) with false; [reflexivity|].
  symmetry. apply Z.ltb_ge. lia.
Qed.

Lemma remove_recent_clears_only_the_last_rows_witness :
  exists vrs max_rows sh sh',
    fetched Samples.two_records logs_columns = Ok vrs /\
    longest vrs = Ok max_rows /\
    find (by_title "Logs") (book Samples.two_records) = Some sh /\
    find (by_title "Logs")
      (book (snd (remove_recent_from_sheets 1 Samples.two_records)))
    = Some sh' /\
    List.length [("bob", "https://i.ibb.co/b2/two.png", "7.50")]
    = Z.to_nat (Z.min 1 (max_rows - 1)) /\
    (forall row col, (1 <= row)%nat ->
       Grids.cell (cells sh') row col
       = if (max_rows - Z.min 1 (max_rows - 1) <? Z.of_nat row)
            && (Z.of_nat row <=? max_rows) && tracked col
         then "" else Grids.cell (cells sh) row col) /\
    (forall col, Grids.cell (cells sh') 1 col = Grids.cell (cells sh) 1 col).
Proof.
  apply (remove_recent_clears_only_the_last_rows 1 Samples.two_records
           (snd (remove_recent_from_sheets 1 Samples.two_records))
           [("bob", "https://i.ibb.co/b2/two.png", "7.50")]).
  vm_compute. reflexivity.
Defined.

(** X17: a reply that [removerecent_slash] gets to send is one of three:
    "Specify a positive number.", for a count below 1 and with nothing
    done; "Failed to remove records.", when remove-recent returned the
    failure flag; or the records that remove-recent returned with its
    success flag, at least one and at most [count].  It is never "No
    records to remove.". *)
Theorem removerecent_slash_outcomes
        (count : Z) (w w' : World) (r : Reply) :
  removerecent_slash count w = (Ok r, w') ->
  match r with
  | SpecifyPositiveNumber => count < 1 /\ w' = w
  | FailedToRemoveRecords =>
      1 <= count /\ remove_recent_from_sheets count w = (Ok (false, []), w')
  | RemovedRecords removed =>
      remove_recent_from_sheets count w = (Ok (true, removed), w') /\
      1 <= Z.of_nat (List.length removed) <= count
  | _ => False
  end.
Proof.
  unfold removerecent_slash, bindM, ret.
  destruct (count <? 1) eqn:Hc.
  { apply Z.ltb_lt in Hc. intros H. injection H as <- <-. now split. }
  apply Z.ltb_ge in Hc.
  destruct (remove_recent_run count w) as [[w2 [Hrun Hb]]|Hrun].
  { rewrite Hrun. intros H. injection H as <- <-. now split. }
  destruct Hrun as [removed [w2 [vrs [max_rows [sh [sh' Hrun]]]]]].
  destruct Hrun as [Hrun [Hv [Hl [Hm _]]]].
  pose proof (remove_recent_success _ _ _ _ Hrun) as Hs.
  destruct Hs as [vrs0 [m0 [Hv0 [Hl0 [_ [Hlen _]]]]]].
  assert (vrs0 = vrs) as -> by congruence.
  assert (m0 = max_rows) as -> by congruence.
  rewrite Hrun. destruct removed as [|x t].
  - cbn [List.length] in Hlen. lia.
  - intros H. injection H as <- <-. split; [reflexivity|]. lia.
Qed.

Lemma removerecent_slash_outcomes_witness :
  remove_recent_from_sheets 5 Samples.two_records
  = (Ok (true, [("ann", "https://i.ibb.co/a1/one.png", "5");
                ("bob", "https://i.ibb.co/b2/two.png", "7.50")]),
     snd (removerecent_slash 5 Samples.two_records)) /\
  1 <= Z.of_nat
         (List.length [("ann", "https://i.ibb.co/a1/one.png", "5");
                       ("bob", "https://i.ibb.co/b2/two.png", "7.50")])
    <= 5.
Proof.
  apply (removerecent_slash_outcomes 5 Samples.two_records
           (snd (removerecent_slash 5 Samples.two_records))
           (RemovedRecords [("ann", "https://i.ibb.co/a1/one.png", "5");
                            ("bob", "https://i.ibb.co/b2/two.png", "7.50")])).
  vm_compute. reflexivity.
Defined.

End Removal.

(** ** The creator filter, cell by cell *)

Lemma row_slice_one_value (c : nat) (row : list string) :
  Grids.row_slice c c row
  = if Grids.blank_cell (nth c row "") then [] else [nth c row ""].
Proof.
  unfold Grids.row_slice. replace (c - c + 1)%nat with 1%nat by lia.
  rewrite firstn_1_skipn, nth_by_nth_error.
  destruct (nth_error row c) as [x|]; [|reflexivity].
  cbn [Grids.strip_end]. now destruct (Grids.blank_cell x).
Qed.

(** A row that is not blank is not among those left out at the end. *)
Lemma strip_end_keeps {A} (blank : A -> bool) (d : A) (l : list A) (k : nat) :
  blank d = true -> blank (nth k l d) = false ->
  (k < List.length (Grids.strip_end blank l))%nat.
Proof.
  intros Hd Hk. destruct (strip_end_length_blank blank d l Hd) as [S1 _].
  destruct (Nat.lt_ge_cases k (List.length (Grids.strip_end blank l)))
    as [Hlt|Hge]; [assumption|].
  rewrite (S1 k Hge) in Hk. discriminate.
Qed.

Lemma filters_read_length (g : Grid) :
  (List.length (Grids.read g filters_range) <= 12)%nat.
Proof.
  unfold Grids.read. etransitivity; [apply strip_end_length|].
  rewrite length_map. unfold Grids.rows_slice, filters_range.
  cbn [r_row0 r_row1]. apply firstn_le_length.
Qed.

(** The rows the service returns for P7:P18 that start with a value. *)
Lemma filters_read_in (g : Grid) (c : string) :
  c <> "" ->
  (exists row, In (c :: row) (Grids.read g filters_range)) <->
  exists row, (7 <= row <= 18)%nat /\ Grids.cell g row colP = c.
Proof.
  intros Hc. split.
  - intros [r Hin]. apply (In_nth _ _ []) in Hin.
    destruct Hin as [i [Hi Hnth]].
    pose proof (filters_read_length g) as Hlen.
    exists (7 + i)%nat. split; [lia|].
    pose proof (nth_read g filters_range i 0) as Hr.
    rewrite Hnth in Hr. cbn [nth List.length r_row0 r_col0 filters_range] in Hr.
    rewrite Nat.add_0_r in Hr. symmetry. apply Hr; lia.
  - intros [row [Hrow Hcell]].
    set (l := map (Grids.row_slice colP colP)
                (Grids.rows_slice 7 (Some 18%nat) g)).
    assert (nth (row - 7) l [] = [c]) as Hnth.
    { unfold l. rewrite nth_row_slices. unfold Grids.rows_slice.
      rewrite nth_firstn, nth_skipn.
      replace (row - 7 <? 18 - 7 + 1)%nat with true
        by (symmetry; apply Nat.ltb_lt; lia).
      replace (7 - 1 + (row - 7))%nat with (row - 1)%nat by lia.
      rewrite row_slice_one_value. unfold Grids.cell in Hcell.
      rewrite Hcell. apply String.eqb_neq in Hc. unfold Grids.blank_cell.
      now rewrite Hc. }
    assert (row - 7 < List.length (Grids.strip_end Grids.blank_row l))%nat
      as Hk by (apply (strip_end_keeps _ []); [reflexivity|now rewrite Hnth]).
    exists []. unfold Grids.read.
    cbn [r_col0 r_col1 r_row0 r_row1 filters_range]. fold l.
    rewrite <- Hnth, <- (nth_strip_end Grids.blank_row l _ []) by exact Hk.
    now apply nth_In.
Qed.

(** X18: on an empty cache [get_log_filters] returns at most twelve names.
    When the sheet Logs exists they are exactly the values of the cells P7
    to P18 that are not empty, and they fill the cache; when it does not,
    the list returned is empty and the cache stays empty. *)
Theorem get_log_filters_caches_nonempty_cells_P7_P18
        (w w' : World) (names : list string) :
  log_filters_cache w = None ->
  get_log_filters w = (Ok names, w') ->
  (List.length names <= 12)%nat /\
  (forall sh, find (Sheets.by_title "Logs") (book w) = Some sh ->
     log_filters_cache w' = Some names /\
     forall c, In c names <->
               c <> "" /\
               exists row, (7 <= row <= 18)%nat /\
                           Grids.cell (cells sh) row colP = c) /\
  (find (Sheets.by_title "Logs") (book w) = None ->
   names = [] /\ log_filters_cache w' = None).
Proof.
  intros Hc H. rewrite (get_log_filters_first w Hc) in H.
  destruct (find (Sheets.by_title "Logs") (book w)) as [sh|].
  - cbv zeta in H. injection H as <- <-.
    split; [|split; [|discriminate]].
    + etransitivity; [apply creator_names_length|apply filters_read_length].
    + intros sh' E. injection E as <-. split; [reflexivity|].
      intros c. rewrite creator_names_in. split.
      * intros [Hne Hin]. split; [assumption|]. now apply filters_read_in.
      * intros [Hne Hin]. split; [assumption|]. now apply filters_read_in.
  - injection H as <- <-. split; [cbn; lia|]. split; [discriminate|].
    intros _. split; [reflexivity|exact Hc].
Qed.

Lemma get_log_filters_caches_nonempty_cells_P7_P18_witness :
  (List.length ["ann"; "bob"] <= 12)%nat /\
  (forall sh,
     find (Sheets.by_title "Logs") (book Samples.with_creators) = Some sh ->
     log_filters_cache (snd (get_log_filters Samples.with_creators))
     = Some ["ann"; "bob"] /\
     forall c, In c ["ann"; "bob"] <->
               c <> "" /\
               exists row, (7 <= row <= 18)%nat /\
                           Grids.cell (cells sh) row colP = c) /\
  (find (Sheets.by_title "Logs") (book Samples.with_creators) = None ->
   ["ann"; "bob"] = [] /\
   log_filters_cache (snd (get_log_filters Samples.with_creators)) = None).
Proof.
  apply (get_log_filters_caches_nonempty_cells_P7_P18 Samples.with_creators
           (snd (get_log_filters Samples.with_creators)) ["ann"; "bob"]).
  - reflexivity.
  - vm_compute. reflexivity.
Defined.

(** ** The log after a roll-over *)

Section AfterRollOver.

Import Sheets.

(** A column with no value from row [r0] on is returned without rows. *)
Lemma column_from_blank (g : Grid) (t : string) (c r0 : nat) :
  (forall row, (r0 <= row)%nat -> Grids.cell g row c = "") ->
  Grids.read g (column_from t c r0) = [].
Proof.
  intros H. apply length_zero_iff_nil.
  unfold Grids.read, column_from, Grids.rows_slice.
  cbn [r_row0 r_row1 r_col0 r_col1].
  apply (strip_end_length_unique Grids.blank_row []); [reflexivity| |lia].
  intros k _. rewrite nth_row_slices, row_slice_one, nth_skipn.
  destruct (Nat.le_gt_cases r0 (S (r0 - 1 + k))) as [Hle|Hgt]; [|lia].
  specialize (H (S (r0 - 1 + k)) Hle). unfold Grids.cell in H.
  replace (S (r0 - 1 + k) - 1)%nat with (r0 - 1 + k)%nat in H by lia.
  unfold Grids.blank_cell. now rewrite H.
Qed.

Lemma field_at_no_rows (vrs : list (list (list string))) (k i : Z)
      (dflt : string) :
  Py.index vrs k = Ok [] -> 0 <= i -> field_at vrs k i dflt = Ok dflt.
Proof.
  intros Hv Hi. apply (field_at_beyond vrs k i dflt []); [assumption|].
  cbn. lia.
Qed.

Lemma end_month_listed_rows
        (now : Calendar.date) (w w' : World)
        (full earned pending work_done : string) :
  end_month now w = (Ok (true, full, earned, pending, work_done), w') ->
  forall (success : bool) (logs : list LogRow) (w'' : World),
    get_logs w' = (Ok (success, logs), w'') ->
    forall creator link price paid,
      In (creator, link, price, paid) logs ->
      creator = "N/A" /\ link = "N/A" /\ price = "N/A" /\
      sentinel paid = false.
Proof.
  intros H success logs w'' Hg creator link price paid Hin.
  destruct success.
  2:{ destruct (get_logs_run w') as [s [l [Hrun Hfail]]].
      rewrite Hrun in Hg. injection Hg as Hs Hl _. subst s l.
      rewrite (Hfail eq_refl) in Hin. destruct Hin. }
  apply end_month_success in H.
  destruct H as [next [sh0 [q15 [b1 [aid [b3 [b4 [vals H]]]]]]]].
  destruct H as [_ [_ [_ [_ [_ [_ [_ [Hlogs Hbook]]]]]]]].
  destruct (find (by_title "Logs") b4) as [lg4|] eqn:Hlg4; [|now elim Hlogs].
  assert (find (by_title "Logs") (book w')
          = Some (set_cells (Grids.clear (cells lg4) record_area) lg4))
    as Hfound.
  { rewrite Hbook, find_update_where by reflexivity. rewrite Hlg4.
    cbn [option_map].
    assert (by_title "Logs" lg4 = true) as ->
        by (apply find_some in Hlg4; tauto).
    reflexivity. }
  apply get_logs_success in Hg. destruct Hg as [vrs [m [Hf [Hm ->]]]].
  apply kept_rows_in in Hin.
  destruct Hin as [i [fields [Hi [Hfields [Hrow Hs]]]]].
  apply range_in in Hi.
  assert (forall c, (c <= colG)%nat ->
            Grids.read (Grids.clear (cells lg4) record_area)
              (column_from "Logs" c 7) = []) as Hblank.
  { intros c Hc. apply column_from_blank. intros row Hrow7.
    rewrite cell_clear by lia.
    unfold Grids.in_rows, Grids.in_cols, record_area.
    cbn [r_row0 r_row1 r_col0 r_col1].
    replace (7 <=? row)%nat with true by (symmetry; apply Nat.leb_le; lia).
    replace (c <=? colG)%nat with true by (symmetry; now apply Nat.leb_le).
    reflexivity. }
  unfold fetched, listed_columns in Hf. cbn [Py.for_list] in Hf.
  unfold read_range in Hf. cbn [r_sheet column_from] in Hf.
  rewrite Hfound in Hf. cbn [cells set_cells Py.bind] in Hf.
  fold (column_from "Logs" colC 7) in Hf.
  fold (column_from "Logs" colE 7) in Hf.
  fold (column_from "Logs" colG 7) in Hf.
  rewrite !Hblank in Hf by (unfold colC, colE, colG; lia).
  injection Hf as <-.
  apply log_fields_of_row in Hrow. rewrite Hrow in Hfields.
  injection Hfields as <-.
  unfold log_fields in Hrow.
  rewrite !field_at_no_rows in Hrow by (reflexivity || lia).
  cbn [Py.bind] in Hrow.
  destruct (field_at _ 3 i "No") as [j|]; [|discriminate].
  injection Hrow as <- <- <- <-.
  repeat (split; [reflexivity|]).
  cbn [forallb] in Hs. rewrite andb_true_r in Hs.
  change (sentinel "N/A") with true in Hs. cbn [andb] in Hs. exact Hs.
Qed.

(** X19: after a successful [end_month], whatever [get_logs] lists has
    "N/A" for creator, link and price: no record of the closed period is
    listed any more, and a row is listed only for a paid mark left in
    column J, which the roll-over does not clear. *)
Theorem end_month_leaves_no_record_to_list
        (now : Calendar.date) (w w' : World)
        (full earned pending work_done : string) :
  end_month now w = (Ok (true, full, earned, pending, work_done), w') ->
  Forall
    (fun log =>
       creator_of log = "N/A" /\ link_of log = "N/A" /\
       price_of log = "N/A" /\ sentinel (paid_of log) = false)
    (listed w').
Proof.
  intros H. apply Forall_forall. intros [[[creator link] price] paid] Hin.
  unfold listed in Hin.
  destruct (get_logs_run w') as [success [logs [Hrun _]]].
  rewrite Hrun in Hin. cbn [fst] in Hin.
  exact (end_month_listed_rows now w w' full earned pending work_done H
           success logs _ Hrun creator link price paid Hin).
Qed.

Lemma end_month_leaves_no_record_to_list_witness :
  Forall
    (fun log =>
       creator_of log = "N/A" /\ link_of log = "N/A" /\
       price_of log = "N/A" /\ sentinel (paid_of log) = false)
    (listed (snd (end_month (Calendar.mkDate 2025 1 20) paid_in_january))).
Proof.
  apply (end_month_leaves_no_record_to_list (Calendar.mkDate 2025 1 20)
           paid_in_january
           (snd (end_month (Calendar.mkDate 2025 1 20) paid_in_january))
           "January" "$120.00" "$40.00" "9").
  vm_compute. reflexivity.
Defined.

End AfterRollOver.

(** ** What remove-recent returns *)

Section Snapshot.

Import Sheets.

Lemma index_nth {A} (l : list A) (i : nat) (d : A) :
  (i < List.length l)%nat -> Py.index l (Z.of_nat i) = Ok (nth i l d).
Proof.
  intros Hi. unfold Py.index.
  replace (Z.of_nat i <? 0) with false by (symmetry; apply Z.ltb_ge; lia).
  replace (Z.of_nat i <? 0) with false by (symmetry; apply Z.ltb_ge; lia).
  rewrite Nat2Z.id.
  destruct (nth_error l i) as [x|] eqn:E.
  - f_equal. symmetry. now apply nth_error_nth.
  - apply nth_error_None in E. lia.
Qed.

(** Row [i + 1] of a whole column, as the service returns it. *)
Lemma whole_column_row (g : Grid) (t : string) (c i : nat) :
  (i < List.length (Grids.read g (whole_column t c)))%nat ->
  nth i (Grids.read g (whole_column t c)) []
  = if Grids.blank_cell (Grids.cell g (S i) c) then []
    else [Grids.cell g (S i) c].
Proof.
  unfold Grids.read, whole_column, Grids.rows_slice.
  cbn [r_row0 r_row1 r_col0 r_col1 skipn Nat.sub]. intros Hi.
  rewrite nth_strip_end by assumption.
  rewrite nth_row_slices, row_slice_one_value. unfold Grids.cell.
  now replace (S i - 1)%nat with i by lia.
Qed.

(** A field of the snapshot is what the cell holds. *)
Lemma field_at_cell (vrs : list (list (list string))) (k : Z) (g : Grid)
      (t : string) (c i : nat) (x : string) :
  Py.index vrs k = Ok (Grids.read g (whole_column t c)) ->
  field_at vrs k (Z.of_nat i) "" = Ok x ->
  x = Grids.cell g (S i) c.
Proof.
  intros Hv. unfold field_at. rewrite Hv. cbn [Py.bind].
  assert (values_or [] (Grids.read g (whole_column t c))
          = Grids.read g (whole_column t c)) as ->
      by (now destruct (Grids.read g (whole_column t c))).
  unfold Py.len. destruct (Z.of_nat i <? _) eqn:E.
  - apply Z.ltb_lt in E. rewrite (index_nth _ _ []) by lia. cbn [Py.bind].
    rewrite whole_column_row by lia.
    destruct (Grids.blank_cell (Grids.cell g (S i) c)); [discriminate|].
    intros H. now injection H as <-.
  - apply Z.ltb_ge in E. intros H. injection H as <-.
    destruct (whole_column_last g t c) as [L1 _]. cbv zeta in L1.
    symmetry. apply L1. lia.
Qed.

(** X20: when [remove_recent_from_sheets] succeeds, the records it returns
    are, oldest first, what the cells C, E and G of the rows it clears
    held before: record [j] is the row [j] places below the first cleared
    row, an empty cell giving the empty string. *)
Theorem remove_recent_returns_what_the_cleared_cells_held
        (count : Z) (w w' : World) (removed : list Removed) :
  remove_recent_from_sheets count w = (Ok (true, removed), w') ->
  exists vrs max_rows sh,
    fetched w logs_columns = Ok vrs /\ longest vrs = Ok max_rows /\
    find (by_title "Logs") (book w) = Some sh /\
    forall j, (j < List.length removed)%nat ->
      nth j removed ("", "", "")
      = (Grids.cell (cells sh)
           (Z.to_nat (max_rows - Z.min count (max_rows - 1) + 1) + j) colC,
         Grids.cell (cells sh)
           (Z.to_nat (max_rows - Z.min count (max_rows - 1) + 1) + j) colE,
         Grids.cell (cells sh)
           (Z.to_nat (max_rows - Z.min count (max_rows - 1) + 1) + j) colG).
Proof.
  intros H. apply remove_recent_success in H.
  destruct H as [vrs [max_rows [Hv [Hl [Hm [Hlen Hrec]]]]]].
  destruct (fetched_logs_sheet w vrs Hv) as [sh Hsh].
  exists vrs, max_rows, sh. repeat (split; [assumption|]).
  unfold fetched, logs_columns in Hv. cbn [Py.for_list] in Hv.
  unfold read_range in Hv. cbn [r_sheet whole_column] in Hv.
  rewrite Hsh in Hv. cbn [Py.bind] in Hv.
  fold (whole_column "Logs" colC) in Hv.
  fold (whole_column "Logs" colE) in Hv.
  fold (whole_column "Logs" colG) in Hv.
  injection Hv as <-.
  intros j Hj. specialize (Hrec j Hj). unfold removed_record in Hrec.
  set (k := Z.min count (max_rows - 1)) in *.
  set (i := (Z.to_nat (max_rows - k + 1) + j - 1)%nat).
  replace (max_rows - 1 - (k - 1 - Z.of_nat j)) with (Z.of_nat i) in Hrec
    by (unfold i; lia).
  replace (Z.to_nat (max_rows - k + 1) + j)%nat with (S i)
    by (unfold i; lia).
  destruct (field_at _ 0 (Z.of_nat i) "") as [x0|] eqn:F0; [|discriminate].
  destruct (field_at _ 1 (Z.of_nat i) "") as [x1|] eqn:F1; [|discriminate].
  destruct (field_at _ 2 (Z.of_nat i) "") as [x2|] eqn:F2; [|discriminate].
  cbn [Py.bind] in Hrec. injection Hrec as <-.
  apply (field_at_cell _ 0 (cells sh) "Logs" colC i) in F0; [|reflexivity].
  apply (field_at_cell _ 1 (cells sh) "Logs" colE i) in F1; [|reflexivity].
  apply (field_at_cell _ 2 (cells sh) "Logs" colG i) in F2; [|reflexivity].
  now subst.
Qed.

Lemma remove_recent_returns_what_the_cleared_cells_held_witness :
  exists vrs max_rows sh,
    fetched Samples.two_records logs_columns = Ok vrs /\
    longest vrs = Ok max_rows /\
    find (by_title "Logs") (book Samples.two_records) = Some sh /\
    forall j,
      (j < List.length [("ann", "https://i.ibb.co/a1/one.png", "5");
                        ("bob", "https://i.ibb.co/b2/two.png", "7.50")])%nat ->
      nth j [("ann", "https://i.ibb.co/a1/one.png", "5");
             ("bob", "https://i.ibb.co/b2/two.png", "7.50")] ("", "", "")
      = (Grids.cell (cells sh)
           (Z.to_nat (max_rows - Z.min 2 (max_rows - 1) + 1) + j) colC,
         Grids.cell (cells sh)
           (Z.to_nat (max_rows - Z.min 2 (max_rows - 1) + 1) + j) colE,
         Grids.cell (cells sh)
           (Z.to_nat (max_rows - Z.min 2 (max_rows - 1) + 1) + j) colG).
Proof.
  apply (remove_recent_returns_what_the_cleared_cells_held 2
           Samples.two_records
           (snd (remove_recent_from_sheets 2 Samples.two_records))
           [("ann", "https://i.ibb.co/a1/one.png", "5");
            ("bob", "https://i.ibb.co/b2/two.png", "7.50")]).
  vm_compute. reflexivity.
Defined.

End Snapshot.

(** ** A second roll-over *)

Section Twice.

Import Sheets.

(** The month 32 days after the first of a month is the next one. *)
Lemma month_after_32_days (now next : Calendar.date) :
  1 <= Calendar.month now <= 12 ->
  Calendar.add_days 32 (Calendar.replace_day now 1) = Ok next ->
  Calendar.month next
  = if Calendar.month now =? 12 then 1 else Calendar.month now + 1.
Proof.
  intros Hm H.
  set (y := Calendar.year now) in *. set (m := Calendar.month now) in *.
  pose proof (days_in_month_bounds y m) as Hd.
  set (dim := Calendar.days_in_month y m) in *.
  replace 32%nat with (Z.to_nat (dim - 1) + S (Z.to_nat (32 - dim)))%nat in H
    by lia.
  rewrite add_days_plus in H.
  rewrite add_days_same_month in H
    by (unfold Calendar.replace_day; cbn [Calendar.year Calendar.month
          Calendar.day]; fold y m dim; lia).
  unfold Calendar.replace_day in H.
  cbn [Calendar.year Calendar.month Calendar.day Py.bind Calendar.add_days]
    in H.
  fold y m in H. unfold Calendar.tomorrow in H.
  cbn [Calendar.year Calendar.month Calendar.day] in H. fold dim in H.
  replace (1 + Z.of_nat (Z.to_nat (dim - 1)) <? dim) with false in H
    by (symmetry; apply Z.ltb_ge; lia).
  destruct (m <? 12) eqn:E12.
  - apply Z.ltb_lt in E12. cbn [Py.bind] in H.
    pose proof (days_in_month_bounds y (m + 1)) as Hd'.
    rewrite add_days_same_month in H
      by (cbn [Calendar.year Calendar.month Calendar.day]; lia).
    injection H as <-. cbn [Calendar.month].
    replace (m =? 12) with false by (symmetry; apply Z.eqb_neq; lia).
    reflexivity.
  - apply Z.ltb_ge in E12.
    destruct (y <? Calendar.MAXYEAR); [|discriminate]. cbn [Py.bind] in H.
    pose proof (days_in_month_bounds (y + 1) 1) as Hd'.
    rewrite add_days_same_month in H
      by (cbn [Calendar.year Calendar.month Calendar.day]; lia).
    injection H as <-. cbn [Calendar.month].
    replace (m =? 12) with true by (symmetry; apply Z.eqb_eq; lia).
    reflexivity.
Qed.

Lemma next_token_differs (now next : Calendar.date) :
  1 <= Calendar.month now <= 12 ->
  Calendar.add_days 32 (Calendar.replace_day now 1) = Ok next ->
  Py.upper (Calendar.strftime_b next) <> current_short now.
Proof.
  intros Hm H. pose proof (month_after_32_days now next Hm H) as Hnext.
  unfold current_short, Calendar.strftime_b, Calendar.strftime_B.
  rewrite Hnext. apply month_cases in Hm.
  repeat (destruct Hm as [Hm|Hm]; [rewrite Hm; vm_compute; discriminate|]).
  rewrite Hm. vm_compute. discriminate.
Qed.

Lemma same_title_same_sheet (b : Spreadsheet) (sh sh' : Sheet) :
  distinct_titles b -> In sh b -> In sh' b -> title sh = title sh' ->
  sh = sh'.
Proof.
  unfold distinct_titles. induction b as [|x t IH]; simpl; [intros _ []|].
  intros Hnd Hin Hin' Ht. inversion Hnd as [|? ? Hnotin Hnd']; subst.
  destruct Hin as [<-|Hin], Hin' as [<-|Hin']; auto.
  - exfalso. apply Hnotin. rewrite Ht. now apply in_map.
  - exfalso. apply Hnotin. rewrite <- Ht. now apply in_map.
Qed.

Lemma find_nowhere {A} (p : A -> bool) (l : list A) :
  (forall x, In x l -> p x = false) -> find p l = None.
Proof.
  intros H. destruct (find p l) as [x|] eqn:E; [|reflexivity].
  apply find_some in E. destruct E as [Hin Hp].
  rewrite (H x Hin) in Hp. discriminate.
Qed.

(** X21: after a successful [end_month] on a spreadsheet whose titles are
    pairwise different, no sheet has the current month's abbreviation for
    title any more, so that at the same date a second [end_month] only
    reads the sheet list and returns the failure tuple, and [summary_slash]
    answers with the failure reply. *)
Theorem end_month_twice_fails_the_second_time
        (now : Calendar.date) (w w' : World)
        (full earned pending work_done : string) :
  Calendar.valid now -> distinct_titles (book w) ->
  end_month now w = (Ok (true, full, earned, pending, work_done), w') ->
  find (by_title (current_short now)) (book w') = None /\
  end_month now w' = (Ok failure_summary, journal SpreadsheetsGet w') /\
  fst (summary_slash now w') = Ok (FailedToFetchSummary "").
Proof.
  intros [_ [Hm _]] Hnd H. apply end_month_archive in H.
  destruct H as [next [sh0 [src [b4 H]]]]. cbv zeta in H.
  destruct H as [Hnext [Hcur [Hid [Hsum [Hsrc [Harch [Hren [Hlogs Hbook]]]]]]]].
  set (cur := current_short now) in *.
  set (arch := archive_name now (Grids.cell (cells sh0) 15 colQ)) in *.
  set (nxt := Py.upper (Calendar.strftime_b next)) in *.
  assert (find (by_title cur) (book w') = None) as Hnone.
  { apply find_nowhere. intros sh Hin. apply by_title_other.
    rewrite Hbook in Hin. apply in_update_where in Hin.
    destruct Hin as [sh4 [Hin4 ->]].
    assert (title (if by_title "Logs" sh4
                   then set_cells (Grids.clear (cells sh4) record_area) sh4
                   else sh4) = title sh4) as ->
        by (now destruct (by_title "Logs" sh4)).
    unfold apply_request in Hren.
    destruct (find (by_id (sheetId sh0)) (archived arch _ _ _));
      [|discriminate].
    destruct (existsb _ _); [discriminate|]. injection Hren as <-.
    apply in_update_where in Hin4. destruct Hin4 as [sh3 [Hin3 ->]].
    destruct (by_id (sheetId sh0) sh3) eqn:Hby.
    - cbn [title set_title]. now apply next_token_differs.
    - apply archived_members in Hin3.
      destruct Hin3 as [sh1 [Hin1 [Hi1 [Ht1 _]]]]. rewrite Ht1.
      destruct (in_insert _ sh1 1 (book w) Hin1) as [->|Hin1'].
      + cbn [title]. apply archive_name_not_token.
      + intros E. destruct (find_some _ _ Hcur) as [Hin0 Ht0].
        apply by_title_true in Ht0.
        assert (sh1 = sh0) as ->
            by (apply (same_title_same_sheet (book w)); auto; congruence).
        unfold by_id in Hby. rewrite Hi1, Nat.eqb_refl in Hby.
        discriminate. }
  split; [exact Hnone|]. split.
  - unfold end_month, try_except, bindM, lift, ret, raise. rewrite Hnext.
    unfold spreadsheets_get. cbn [book journal].
    unfold sheet_id_titled. fold (current_short now). fold cur.
    rewrite Hnone. reflexivity.
  - destruct (month_token_round_trip now Hm) as [Hup _].
    unfold summary_slash, bindM, ret. fold (current_short now). fold cur.
    rewrite get_month_summary_run. unfold summary_of. fold cur in Hup.
    rewrite Hup, Hnone. now destruct (Calendar.strptime_b cur).
Qed.

Lemma end_month_twice_fails_the_second_time_witness :
  find (by_title (current_short (Calendar.mkDate 2025 1 20)))
    (book (snd (end_month (Calendar.mkDate 2025 1 20) Samples.in_january)))
  = None /\
  end_month (Calendar.mkDate 2025 1 20)
    (snd (end_month (Calendar.mkDate 2025 1 20) Samples.in_january))
  = (Ok failure_summary,
     journal SpreadsheetsGet
       (snd (end_month (Calendar.mkDate 2025 1 20) Samples.in_january))) /\
  fst (summary_slash (Calendar.mkDate 2025 1 20)
         (snd (end_month (Calendar.mkDate 2025 1 20) Samples.in_january)))
  = Ok (FailedToFetchSummary "").
Proof.
  apply (end_month_twice_fails_the_second_time (Calendar.mkDate 2025 1 20)
           Samples.in_january
           (snd (end_month (Calendar.mkDate 2025 1 20) Samples.in_january))
           "January" "$120.00" "$40.00" "9").
  - unfold Calendar.valid, Calendar.MAXYEAR. cbn. lia.
  - unfold distinct_titles. cbn.
    repeat constructor; cbn; intuition discriminate.
  - vm_compute. reflexivity.
Defined.

End Twice.

(** ** The rows that list-logs returns *)

Section ListedRows.

Import Sheets.

Lemma nth_rows_from (g : Grid) (c r0 i : nat) :
  (1 <= r0)%nat ->
  nth i (map (Grids.row_slice c c) (skipn (r0 - 1) g)) []
  = if Grids.blank_cell (Grids.cell g (r0 + i) c) then []
    else [Grids.cell g (r0 + i) c].
Proof.
  intros H0. rewrite nth_row_slices, nth_skipn, row_slice_one_value.
  unfold Grids.cell. now replace (r0 + i - 1)%nat with (r0 - 1 + i)%nat by lia.
Qed.

(** Row [r0 + i] of a column read from row [r0] on. *)
Lemma column_from_row (g : Grid) (t : string) (c r0 i : nat) :
  (1 <= r0)%nat ->
  (i < List.length (Grids.read g (column_from t c r0)))%nat ->
  nth i (Grids.read g (column_from t c r0)) []
  = if Grids.blank_cell (Grids.cell g (r0 + i) c) then []
    else [Grids.cell g (r0 + i) c].
Proof.
  unfold Grids.read, column_from, Grids.rows_slice.
  cbn [r_row0 r_row1 r_col0 r_col1]. intros H0 Hi.
  rewrite nth_strip_end by assumption. now apply nth_rows_from.
Qed.

(** A value of the column is within the rows returned. *)
Lemma column_from_reaches (g : Grid) (t : string) (c r0 row : nat) :
  (1 <= r0 <= row)%nat -> Grids.cell g row c <> "" ->
  (row - r0 < List.length (Grids.read g (column_from t c r0)))%nat.
Proof.
  intros Hr Hc. unfold Grids.read, column_from, Grids.rows_slice.
  cbn [r_row0 r_row1 r_col0 r_col1].
  apply (strip_end_keeps _ []); [reflexivity|].
  rewrite nth_rows_from by lia.
  replace (r0 + (row - r0))%nat with row by lia.
  apply String.eqb_neq in Hc. unfold Grids.blank_cell. now rewrite Hc.
Qed.

(** Below the rows returned the column has no value. *)
Lemma column_from_beyond (g : Grid) (t : string) (c r0 i : nat) :
  (1 <= r0)%nat ->
  (List.length (Grids.read g (column_from t c r0)) <= i)%nat ->
  Grids.cell g (r0 + i) c = "".
Proof.
  unfold Grids.read, column_from, Grids.rows_slice.
  cbn [r_row0 r_row1 r_col0 r_col1]. intros H0 Hi.
  destruct (strip_end_length_blank Grids.blank_row []
              (map (Grids.row_slice c c) (skipn (r0 - 1) g)) eq_refl)
    as [S1 _].
  specialize (S1 i Hi). rewrite nth_rows_from in S1 by assumption.
  destruct (Grids.blank_cell (Grids.cell g (r0 + i) c)) eqn:E;
    [now apply String.eqb_eq in E|discriminate].
Qed.

(** A field of the fetched columns is the cell, or the default for an
    empty cell. *)
Lemma field_at_column (vrs : list (list (list string))) (k : Z) (g : Grid)
      (t : string) (c r0 i : nat) (dflt x : string) :
  Py.index vrs k = Ok (Grids.read g (column_from t c r0)) ->
  (1 <= r0)%nat ->
  field_at vrs k (Z.of_nat i) dflt = Ok x ->
  x = value_or dflt g (r0 + i) c.
Proof.
  intros Hv H0. unfold field_at, value_or. rewrite Hv. cbn [Py.bind].
  assert (values_or [] (Grids.read g (column_from t c r0))
          = Grids.read g (column_from t c r0)) as ->
      by (now destruct (Grids.read g (column_from t c r0))).
  unfold Py.len. destruct (Z.of_nat i <? _) eqn:E.
  - apply Z.ltb_lt in E. rewrite (index_nth _ _ []) by lia. cbn [Py.bind].
    rewrite column_from_row by lia.
    destruct (Grids.blank_cell (Grids.cell g (r0 + i) c)); [discriminate|].
    intros H. now injection H as <-.
  - apply Z.ltb_ge in E. intros H. injection H as <-.
    rewrite (column_from_beyond g t c r0 i) by lia. reflexivity.
Qed.

Lemma sentinel_value_or (dflt : string) (g : Grid) (row col : nat) :
  sentinel dflt = true ->
  sentinel (value_or dflt g row col) = sentinel (Grids.cell g row col).
Proof.
  intros Hd. unfold value_or, Grids.blank_cell.
  destruct (String.eqb (Grids.cell g row col) "") eqn:E; [|reflexivity].
  apply String.eqb_eq in E. now rewrite E, Hd.
Qed.

Lemma not_sentinel_not_empty (s : string) : sentinel s = false -> s <> "".
Proof. intros H ->. discriminate. Qed.

(** When the comprehension of list-logs goes through, no row raised. *)
Lemma present_rows_fields (vrs : list (list (list string)))
      (indices : list Z) (rows : list LogRow) (i : Z) :
  present_rows vrs indices = Ok rows -> In i indices ->
  exists fields, log_fields vrs i = Ok fields.
Proof.
  revert rows. induction indices as [|x t IH]; intros rows H Hin;
    [destruct Hin|].
  cbn [present_rows] in H.
  destruct (log_fields vrs x) as [fields|e] eqn:Hf; [|discriminate].
  cbn [Py.bind] in H. destruct Hin as [<-|Hin]; [now exists fields|].
  destruct (negb (forallb sentinel fields)).
  - destruct (log_row vrs x); [|discriminate]. cbn [Py.bind] in H.
    destruct (present_rows vrs t) as [rs|]; [|discriminate].
    now apply (IH rs).
  - now apply (IH rows).
Qed.

(** X22: when [get_logs] succeeds, what it lists are the rows of Logs from
    row 7 on of which one of the cells C, E, G, J is none of "N/A", "No",
    "" and "FALSE": every listed record is such a row and every such row
    is listed, with "N/A" for an empty C, E or G and "No" for an empty
    J. *)
Theorem get_logs_lists_the_rows_from_7_with_a_value
        (w w' : World) (logs : list LogRow) (sh : Sheet) :
  get_logs w = (Ok (true, logs), w') ->
  find (by_title "Logs") (book w) = Some sh ->
  Forall
    (fun entry =>
       exists row, (7 <= row)%nat /\
         entry = (value_or "N/A" (cells sh) row colC,
                  value_or "N/A" (cells sh) row colE,
                  value_or "N/A" (cells sh) row colG,
                  value_or "No" (cells sh) row colJ) /\
         forallb sentinel
           [Grids.cell (cells sh) row colC; Grids.cell (cells sh) row colE;
            Grids.cell (cells sh) row colG; Grids.cell (cells sh) row colJ]
         = false)
    logs /\
  (forall row, (7 <= row)%nat ->
     forallb sentinel
       [Grids.cell (cells sh) row colC; Grids.cell (cells sh) row colE;
        Grids.cell (cells sh) row colG; Grids.cell (cells sh) row colJ]
     = false ->
     In (value_or "N/A" (cells sh) row colC,
         value_or "N/A" (cells sh) row colE,
         value_or "N/A" (cells sh) row colG,
         value_or "No" (cells sh) row colJ) logs).
Proof.
  intros Hg Hsh.
  unfold get_logs, try_except, bindM, lift, ret in Hg.
  unfold values_batch_get in Hg. fold listed_columns in Hg.
  cbn [book journal] in Hg.
  destruct (Py.for_list _ listed_columns) as [vrs|e] eqn:Hv;
    [|inversion Hg].
  destruct (longest vrs) as [m|e] eqn:Hm; [|inversion Hg].
  destruct (present_rows vrs (Py.range m)) as [rows|e] eqn:Hrows;
    [|inversion Hg].
  injection Hg as <- _.
  unfold listed_columns in Hv. cbn [Py.for_list] in Hv.
  unfold read_range in Hv. cbn [r_sheet column_from] in Hv.
  rewrite Hsh in Hv. cbn [Py.bind] in Hv.
  fold (column_from "Logs" colC 7) in Hv.
  fold (column_from "Logs" colE 7) in Hv.
  fold (column_from "Logs" colG 7) in Hv.
  fold (column_from "Logs" colJ 7) in Hv.
  injection Hv as <-.
  set (g := cells sh) in *.
  set (vC := Grids.read g (column_from "Logs" colC 7)) in *.
  set (vE := Grids.read g (column_from "Logs" colE 7)) in *.
  set (vG := Grids.read g (column_from "Logs" colG 7)) in *.
  set (vJ := Grids.read g (column_from "Logs" colJ 7)) in *.
  assert (forall i c e p j,
            log_row [vC; vE; vG; vJ] (Z.of_nat i) = Ok (c, e, p, j) ->
            (c, e, p, j)
            = (value_or "N/A" g (7 + i) colC, value_or "N/A" g (7 + i) colE,
               value_or "N/A" g (7 + i) colG, value_or "No" g (7 + i) colJ))
    as Hcells.
  { intros i c e p j H. unfold log_row in H.
    destruct (field_at _ 0 _ "N/A") as [x0|] eqn:F0; [|discriminate].
    destruct (field_at _ 1 _ "N/A") as [x1|] eqn:F1; [|discriminate].
    destruct (field_at _ 2 _ "N/A") as [x2|] eqn:F2; [|discriminate].
    destruct (field_at _ 3 _ "No") as [x3|] eqn:F3; [|discriminate].
    cbn [Py.bind] in H. injection H as <- <- <- <-.
    apply (field_at_column _ 0 g "Logs" colC 7 i) in F0; [|reflexivity|lia].
    apply (field_at_column _ 1 g "Logs" colE 7 i) in F1; [|reflexivity|lia].
    apply (field_at_column _ 2 g "Logs" colG 7 i) in F2; [|reflexivity|lia].
    apply (field_at_column _ 3 g "Logs" colJ 7 i) in F3; [|reflexivity|lia].
    now subst. }
  assert (forall row,
            forallb sentinel
              [value_or "N/A" g row colC; value_or "N/A" g row colE;
               value_or "N/A" g row colG; value_or "No" g row colJ]
            = forallb sentinel
                [Grids.cell g row colC; Grids.cell g row colE;
                 Grids.cell g row colG; Grids.cell g row colJ]) as Hsent.
  { intros row. cbn [forallb].
    now rewrite !sentinel_value_or by reflexivity. }
  assert (Py.len (values_or [] vC) = Z.of_nat (List.length vC) /\
          Py.len (values_or [] vE) = Z.of_nat (List.length vE) /\
          Py.len (values_or [] vG) = Z.of_nat (List.length vG) /\
          Py.len (values_or [] vJ) = Z.of_nat (List.length vJ))
    as [LC [LE [LG LJ]]].
  { unfold Py.len. repeat split;
      match goal with |- context [values_or [] ?v] => now destruct v end. }
  unfold longest in Hm. cbn [map Py.max_of fold_left] in Hm.
  rewrite LC, LE, LG, LJ in Hm. injection Hm as Hm.
  rewrite (present_rows_kept _ _ _ Hrows). split.
  - apply Forall_forall. intros [[[c e] p] j] Hin.
    apply kept_rows_in in Hin.
    destruct Hin as [i [fields [Hi [Hfields [Hrow Hs]]]]].
    apply range_in in Hi.
    replace i with (Z.of_nat (Z.to_nat i)) in Hrow, Hfields by lia.
    pose proof (Hcells _ _ _ _ _ Hrow) as Heq.
    exists (7 + Z.to_nat i)%nat. split; [lia|]. split; [exact Heq|].
    rewrite <- Hsent. apply log_fields_of_row in Hrow.
    rewrite Hrow in Hfields. injection Hfields as <-.
    injection Heq as -> -> -> ->. exact Hs.
  - intros row Hrow Hs.
    set (i := (row - 7)%nat).
    assert (Z.of_nat i < m) as Hi.
    { cbn [forallb] in Hs. rewrite andb_true_r in Hs.
      destruct (sentinel (Grids.cell g row colC)) eqn:SC.
      2:{ pose proof (column_from_reaches g "Logs" colC 7 row ltac:(lia)
                        (not_sentinel_not_empty _ SC)). fold vC in H.
          unfold i. lia. }
      destruct (sentinel (Grids.cell g row colE)) eqn:SE.
      2:{ pose proof (column_from_reaches g "Logs" colE 7 row ltac:(lia)
                        (not_sentinel_not_empty _ SE)). fold vE in H.
          unfold i. lia. }
      destruct (sentinel (Grids.cell g row colG)) eqn:SG.
      2:{ pose proof (column_from_reaches g "Logs" colG 7 row ltac:(lia)
                        (not_sentinel_not_empty _ SG)). fold vG in H.
          unfold i. lia. }
      destruct (sentinel (Grids.cell g row colJ)) eqn:SJ; [discriminate|].
      pose proof (column_from_reaches g "Logs" colJ 7 row ltac:(lia)
                    (not_sentinel_not_empty _ SJ)). fold vJ in H.
      unfold i. lia. }
    destruct (present_rows_fields _ _ _ (Z.of_nat i) Hrows)
      as [fields Hfields]; [apply range_in; lia|].
    pose proof Hfields as Hf'. unfold log_fields in Hf'.
    destruct (field_at _ 0 _ "N/A") as [x0|] eqn:F0; [|discriminate].
    destruct (field_at _ 1 _ "N/A") as [x1|] eqn:F1; [|discriminate].
    destruct (field_at _ 2 _ "N/A") as [x2|] eqn:F2; [|discriminate].
    destruct (field_at _ 3 _ "No") as [x3|] eqn:F3; [|discriminate].
    cbn [Py.bind] in Hf'. injection Hf' as <-.
    assert (log_row [vC; vE; vG; vJ] (Z.of_nat i) = Ok (x0, x1, x2, x3))
      as Hlr by (now apply log_fields_of_row).
    pose proof (Hcells _ _ _ _ _ Hlr) as Heq.
    replace (7 + i)%nat with row in Heq by (unfold i; lia).
    rewrite <- Heq. apply kept_rows_in.
    exists (Z.of_nat i), [x0; x1; x2; x3].
    split; [apply range_in; lia|]. split; [assumption|].
    split; [assumption|].
    injection Heq as -> -> -> ->. now rewrite Hsent.
Qed.

Lemma get_logs_lists_the_rows_from_7_with_a_value_witness :
  Forall
    (fun entry =>
       exists row, (7 <= row)%nat /\
         entry = (value_or "N/A" (cells paid_log) row colC,
                  value_or "N/A" (cells paid_log) row colE,
                  value_or "N/A" (cells paid_log) row colG,
                  value_or "No" (cells paid_log) row colJ) /\
         forallb sentinel
           [Grids.cell (cells paid_log) row colC;
            Grids.cell (cells paid_log) row colE;
            Grids.cell (cells paid_log) row colG;
            Grids.cell (cells paid_log) row colJ]
         = false)
    [("ann", "https://i.ibb.co/a1/one.png", "5", "FALSE");
     ("bob", "https://i.ibb.co/b2/two.png", "7.50", "TRUE")] /\
  (forall row, (7 <= row)%nat ->
     forallb sentinel
       [Grids.cell (cells paid_log) row colC;
        Grids.cell (cells paid_log) row colE;
        Grids.cell (cells paid_log) row colG;
        Grids.cell (cells paid_log) row colJ]
     = false ->
     In (value_or "N/A" (cells paid_log) row colC,
         value_or "N/A" (cells paid_log) row colE,
         value_or "N/A" (cells paid_log) row colG,
         value_or "No" (cells paid_log) row colJ)
        [("ann", "https://i.ibb.co/a1/one.png", "5", "FALSE");
         ("bob", "https://i.ibb.co/b2/two.png", "7.50", "TRUE")]).
Proof.
  apply (get_logs_lists_the_rows_from_7_with_a_value paid_in_january
           (snd (get_logs paid_in_january))).
  - vm_compute. reflexivity.
  - reflexivity.
Defined.

End ListedRows.
